(** * Customer review server: a shallow embedding of [server/index.js]

    The Express handlers of [server/index.js] talk to a MySQL database whose
    schema is [server/schema.sql].  Tables are lists of rows in insertion
    order, every SQL statement the handlers issue is a function on the
    database, and a handler is a program in a small state-and-exception
    monad that threads the database, the log of issued statements, the
    clock and the random source.

    Requests are handled one at a time.  Route parameters and body fields
    carry the types the handlers compute with: ids are integers, a rating
    is a number, comments, names, emails, passwords and reaction types are
    strings, [isFlagged] is a boolean, and a [page] or [limit] query
    parameter is given as the integer that [parseInt] reads in it, if it
    reads any.  JavaScript numbers are doubles: the arithmetic of the
    handlers rounds as doubles do, and a number goes into a statement as
    JavaScript prints it.  A verified token is its payload.  The database
    enforces the keys, references, checks and column widths that
    [schema.sql] declares, and turns down a value that does not fit its
    column (the strict mode that is the default of MySQL 8). *)

From Stdlib Require Import String Ascii.
From Stdlib Require Import List ZArith QArith Qround Bool Lia Permutation.
Import ListNotations.
Close Scope Q_scope.
Open Scope string_scope.
Open Scope list_scope.
Open Scope Z_scope.

(** An integer is a number. *)
Coercion inject_Z : Z >-> Q.

(** ** JavaScript numbers

    The numbers of the handlers are doubles.  Those that matter here have
    integer values, and an integer stands for the double of that value. *)

Module Js.

(** The double nearest to an integer: 53 significant bits, a tie going to
    the even one.  (A result of [2 ^ 1024] or more is [Infinity] in
    JavaScript; here it stays the integer, and is like [Infinity] in being
    written into no statement as a run of digits.) *)
Definition round53 (n : Z) : Z :=
  let a := Z.abs n in
  if a <? 2 ^ 53 then n
  else
    let e := Z.log2 a - 52 in
    let q := a / 2 ^ e in
    let r := a mod 2 ^ e in
    let half := 2 ^ (e - 1) in
    let q' := if (half <? r) || ((r =? half) && Z.odd q) then q + 1 else q in
    Z.sgn n * (q' * 2 ^ e).

(** [a - b] and [a * b] *)
Definition sub (a b : Z) : Z := round53 (a - b).
Definition mul (a b : Z) : Z := round53 (a * b).

(** The integers that end in [e] zeros and read back as the double [x],
    the nearest to [x] first. *)
Definition shortest_at (x e : Z) : option Z :=
  let p := 10 ^ e in
  let lo := (x / p) * p in
  let hi := lo + p in
  match round53 lo =? x, round53 hi =? x with
  | true, true =>
      Some (if x - lo <? hi - x then lo
            else if hi - x <? x - lo then hi
            else if Z.even (lo / p) then lo else hi)
  | true, false => Some lo
  | false, true => Some hi
  | false, false => None
  end.

Fixpoint shortest_from (zeros : nat) (x : Z) : Z :=
  match zeros with
  | O => x
  | S k =>
      match shortest_at x (Z.of_nat zeros) with
      | Some v => v
      | None => shortest_from k x
      end
  end.

(** [String(x)] for a double [x] from 0 to below [10 ^ 21], read as an
    integer: the digits of [x] itself below [2 ^ 53], and above it the
    fewest digits that read back as [x], filled up with zeros. *)
Definition to_digits (x : Z) : Z :=
  if x <? 2 ^ 53 then x else shortest_from 21 x.

(** A number as [mysql2] writes it into a statement, when what it writes
    is a run of digits: a negative number has a sign, and from [10 ^ 21]
    on the number is written with an exponent. *)
Definition unsigned_literal (n : Z) : option Z :=
  if (n <? 0) || (10 ^ 21 <=? n) then None else Some (to_digits n).

End Js.

(** ** SQL text comparison

    No table of [schema.sql] names a collation, so columns take the
    server's default, which compares letters without regard to case.  Text
    is modelled over the ASCII range. *)

Module Sql.

Definition lower (c : ascii) : ascii :=
  let n := nat_of_ascii c in
  if (Nat.leb 65 n && Nat.leb n 90)%bool then ascii_of_nat (n + 32) else c.

Definition char_eqb (a b : ascii) : bool := Ascii.eqb (lower a) (lower b).

(** [a = b] on two text values. *)
Fixpoint text_eqb (a b : list ascii) : bool :=
  match a, b with
  | [], [] => true
  | x :: a', y :: b' => char_eqb x y && text_eqb a' b'
  | _, _ => false
  end.

Definition eqb (a b : string) : bool :=
  text_eqb (list_ascii_of_string a) (list_ascii_of_string b).

Definition percent : ascii := "%"%char.
Definition underscore : ascii := "_"%char.
Definition backslash : ascii := "\"%char.

(** [text LIKE pattern]: [%] matches any run of characters, [_] exactly one
    character, and the escape character [\] makes the character after it
    literal (a [\] that ends the pattern stands for itself). *)
Fixpoint like_chars (p : list ascii) : list ascii -> bool :=
  match p with
  | [] => fun s => match s with [] => true | _ :: _ => false end
  | c :: p' =>
      if Ascii.eqb c percent then
        fix any (s : list ascii) : bool :=
          like_chars p' s || match s with [] => false | _ :: s' => any s' end
      else if Ascii.eqb c underscore then
        fun s => match s with [] => false | _ :: s' => like_chars p' s' end
      else if Ascii.eqb c backslash then
        match p' with
        | [] => fun s => match s with
                         | [d] => char_eqb c d
                         | _ => false
                         end
        | e :: p'' => fun s => match s with
                               | [] => false
                               | d :: s' => char_eqb e d && like_chars p'' s'
                               end
        end
      else
        fun s => match s with
                 | [] => false
                 | d :: s' => char_eqb c d && like_chars p' s'
                 end
  end.

Definition like (text pattern : string) : bool :=
  like_chars (list_ascii_of_string pattern) (list_ascii_of_string text).

(** The characters [LIKE] does not compare literally. *)
Definition is_meta (c : ascii) : bool :=
  Ascii.eqb c percent || Ascii.eqb c underscore || Ascii.eqb c backslash.

(** A term with none of them. *)
Definition plain (term : string) : bool :=
  forallb (fun c => negb (is_meta c)) (list_ascii_of_string term).

(** What "contains the term, ignoring case" means, independently of [LIKE]:
    some suffix of the text starts with the term. *)
Fixpoint starts_with (t s : list ascii) : bool :=
  match t, s with
  | [], _ => true
  | x :: t', y :: s' => char_eqb x y && starts_with t' s'
  | _ :: _, [] => false
  end.

Fixpoint contains_chars (t s : list ascii) : bool :=
  starts_with t s || match s with [] => false | _ :: s' => contains_chars t s' end.

Definition contains (text term : string) : bool :=
  contains_chars (list_ascii_of_string term) (list_ascii_of_string text).

End Sql.

(** ** The tables of [schema.sql] *)

Inductive Role := RoleUser | RoleAdmin.
Inductive ReactionType := Like | Dislike.
Inductive SentimentLabel := Positive | Negative | Neutral.

Definition role_eqb (a b : Role) : bool :=
  match a, b with
  | RoleUser, RoleUser | RoleAdmin, RoleAdmin => true
  | _, _ => false
  end.

Definition reaction_eqb (a b : ReactionType) : bool :=
  match a, b with
  | Like, Like | Dislike, Dislike => true
  | _, _ => false
  end.

(** A string sent for an [ENUM('like','dislike')] column. *)
Definition reaction_of_string (s : string) : option ReactionType :=
  if String.eqb s "like" then Some Like
  else if String.eqb s "dislike" then Some Dislike
  else None.

Definition string_of_reaction (t : ReactionType) : string :=
  match t with Like => "like" | Dislike => "dislike" end.

Record User := mkUser {
  u_id : Z;
  u_name : string;
  u_email : string;
  u_password : string;
  u_role : Role;
  u_created_at : Z
}.

(** [r_likes] and [r_dislikes] are the two counter columns of the table;
    no statement of the server writes them. *)
Record Review := mkReview {
  r_id : Z;
  r_user_id : Z;
  r_rating : Z;
  r_comment : string;
  r_sentiment_score : option Q;
  r_sentiment_label : option SentimentLabel;
  r_likes : Z;
  r_dislikes : Z;
  r_is_flagged : bool;
  r_created_at : Z
}.

Record Reaction := mkReaction {
  x_id : Z;
  x_review_id : Z;
  x_user_id : Z;
  x_reaction_type : ReactionType;
  x_created_at : Z
}.

(** Rows in insertion order, and the next AUTO_INCREMENT value per table. *)
Record DB := mkDB {
  users : list User;
  reviews : list Review;
  review_reactions : list Reaction;
  next_user_id : Z;
  next_review_id : Z;
  next_reaction_id : Z
}.

Inductive SqlError :=
| ER_DUP_ENTRY
| ER_NO_REFERENCED_ROW
| ER_CHECK_CONSTRAINT_VIOLATED
| ER_PARSE_ERROR
| ER_TRUNCATED
| ER_DATA_TOO_LONG
| ER_WARN_DATA_OUT_OF_RANGE.

Inductive Result (A : Type) :=
| Ok (a : A)
| Err (e : SqlError).
Arguments Ok {A} a.
Arguments Err {A} e.

(** ** The statements of [index.js] as functions on the database *)

Module Store.

Definition count {A} (rows : list A) : Z := Z.of_nat (List.length rows).

Definition user_exists (d : DB) (id : Z) : bool :=
  existsb (fun u => u_id u =? id) (users d).

Definition review_exists (d : DB) (id : Z) : bool :=
  existsb (fun r => r_id r =? id) (reviews d).

(** [SELECT * FROM users WHERE email = ?] *)
Definition select_users_by_email (email : string) (d : DB) : list User :=
  filter (fun u => Sql.eqb (u_email u) email) (users d).

(** Whether a text fits a column of [width] characters. *)
Definition fits (width : Z) (text : string) : bool :=
  Z.of_nat (String.length text) <=? width.

Definition only_spaces (text : string) : bool :=
  forallb (Ascii.eqb " "%char) (list_ascii_of_string text).

(** What a column of [width] characters keeps of a text sent for it.  A
    text that fits is kept as it is.  Of a longer one the server cuts the
    end off when what exceeds the width is nothing but spaces, and turns
    the value down when it is anything else. *)
Definition column (width : Z) (text : string) : option string :=
  if fits width text then Some text
  else
    let n := Z.to_nat width in
    if only_spaces (String.substring n (String.length text - n) text)
    then Some (String.substring 0 n text)
    else None.

(** [name VARCHAR(100)], [email VARCHAR(100)], [password VARCHAR(255)] *)
Definition fits_users (name email password : string) : bool :=
  fits 100 name && fits 100 email && fits 255 password.

(** [comment TEXT] *)
Definition fits_comment (comment : string) : bool := fits 65535 comment.

(** A number sent for an INT column: the nearest integer, a half going
    away from zero.  The number is the double that [JSON.parse] made of
    the body's text, taken with its exact value; it reaches the server as
    JavaScript prints it, and what is printed is nearer to that double
    than to any other, the halves among them, so that it has the nearest
    integer of the double itself. *)
Definition to_int (q : Q) : Z :=
  if Qle_bool 0 q then Qfloor (q + (1 # 2)) else - Qfloor (- q + (1 # 2)).

Definition int_min : Z := - 2 ^ 31.
Definition int_max : Z := 2 ^ 31 - 1.

(** [INSERT INTO users (name, email, password, role) VALUES (?, ?, ?, ?)];
    [email] is UNIQUE.  Returns [insertId]. *)
Definition insert_user (name email password : string) (role : Role)
    (now : Z) (d : DB) : Result (Z * DB) :=
  match column 100 name, column 100 email, column 255 password with
  | Some name, Some email, Some password =>
      if existsb (fun u => Sql.eqb (u_email u) email) (users d) then Err ER_DUP_ENTRY
      else
        let id := next_user_id d in
        Ok (id, mkDB (users d ++ [mkUser id name email password role now])
                     (reviews d) (review_reactions d)
                     (id + 1) (next_review_id d) (next_reaction_id d))
  | _, _, _ => Err ER_DATA_TOO_LONG
  end.

(** The optional [WHERE r.user_id = ?] of the public listing. *)
Definition where_user (userId : option Z) (r : Review) : bool :=
  match userId with
  | Some uid => r_user_id r =? uid
  | None => true
  end.

(** [WHERE comment LIKE ?] *)
Definition where_comment_like (pattern : string) (r : Review) : bool :=
  Sql.like (r_comment r) pattern.

(** [SELECT COUNT( * ) FROM review_reactions
     WHERE review_id = ? AND reaction_type = ...] *)
Definition count_reactions (reviewId : Z) (t : ReactionType) (d : DB) : Z :=
  count (filter (fun x => (x_review_id x =? reviewId)
                          && reaction_eqb (x_reaction_type x) t)
                (review_reactions d)).

(** [LEFT JOIN users u ON r.user_id = u.id]: [u.id] is the primary key, so
    the join adds at most one user to a review, and none gives NULLs. *)
Definition joined_user (d : DB) (r : Review) : option User :=
  find (fun u => u_id u =? r_user_id r) (users d).

(** [LIMIT ? OFFSET ?]: both must be integers from 0 to below [2 ^ 64],
    or the statement is rejected. *)
Definition limit_offset {A} (limit offset : Z) (rows : list A) : Result (list A) :=
  if (limit <? 0) || (offset <? 0) || (2 ^ 64 <=? limit) || (2 ^ 64 <=? offset)
  then Err ER_PARSE_ERROR
  else Ok (firstn (Z.to_nat limit) (skipn (Z.to_nat offset) rows)).

(** [INSERT INTO reviews (user_id, rating, comment, sentiment_score,
    sentiment_label) VALUES (?, ?, ?, ?, ?)].  [user_id] references
    [users(id)], [rating] is an INT with
    [CHECK (rating >= 1 AND rating <= 5)], [comment] is a TEXT, the other
    columns take their defaults. *)
Definition insert_review (userId : Z) (rating : Q) (comment : string)
    (score : Q) (label : SentimentLabel) (now : Z) (d : DB) : Result (Z * DB) :=
  let stored := to_int rating in
  match column 65535 comment with
  | None => Err ER_DATA_TOO_LONG
  | Some comment =>
      if (stored <? int_min) || (int_max <? stored) then Err ER_WARN_DATA_OUT_OF_RANGE
      else if negb (user_exists d userId) then Err ER_NO_REFERENCED_ROW
      else if negb ((1 <=? stored) && (stored <=? 5)) then Err ER_CHECK_CONSTRAINT_VIOLATED
      else
        let id := next_review_id d in
        Ok (id, mkDB (users d)
                     (reviews d ++ [mkReview id userId stored comment (Some score)
                                             (Some label) 0 0 false now])
                     (review_reactions d)
                     (next_user_id d) (id + 1) (next_reaction_id d))
  end.

(** [SELECT r.*, u.name as user_name FROM reviews r
     LEFT JOIN users u ON r.user_id = u.id WHERE r.id = ?] *)
Definition select_review_with_user (id : Z) (d : DB) : list (Review * option string) :=
  map (fun r => (r, option_map u_name (joined_user d r)))
      (filter (fun r => r_id r =? id) (reviews d)).

(** [SELECT user_id FROM reviews WHERE id = ?] *)
Definition select_review_owner (id : Z) (d : DB) : list Z :=
  map r_user_id (filter (fun r => r_id r =? id) (reviews d)).

(** [SELECT id FROM reviews WHERE id = ?] *)
Definition select_review_id (id : Z) (d : DB) : list Z :=
  map r_id (filter (fun r => r_id r =? id) (reviews d)).

(** [DELETE FROM review_reactions WHERE review_id = ?] *)
Definition delete_reactions (reviewId : Z) (d : DB) : DB :=
  mkDB (users d) (reviews d)
       (filter (fun x => negb (x_review_id x =? reviewId)) (review_reactions d))
       (next_user_id d) (next_review_id d) (next_reaction_id d).

(** [DELETE FROM reviews WHERE id = ?]; the reactions of a deleted review
    go with it ([ON DELETE CASCADE]). *)
Definition delete_review (id : Z) (d : DB) : DB :=
  mkDB (users d)
       (filter (fun r => negb (r_id r =? id)) (reviews d))
       (filter (fun x => negb (x_review_id x =? id)) (review_reactions d))
       (next_user_id d) (next_review_id d) (next_reaction_id d).

(** [SELECT * FROM review_reactions WHERE review_id = ? AND user_id = ?] *)
Definition select_reactions (reviewId userId : Z) (d : DB) : list Reaction :=
  filter (fun x => (x_review_id x =? reviewId) && (x_user_id x =? userId))
         (review_reactions d).

(** [UPDATE review_reactions SET reaction_type = ?
     WHERE review_id = ? AND user_id = ?] *)
Definition update_reaction (reactionType : string) (reviewId userId : Z)
    (d : DB) : Result (unit * DB) :=
  match reaction_of_string reactionType with
  | None => Err ER_TRUNCATED
  | Some t =>
      Ok (tt, mkDB (users d) (reviews d)
                   (map (fun x =>
                           if (x_review_id x =? reviewId) && (x_user_id x =? userId)
                           then mkReaction (x_id x) (x_review_id x) (x_user_id x) t
                                           (x_created_at x)
                           else x)
                        (review_reactions d))
                   (next_user_id d) (next_review_id d) (next_reaction_id d))
  end.

(** [INSERT INTO review_reactions (review_id, user_id, reaction_type)
    VALUES (?, ?, ?)]; both ids are foreign keys and the pair is
    [UNIQUE KEY unique_reaction]. *)
Definition insert_reaction (reviewId userId : Z) (reactionType : string)
    (now : Z) (d : DB) : Result (unit * DB) :=
  match reaction_of_string reactionType with
  | None => Err ER_TRUNCATED
  | Some t =>
      if negb (review_exists d reviewId && user_exists d userId)
      then Err ER_NO_REFERENCED_ROW
      else if existsb (fun x => (x_review_id x =? reviewId) && (x_user_id x =? userId))
                      (review_reactions d)
      then Err ER_DUP_ENTRY
      else
        let id := next_reaction_id d in
        Ok (tt, mkDB (users d) (reviews d)
                     (review_reactions d ++ [mkReaction id reviewId userId t now])
                     (next_user_id d) (next_review_id d) (id + 1))
  end.

(** [UPDATE reviews SET is_flagged = ? WHERE id = ?] *)
Definition update_flag (isFlagged : bool) (id : Z) (d : DB) : DB :=
  mkDB (users d)
       (map (fun r =>
               if r_id r =? id
               then mkReview (r_id r) (r_user_id r) (r_rating r) (r_comment r)
                             (r_sentiment_score r) (r_sentiment_label r)
                             (r_likes r) (r_dislikes r) isFlagged (r_created_at r)
               else r)
            (reviews d))
       (review_reactions d)
       (next_user_id d) (next_review_id d) (next_reaction_id d).

(** What the schema keeps true of every database. *)
Fixpoint nodupb (l : list (Z * Z)) : bool :=
  match l with
  | [] => true
  | (a, b) :: l' =>
      negb (existsb (fun q => (fst q =? a) && (snd q =? b)) l') && nodupb l'
  end.

Definition reaction_key (x : Reaction) : Z * Z := (x_review_id x, x_user_id x).

(** [UNIQUE KEY unique_reaction (review_id, user_id)] *)
Definition unique_reaction (d : DB) : bool :=
  nodupb (map reaction_key (review_reactions d)).

(** AUTO_INCREMENT hands out ids above every id in the table. *)
Definition review_ids_fresh (d : DB) : bool :=
  forallb (fun r => r_id r <? next_review_id d) (reviews d).

End Store.

(** ** Requests, responses and the handler monad *)

(** The payload of a verified token, [req.user]. *)
Record Principal := mkPrincipal {
  p_id : Z;
  p_email : string;
  p_role : Role
}.

(** What [jwt.verify] makes of the Authorization header. *)
Inductive Auth :=
| NoToken
| InvalidToken
| Bearer (user : Principal).

(** A row of a listing.  The select list is [r.*], then the joined user
    columns, then the two counting subqueries [as likes] and [as dislikes];
    the row object keeps one value per name, the last one, so its [likes]
    and [dislikes] are the subqueries' and not the columns of [r.*].  The
    public listing has no [user_email] column. *)
Record ListedReview := mkListed {
  lr_review : Review;
  lr_user_name : option string;
  lr_user_email : option string;
  lr_likes : Z;
  lr_dislikes : Z
}.

Record Pagination := mkPagination {
  pg_total : Z;
  pg_page : Z;
  pg_limit : Z;
  pg_totalPages : Z
}.

Inductive Body :=
| Message (message : string)
| Registered (token : Principal) (id : Z) (name email : string) (role : Role)
| Listing (items : list ListedReview) (pagination : Pagination)
| Created (review : option (Review * option string))
| Counts (likes dislikes : Z).

Record Response := mkResponse {
  status : Z;
  body : Body
}.

(** The statements a handler sends, in the order it sends them. *)
Inductive Query :=
| SelectUsersByEmail (email : string)
| InsertUser (name email : string)
| CountReviews (userId : option Z)
| SelectReviewsPage (userId : option Z) (limit offset : Z)
| InsertReview (userId : Z) (rating : Q) (comment : string)
| SelectReviewWithUser (id : Z)
| SelectReviewOwner (id : Z)
| DeleteReactions (reviewId : Z)
| DeleteReview (id : Z)
| SelectReviewId (id : Z)
| SelectReactions (reviewId userId : Z)
| UpdateReaction (reactionType : string) (reviewId userId : Z)
| InsertReaction (reviewId userId : Z) (reactionType : string)
| CountReactions (reviewId : Z) (t : ReactionType)
| CountReviewsLike (pattern : string)
| SelectAdminPage (pattern : string) (limit offset : Z)
| UpdateFlag (isFlagged : bool) (id : Z).

(** Everything a handler can touch: the database, the database clock, the
    statements sent so far, the values [Math.random] is going to return and
    how many of them were drawn, and the texts handed to the classifier. *)
Record World := mkWorld {
  w_db : DB;
  w_now : Z;
  w_queries : list Query;
  w_random : nat -> Q;
  w_drawn : nat;
  w_classified : list string
}.

Definition M (A : Type) : Type := World -> Result A * World.
Definition Handler : Type := World -> Response * World.

Definition ret {A} (a : A) : M A := fun w => (Ok a, w).

Definition bind {A B} (m : M A) (k : A -> M B) : M B :=
  fun w => match m w with
           | (Ok a, w') => k a w'
           | (Err e, w') => (Err e, w')
           end.

Notation "x <- m ;; k" := (bind m (fun x => k))
  (at level 61, m at next level, right associativity).
Notation "m ;;; k" := (bind m (fun _ => k))
  (at level 61, right associativity).

(** [try { ... } catch (error) { ... }] around a handler body. *)
Definition try_catch (m : M Response) (handler : SqlError -> Response) : Handler :=
  fun w => match m w with
           | (Ok r, w') => (r, w')
           | (Err e, w') => (handler e, w')
           end.

Definition sent (q : Query) (w : World) : World :=
  mkWorld (w_db w) (w_now w) (w_queries w ++ [q]) (w_random w) (w_drawn w)
          (w_classified w).

(** [await db.promise().query(...)] for a statement that only reads. *)
Definition db_read {A} (q : Query) (f : DB -> A) : M A :=
  fun w => (Ok (f (w_db w)), sent q w).

(** A reading statement the server may reject. *)
Definition db_try_read {A} (q : Query) (f : DB -> Result A) : M A :=
  fun w => (f (w_db w), sent q w).

(** A statement that writes: the rows change only when it is accepted. *)
Definition db_write {A} (q : Query) (f : Z -> DB -> Result (A * DB)) : M A :=
  fun w => match f (w_now w) (w_db w) with
           | Ok (a, d') =>
               (Ok a, mkWorld d' (w_now w) (w_queries w ++ [q]) (w_random w)
                              (w_drawn w) (w_classified w))
           | Err e => (Err e, sent q w)
           end.

Definition always (f : DB -> DB) : Z -> DB -> Result (unit * DB) :=
  fun _ d => Ok (tt, f d).

(** [Math.random()] *)
Definition Math_random : M Q :=
  fun w => (Ok (w_random w (w_drawn w)),
            mkWorld (w_db w) (w_now w) (w_queries w) (w_random w)
                    (S (w_drawn w)) (w_classified w)).

Definition gt (a b : Q) : bool := negb (Qle_bool a b).
Definition lt (a b : Q) : bool := negb (Qle_bool b a).

(** [sentiment > 0.7 ? 'positive' : sentiment < 0.3 ? 'negative' : 'neutral'] *)
Definition label_of (sentiment : Q) : SentimentLabel :=
  if gt sentiment (7 # 10) then Positive
  else if lt sentiment (3 # 10) then Negative
  else Neutral.

(** [analyzeSentiment(text)], the mock classifier. *)
Definition analyzeSentiment (text : string) : M (Q * SentimentLabel) :=
  fun w =>
    (sentiment <- Math_random ;;
     let label := label_of sentiment in
     ret (sentiment, label))
      (mkWorld (w_db w) (w_now w) (w_queries w) (w_random w) (w_drawn w)
               (w_classified w ++ [text])).

Definition json (code : Z) (b : Body) : Response := mkResponse code b.

(** [parseInt(req.query.x) || d].  A parameter that is absent or does not
    begin with a number is [None], and [parseInt] makes NaN of it; one
    in which [parseInt] reads the integer [n] is [Some n], and
    [parseInt] makes the double nearest to [n] of it.  NaN and 0 are
    falsy. *)
Definition or_default (parsed : option Z) (d : Z) : Z :=
  match parsed with
  | Some n => let x := Js.round53 n in if x =? 0 then d else x
  | None => d
  end.

(** [Math.ceil(total / limit)], for a [total] below [2 ^ 53], where the
    quotient of the doubles has the ceiling of the exact quotient. *)
Definition Math_ceil_div (total limit : Z) : Z := - ((- total) / limit).

(** [authenticateToken] *)
Definition authenticateToken (auth : Auth) (next : Principal -> Handler) : Handler :=
  match auth with
  | NoToken => fun w => (json 401 (Message "Authentication required"), w)
  | InvalidToken => fun w => (json 403 (Message "Invalid or expired token"), w)
  | Bearer user => next user
  end.

(** [isAdmin] *)
Definition isAdmin (user : Principal) (next : Handler) : Handler :=
  if negb (role_eqb (p_role user) RoleAdmin)
  then fun w => (json 403 (Message "Admin access required"), w)
  else next.

(** ** The routes of [index.js] *)

Section Routes.

(** [ORDER BY r.created_at DESC] as carried out by the database server for
    a statement with the given [LIMIT] and [OFFSET]. *)
Variable order_by_created_at_desc : Z -> Z -> list Review -> list Review.

(** The value a FLOAT column keeps of a number. *)
Variable to_float : Q -> Q.

(** [bcrypt.hash(password, 10)] *)
Variable bcrypt_hash : string -> string.

Definition listed (d : DB) (with_email : bool) (r : Review) : ListedReview :=
  mkListed r
           (option_map u_name (Store.joined_user d r))
           (if with_email then option_map u_email (Store.joined_user d r) else None)
           (Store.count_reactions (r_id r) Like d)
           (Store.count_reactions (r_id r) Dislike d).

(** [ORDER BY r.created_at DESC LIMIT ? OFFSET ?] with the two numbers
    written into the statement. *)
Definition ordered_window (limit offset : Z) (rows : list Review)
    : Result (list Review) :=
  match Js.unsigned_literal limit, Js.unsigned_literal offset with
  | Some l, Some o => Store.limit_offset l o (order_by_created_at_desc l o rows)
  | _, _ => Err ER_PARSE_ERROR
  end.

(** The listing statement of [GET /api/reviews]. *)
Definition select_reviews_page (userId : option Z) (limit offset : Z) (d : DB)
    : Result (list ListedReview) :=
  match ordered_window limit offset
          (filter (Store.where_user userId) (reviews d)) with
  | Ok rows => Ok (map (listed d false) rows)
  | Err e => Err e
  end.

(** The listing statement of [GET /api/admin/reviews]. *)
Definition select_admin_page (pattern : string) (limit offset : Z) (d : DB)
    : Result (list ListedReview) :=
  match ordered_window limit offset
          (filter (Store.where_comment_like pattern) (reviews d)) with
  | Ok rows => Ok (map (listed d true) rows)
  | Err e => Err e
  end.

(** [POST /api/auth/register] *)
Definition post_auth_register (name email password : string) : Handler :=
  try_catch
    (existingUsers <- db_read (SelectUsersByEmail email)
                              (Store.select_users_by_email email) ;;
     if (0 <? Store.count existingUsers)
     then ret (json 400 (Message "Email already registered"))
     else
       let hashedPassword := bcrypt_hash password in
       insertId <- db_write (InsertUser name email)
                            (Store.insert_user name email hashedPassword RoleUser) ;;
       let token := mkPrincipal insertId email RoleUser in
       ret (json 201 (Registered token insertId name email RoleUser)))
    (fun _ => json 500 (Message "Server error during registration")).

(** [GET /api/reviews] *)
Definition get_reviews (page_param limit_param userId : option Z) : Handler :=
  let page := or_default page_param 1 in
  let limit := or_default limit_param 6 in
  let offset := Js.mul (Js.sub page 1) limit in
  try_catch
    (total <- db_read (CountReviews userId)
                      (fun d => Store.count (filter (Store.where_user userId) (reviews d))) ;;
     reviews <- db_try_read (SelectReviewsPage userId limit offset)
                            (select_reviews_page userId limit offset) ;;
     ret (json 200 (Listing reviews
                            (mkPagination total page limit (Math_ceil_div total limit)))))
    (fun _ => json 500 (Message "Server error")).

(** [POST /api/reviews] *)
Definition post_reviews (auth : Auth) (rating : Q) (comment : string) : Handler :=
  authenticateToken auth (fun user =>
    let userId := p_id user in
    try_catch
      (sentimentResponse <- analyzeSentiment comment ;;
       insertId <- db_write (InsertReview userId rating comment)
                            (Store.insert_review userId rating comment
                               (to_float (fst sentimentResponse))
                               (snd sentimentResponse)) ;;
       reviews <- db_read (SelectReviewWithUser insertId)
                          (Store.select_review_with_user insertId) ;;
       ret (json 201 (Created (hd_error reviews))))
      (fun _ => json 500 (Message "Server error"))).

(** [DELETE /api/reviews/:id] *)
Definition delete_reviews_id (auth : Auth) (reviewId : Z) : Handler :=
  authenticateToken auth (fun user =>
    try_catch
      (reviews <- db_read (SelectReviewOwner reviewId)
                          (Store.select_review_owner reviewId) ;;
       match reviews with
       | [] => ret (json 404 (Message "Review not found"))
       | owner :: _ =>
           if negb (role_eqb (p_role user) RoleAdmin) && negb (owner =? p_id user)
           then ret (json 403 (Message "Not authorized to delete this review"))
           else
             db_write (DeleteReactions reviewId)
                      (always (Store.delete_reactions reviewId)) ;;;
             db_write (DeleteReview reviewId)
                      (always (Store.delete_review reviewId)) ;;;
             ret (json 200 (Message "Review deleted successfully"))
       end)
      (fun _ => json 500 (Message "Server error"))).

(** [['like', 'dislike'].includes(reactionType)] *)
Definition is_reaction_type (reactionType : string) : bool :=
  existsb (String.eqb reactionType) ["like"; "dislike"].

(** [POST /api/reviews/:id/reactions] *)
Definition post_reviews_id_reactions (auth : Auth) (reviewId : Z)
    (reactionType : string) : Handler :=
  authenticateToken auth (fun user =>
    let userId := p_id user in
    if negb (is_reaction_type reactionType)
    then fun w => (json 400 (Message "Invalid reaction type"), w)
    else
      try_catch
        (reviews <- db_read (SelectReviewId reviewId)
                            (Store.select_review_id reviewId) ;;
         if Store.count reviews =? 0
         then ret (json 404 (Message "Review not found"))
         else
           existingReactions <- db_read (SelectReactions reviewId userId)
                                        (Store.select_reactions reviewId userId) ;;
           (if 0 <? Store.count existingReactions
            then db_write (UpdateReaction reactionType reviewId userId)
                          (fun _ => Store.update_reaction reactionType reviewId userId)
            else db_write (InsertReaction reviewId userId reactionType)
                          (Store.insert_reaction reviewId userId reactionType)) ;;;
           likes <- db_read (CountReactions reviewId Like)
                            (Store.count_reactions reviewId Like) ;;
           dislikes <- db_read (CountReactions reviewId Dislike)
                               (Store.count_reactions reviewId Dislike) ;;
           ret (json 200 (Counts likes dislikes)))
        (fun _ => json 500 (Message "Server error"))).

(** [GET /api/admin/reviews] *)
Definition get_admin_reviews (auth : Auth) (page_param limit_param : option Z)
    (search_param : option string) : Handler :=
  authenticateToken auth (fun user => isAdmin user (
    let page := or_default page_param 1 in
    let limit := or_default limit_param 10 in
    let offset := Js.mul (Js.sub page 1) limit in
    let search := match search_param with Some s => s | None => EmptyString end in
    let pattern := ("%" ++ search ++ "%")%string in
    try_catch
      (total <- db_read (CountReviewsLike pattern)
                        (fun d => Store.count
                                    (filter (Store.where_comment_like pattern) (reviews d))) ;;
       reviews <- db_try_read (SelectAdminPage pattern limit offset)
                              (select_admin_page pattern limit offset) ;;
       ret (json 200 (Listing reviews
                              (mkPagination total page limit (Math_ceil_div total limit)))))
      (fun _ => json 500 (Message "Server error")))).

(** [PUT /api/admin/reviews/:id/flag] *)
Definition put_admin_reviews_id_flag (auth : Auth) (reviewId : Z)
    (isFlagged : bool) : Handler :=
  authenticateToken auth (fun user => isAdmin user (
    try_catch
      (db_write (UpdateFlag isFlagged reviewId)
                (always (Store.update_flag isFlagged reviewId)) ;;;
       ret (json 200 (Message "Review flag status updated")))
      (fun _ => json 500 (Message "Server error")))).

End Routes.

(** ** Vocabulary of the properties *)

(** The rows of a listing response, none for any other response. *)
Definition response_items (r : Response) : list ListedReview :=
  match body r with
  | Listing items _ => items
  | _ => []
  end.

Definition response_reviews (r : Response) : list Review :=
  map lr_review (response_items r).

(** Pages [1 .. totalPages]. *)
Definition pages (totalPages : Z) : list Z :=
  map Z.of_nat (seq 1 (Z.to_nat totalPages)).

Definition sum (l : list Z) : Z := fold_right Z.add 0 l.

(** A page and a limit, as the handlers take them after the defaults, with
    which JavaScript computes exactly: both from 1 on, and the limit and
    the offset [(page - 1) * limit] below [2 ^ 53]. *)
Definition exact_paging (page limit : Z) : bool :=
  (1 <=? page) && (1 <=? limit) && (limit <? 2 ^ 53)
  && ((page - 1) * limit <? 2 ^ 53).

Fixpoint sorted_by (le : Review -> Review -> bool) (l : list Review) : bool :=
  match l with
  | a :: ((b :: _) as t) => le a b && sorted_by le t
  | _ => true
  end.

(** Newest first; reviews of one instant may follow each other. *)
Definition created_at_desc (a b : Review) : bool :=
  r_created_at b <=? r_created_at a.

(** Strictly newest first. *)
Definition created_at_strictly_desc (a b : Review) : bool :=
  r_created_at b <? r_created_at a.

(** Newest first, and the higher id first among reviews of one instant. *)
Definition created_at_then_id_desc (a b : Review) : bool :=
  (r_created_at b <? r_created_at a)
  || ((r_created_at b =? r_created_at a) && (r_id b <? r_id a)).

(** What [ORDER BY r.created_at DESC] promises of its result, whatever
    the LIMIT and OFFSET: the same rows, newest first. *)
Definition orders_by_created_at_desc
    (order : Z -> Z -> list Review -> list Review) : Prop :=
  forall limit offset rows,
    Permutation rows (order limit offset rows)
    /\ sorted_by created_at_desc (order limit offset rows) = true.

(** One server that keeps the promise: a stable sort of the rows in table
    order, so that reviews of one instant stay in insertion order. *)
Fixpoint insert_by_created_at (r : Review) (l : list Review) : list Review :=
  match l with
  | [] => [r]
  | h :: t =>
      if r_created_at h <=? r_created_at r then r :: l
      else h :: insert_by_created_at r t
  end.

Definition stable_order (limit offset : Z) (rows : list Review) : list Review :=
  fold_right insert_by_created_at [] rows.

(** Another server that keeps it: the first page is sorted from the rows
    in table order, every later page from the rows in reverse table order,
    as an execution plan that changes with the OFFSET may do. *)
Definition plan_dependent_order (limit offset : Z) (rows : list Review) : list Review :=
  if offset =? 0 then stable_order limit offset rows
  else stable_order limit offset (rev rows).

(** Successive reaction requests of one principal on one review. *)
Fixpoint react_calls (auth : Auth) (reviewId : Z) (types : list string)
    (w : World) : list Response * World :=
  match types with
  | [] => ([], w)
  | t :: ts =>
      let (r, w1) := post_reviews_id_reactions auth reviewId t w in
      let (rs, w2) := react_calls auth reviewId ts w1 in
      (r :: rs, w2)
  end.

(** The review a request addresses by id. *)
Definition review_by_id (d : DB) (id : Z) : option Review :=
  find (fun r => r_id r =? id) (reviews d).

(** The spec's [canDelete]. *)
Definition canDelete (user : Principal) (r : Review) : bool :=
  role_eqb (p_role user) RoleAdmin || (p_id user =? r_user_id r).

(** ** The database [schema.sql] sets up

    Each INSERT statement of the script stamps all its rows with one
    CURRENT_TIMESTAMP; the script's instant is 0. *)

Definition seed_users : list User :=
  [ mkUser 1 "Shaibin K B" "shaibinkb16@gmail.com"
           "$2b$10$Inhm9Tg/JRrkPLs5g/26QOXacMK0gsnVoNUvHbSVZ.fzCAD/L7xOS" RoleAdmin 0;
    mkUser 2 "John Doe" "john@example.com"
           "$2a$10$X7UrE2JgX9Y9Y9Y9Y9Y9Y.9Y9Y9Y9Y9Y9Y9Y9Y9Y9Y9Y9Y9Y9Y" RoleUser 0;
    mkUser 3 "Jane Smith" "jane@example.com"
           "$2a$10$X7UrE2JgX9Y9Y9Y9Y9Y9Y.9Y9Y9Y9Y9Y9Y9Y9Y9Y9Y9Y9Y9Y9Y" RoleUser 0 ].

Definition seed_reviews : list Review :=
  [ mkReview 1 2 5
      "This product exceeded my expectations! The quality is outstanding and the service was excellent."
      (Some (85 # 100)%Q) (Some Positive) 0 0 false 0;
    mkReview 2 3 4
      "Good product overall, but shipping took a bit longer than expected."
      (Some (65 # 100)%Q) (Some Positive) 0 0 false 0;
    mkReview 3 2 3
      "The product is okay, but there are better options available for the same price."
      (Some (45 # 100)%Q) (Some Neutral) 0 0 false 0;
    mkReview 4 3 2
      "I was disappointed with the quality. It didn't last as long as I expected."
      (Some (25 # 100)%Q) (Some Negative) 0 0 false 0 ].

Definition seed_reactions : list Reaction :=
  [ mkReaction 1 1 3 Like 0;
    mkReaction 2 1 2 Like 0;
    mkReaction 3 2 2 Like 0;
    mkReaction 4 3 3 Dislike 0;
    mkReaction 5 4 2 Dislike 0 ].

Definition seed_db : DB := mkDB seed_users seed_reviews seed_reactions 4 5 6.

(** The server some time after the script ran, with a random source that
    always answers one half. *)
Definition seed_world : World := mkWorld seed_db 100 [] (fun _ => (1 # 2)%Q) 0 [].

(** The same server had the four reviews been written one after the other,
    at instants 10, 20, 30 and 40. *)
Definition dated_reviews : list Review :=
  map (fun r => mkReview (r_id r) (r_user_id r) (r_rating r) (r_comment r)
                         (r_sentiment_score r) (r_sentiment_label r)
                         (r_likes r) (r_dislikes r) (r_is_flagged r) (10 * r_id r))
      seed_reviews.

Definition dated_world : World :=
  mkWorld (mkDB seed_users dated_reviews seed_reactions 4 5 6) 100 []
          (fun _ => (1 # 2)%Q) 0 [].

Definition the_admin : Principal := mkPrincipal 1 "shaibinkb16@gmail.com" RoleAdmin.
Definition john : Principal := mkPrincipal 2 "john@example.com" RoleUser.
Definition jane : Principal := mkPrincipal 3 "jane@example.com" RoleUser.

(** ** Logging in, and the application as a whole *)

Section Application.

Variable order_by_created_at_desc : Z -> Z -> list Review -> list Review.
Variable to_float : Q -> Q.
Variable bcrypt_hash : string -> string.

(** [bcrypt.compare(password, hash)] *)
Variable bcrypt_compare : string -> string -> bool.

(** [POST /api/auth/login].  The body of a successful login has the shape
    of a registration's: a token and the user's id, name, email and role. *)
Definition post_auth_login (email password : string) : Handler :=
  try_catch
    (users <- db_read (SelectUsersByEmail email)
                      (Store.select_users_by_email email) ;;
     match users with
     | [] => ret (json 401 (Message "Invalid credentials"))
     | user :: _ =>
         let validPassword := bcrypt_compare password (u_password user) in
         if negb validPassword
         then ret (json 401 (Message "Invalid credentials"))
         else
           let token := mkPrincipal (u_id user) (u_email user) (u_role user) in
           ret (json 200 (Registered token (u_id user) (u_name user)
                                     (u_email user) (u_role user)))
     end)
    (fun _ => json 500 (Message "Server error during login")).

(** The requests the routes of [index.js] answer ([GET /api/auth/me], which
    only reads the [users] table, is not among them). *)
Inductive Request :=
| PostAuthRegister (name email password : string)
| PostAuthLogin (email password : string)
| GetReviews (page limit userId : option Z)
| PostReviews (auth : Auth) (rating : Q) (comment : string)
| DeleteReviewsId (auth : Auth) (reviewId : Z)
| PostReviewsIdReactions (auth : Auth) (reviewId : Z) (reactionType : string)
| GetAdminReviews (auth : Auth) (page limit : option Z) (search : option string)
| PutAdminReviewsIdFlag (auth : Auth) (reviewId : Z) (isFlagged : bool).

(** The route table of [app]. *)
Definition serve (req : Request) : Handler :=
  match req with
  | PostAuthRegister name email password =>
      post_auth_register bcrypt_hash name email password
  | PostAuthLogin email password => post_auth_login email password
  | GetReviews page limit userId =>
      get_reviews order_by_created_at_desc page limit userId
  | PostReviews auth rating comment => post_reviews to_float auth rating comment
  | DeleteReviewsId auth reviewId => delete_reviews_id auth reviewId
  | PostReviewsIdReactions auth reviewId reactionType =>
      post_reviews_id_reactions auth reviewId reactionType
  | GetAdminReviews auth page limit search =>
      get_admin_reviews order_by_created_at_desc auth page limit search
  | PutAdminReviewsIdFlag auth reviewId isFlagged =>
      put_admin_reviews_id_flag auth reviewId isFlagged
  end.

(** Requests answered one after the other. *)
Fixpoint serve_all (reqs : list Request) (w : World) : list Response * World :=
  match reqs with
  | [] => ([], w)
  | req :: rest =>
      let (r, w1) := serve req w in
      let (rs, w2) := serve_all rest w1 in
      (r :: rs, w2)
  end.

End Application.

(** ** What [schema.sql] declares of the tables, as checks on a database *)

Module Schema.

(** [email VARCHAR(100) NOT NULL UNIQUE] *)
Fixpoint emails_unique_in (l : list User) : bool :=
  match l with
  | [] => true
  | u :: l' =>
      negb (existsb (fun v => Sql.eqb (u_email v) (u_email u)) l')
      && emails_unique_in l'
  end.

Definition emails_unique (d : DB) : bool := emails_unique_in (users d).

(** The three FOREIGN KEY clauses. *)
Definition references_ok (d : DB) : bool :=
  forallb (fun r => Store.user_exists d (r_user_id r)) (reviews d)
  && forallb (fun x => Store.review_exists d (x_review_id x)
                       && Store.user_exists d (x_user_id x))
             (review_reactions d).

(** [CHECK (rating >= 1 AND rating <= 5)] *)
Definition ratings_ok (d : DB) : bool :=
  forallb (fun r => (1 <=? r_rating r) && (r_rating r <=? 5)) (reviews d).

End Schema.

(** The statements of [index.js] that change rows, when the database
    accepts them at the instant [now]. *)
Inductive accepted_write (now : Z) (d : DB) : DB -> Prop :=
| WroteUser name email password role id d' :
    Store.insert_user name email password role now d = Ok (id, d') ->
    accepted_write now d d'
| WroteReview userId rating comment score label id d' :
    Store.insert_review userId rating comment score label now d = Ok (id, d') ->
    accepted_write now d d'
| DeletedReactions reviewId :
    accepted_write now d (Store.delete_reactions reviewId d)
| DeletedReview id :
    accepted_write now d (Store.delete_review id d)
| UpdatedReaction reactionType reviewId userId d' :
    Store.update_reaction reactionType reviewId userId d = Ok (tt, d') ->
    accepted_write now d d'
| WroteReaction reviewId userId reactionType d' :
    Store.insert_reaction reviewId userId reactionType now d = Ok (tt, d') ->
    accepted_write now d d'
| UpdatedFlag isFlagged id :
    accepted_write now d (Store.update_flag isFlagged id d).

(** Any number of them, one after the other. *)
Inductive accepted_writes (now : Z) : DB -> DB -> Prop :=
| NoWrite d : accepted_writes now d d
| ThenWrite d d1 d2 :
    accepted_write now d d1 -> accepted_writes now d1 d2 -> accepted_writes now d d2.

(** Who reacted to a review so far. *)
Definition has_reacted (d : DB) (reviewId userId : Z) : bool :=
  existsb (fun x => (x_review_id x =? reviewId) && (x_user_id x =? userId))
          (review_reactions d).

(** Whether the table holds a reaction of that type by that user. *)
Definition has_reacted_with (d : DB) (reviewId userId : Z) (t : ReactionType) : bool :=
  existsb (fun x => (x_review_id x =? reviewId) && (x_user_id x =? userId)
                    && reaction_eqb (x_reaction_type x) t)
          (review_reactions d).

(** * Properties *)

Ltac run_handler :=
  unfold authenticateToken, isAdmin, try_catch, bind, ret, db_read,
    db_try_read, db_write, always, sent; cbn.

(** ** Reaction type validation *)

Lemma is_reaction_type_spec (t : string) :
  is_reaction_type t = true <-> t = "like" \/ t = "dislike".
Proof.
  unfold is_reaction_type; cbn.
  rewrite orb_false_r, orb_true_iff, !String.eqb_eq. tauto.
Qed.

Lemma reaction_of_string_valid (t : string) :
  is_reaction_type t = true ->
  exists ty, reaction_of_string t = Some ty /\ string_of_reaction ty = t.
Proof.
  intros H. apply is_reaction_type_spec in H. destruct H as [-> | ->].
  - exists Like. split; reflexivity.
  - exists Dislike. split; reflexivity.
Qed.

(** C10: a reaction request whose type is neither 'like' nor 'dislike' is
    answered 400 before the handler sends any statement: the world, with
    its database and its log of statements, is returned as it was, whether
    or not the review exists. *)
Theorem react_invalid_type_rejected_before_store
    (user : Principal) (reviewId : Z) (reactionType : string) (w : World) :
  reactionType <> "like" ->
  reactionType <> "dislike" ->
  post_reviews_id_reactions (Bearer user) reviewId reactionType w
  = (json 400 (Message "Invalid reaction type"), w).
Proof.
  intros Hl Hd.
  assert (Hno : is_reaction_type reactionType = false).
  { destruct (is_reaction_type reactionType) eqn:E; [|reflexivity].
    apply is_reaction_type_spec in E. tauto. }
  unfold post_reviews_id_reactions, authenticateToken.
  now rewrite Hno.
Qed.

Lemma react_invalid_type_rejected_before_store_witness :
  Store.review_exists seed_db 999 = false
  /\ post_reviews_id_reactions (Bearer john) 999 "love" seed_world
     = (json 400 (Message "Invalid reaction type"), seed_world).
Proof.
  split; [reflexivity|].
  apply (react_invalid_type_rejected_before_store john 999 "love" seed_world);
    intros H; discriminate H.
Defined.

(** ** The reaction upsert *)

Lemma count_zero {A} (l : list A) : (Store.count l =? 0) = true <-> l = [].
Proof.
  unfold Store.count. rewrite Z.eqb_eq. destruct l; cbn; split; intros H;
    try reflexivity; try discriminate; lia.
Qed.

Lemma count_pos {A} (l : list A) : (0 <? Store.count l) = true <-> l <> [].
Proof.
  unfold Store.count. rewrite Z.ltb_lt. destruct l; cbn; split; intros H;
    try lia; try discriminate; congruence.
Qed.

Lemma review_exists_select (d : DB) (id : Z) :
  Store.review_exists d id = true <-> Store.select_review_id id d <> [].
Proof.
  unfold Store.review_exists, Store.select_review_id.
  induction (reviews d) as [|r l IH]; cbn.
  - split; [discriminate | congruence].
  - destruct (r_id r =? id); cbn; [split; [discriminate | reflexivity] | exact IH].
Qed.

Lemma react_answers (user : Principal) (reviewId : Z) (t : string) (w : World) :
  forall r w',
    post_reviews_id_reactions (Bearer user) reviewId t w = (r, w') ->
    status r = 200 ->
    exists ty,
      reaction_of_string t = Some ty
      /\ string_of_reaction ty = t
      /\ Store.review_exists (w_db w) reviewId = true
      /\ ((Store.select_reactions reviewId (p_id user) (w_db w) <> []
           /\ Store.update_reaction t reviewId (p_id user) (w_db w) = Ok (tt, w_db w'))
          \/ (Store.select_reactions reviewId (p_id user) (w_db w) = []
              /\ Store.insert_reaction reviewId (p_id user) t (w_now w) (w_db w)
                 = Ok (tt, w_db w')))
      /\ body r = Counts (Store.count_reactions reviewId Like (w_db w'))
                         (Store.count_reactions reviewId Dislike (w_db w')).
Proof.
  intros r w'. unfold post_reviews_id_reactions, authenticateToken.
  destruct (is_reaction_type t) eqn:Ht; cbn [negb].
  2:{ intros H; inversion H; subst; cbn; discriminate. }
  destruct (reaction_of_string_valid t Ht) as (ty & Hty & Hs).
  run_handler.
  destruct (Store.count (Store.select_review_id reviewId (w_db w)) =? 0) eqn:Hrev.
  { intros H; inversion H; subst; cbn; discriminate. }
  cbn.
  assert (Hex : Store.review_exists (w_db w) reviewId = true).
  { apply review_exists_select. intros E. apply count_zero in E. congruence. }
  destruct (0 <? Store.count (Store.select_reactions reviewId (p_id user) (w_db w)))
    eqn:Hsel; cbn.
  - apply count_pos in Hsel.
    destruct (Store.update_reaction t reviewId (p_id user) (w_db w))
      as [[[] d']|e] eqn:Hup.
    + intros H _; inversion H; subst; cbn.
      exists ty. repeat split; auto.
    + intros H; inversion H; subst; cbn; discriminate.
  - assert (Hnil : Store.select_reactions reviewId (p_id user) (w_db w) = []).
    { destruct (Store.select_reactions reviewId (p_id user) (w_db w)) eqn:E;
        [reflexivity|]. cbn in Hsel. discriminate. }
    destruct (Store.insert_reaction reviewId (p_id user) t (w_now w) (w_db w))
      as [[[] d']|e] eqn:Hin.
    + intros H _; inversion H; subst; cbn.
      exists ty. repeat split; auto.
    + intros H; inversion H; subst; cbn; discriminate.
Qed.

Lemma key_absent_select (a b : Z) (l : list Reaction) :
  existsb (fun q => (fst q =? a) && (snd q =? b)) (map Store.reaction_key l) = false ->
  filter (fun x => (x_review_id x =? a) && (x_user_id x =? b)) l = [].
Proof.
  induction l as [|x l IH]; cbn; [reflexivity|].
  intros H. apply orb_false_iff in H. destruct H as [Hx Hl].
  rewrite Hx. auto.
Qed.

Lemma select_absent_key (a b : Z) (l : list Reaction) :
  filter (fun x => (x_review_id x =? a) && (x_user_id x =? b)) l = [] ->
  existsb (fun q => (fst q =? a) && (snd q =? b)) (map Store.reaction_key l) = false.
Proof.
  induction l as [|x l IH]; cbn; [reflexivity|].
  destruct ((x_review_id x =? a) && (x_user_id x =? b)); cbn; [discriminate | auto].
Qed.

Lemma unique_select_at_most_one (d : DB) (reviewId userId : Z) :
  Store.unique_reaction d = true ->
  (List.length (Store.select_reactions reviewId userId d) <= 1)%nat.
Proof.
  unfold Store.unique_reaction, Store.select_reactions.
  induction (review_reactions d) as [|x l IH]; cbn; [lia|].
  intros H. apply andb_true_iff in H. destruct H as [Hx Hl].
  apply negb_true_iff in Hx.
  destruct ((x_review_id x =? reviewId) && (x_user_id x =? userId)) eqn:E.
  - apply andb_true_iff in E. destruct E as [E1 E2].
    apply Z.eqb_eq in E1, E2. subst.
    rewrite (key_absent_select _ _ _ Hx). cbn. lia.
  - auto.
Qed.

Lemma nodupb_snoc (l : list (Z * Z)) (a b : Z) :
  Store.nodupb l = true ->
  existsb (fun q => (fst q =? a) && (snd q =? b)) l = false ->
  Store.nodupb (l ++ [(a, b)]) = true.
Proof.
  induction l as [|[c e] l IH]; cbn; [reflexivity|].
  intros H1 H2. apply andb_true_iff in H1. destruct H1 as [Hc Hl].
  apply orb_false_iff in H2. destruct H2 as [Hce H2].
  rewrite IH, andb_true_r by assumption.
  rewrite existsb_app, negb_orb. apply andb_true_iff. split; [assumption|].
  cbn. rewrite orb_false_r.
  rewrite (Z.eqb_sym a c), (Z.eqb_sym b e). now rewrite Hce.
Qed.

(** The UPDATE of the upsert retypes the rows of the pair where they are. *)
Lemma update_reaction_effect (t : string) (ty : ReactionType)
    (reviewId userId : Z) (d d' : DB) :
  reaction_of_string t = Some ty ->
  Store.update_reaction t reviewId userId d = Ok (tt, d') ->
  Store.select_reactions reviewId userId d'
  = map (fun x => mkReaction (x_id x) (x_review_id x) (x_user_id x) ty (x_created_at x))
        (Store.select_reactions reviewId userId d)
  /\ map Store.reaction_key (review_reactions d') = map Store.reaction_key (review_reactions d)
  /\ List.length (review_reactions d') = List.length (review_reactions d).
Proof.
  unfold Store.update_reaction. intros -> H. inversion H; subst; clear H.
  unfold Store.select_reactions; cbn. repeat split.
  - induction (review_reactions d) as [|x l IH]; cbn; [reflexivity|].
    destruct ((x_review_id x =? reviewId) && (x_user_id x =? userId)) eqn:E;
      cbn; rewrite E; cbn; now rewrite IH.
  - rewrite map_map. apply map_ext. intros x.
    now destruct ((x_review_id x =? reviewId) && (x_user_id x =? userId)).
  - apply length_map.
Qed.

(** The INSERT of the upsert appends one row for the pair. *)
Lemma insert_reaction_effect (t : string) (ty : ReactionType)
    (reviewId userId now : Z) (d d' : DB) :
  reaction_of_string t = Some ty ->
  Store.insert_reaction reviewId userId t now d = Ok (tt, d') ->
  review_reactions d'
  = review_reactions d ++ [mkReaction (next_reaction_id d) reviewId userId ty now]
  /\ Store.select_reactions reviewId userId d = [].
Proof.
  unfold Store.insert_reaction. intros ->.
  destruct (negb _); [discriminate|].
  destruct (existsb _ _) eqn:E; [discriminate|].
  intros H; inversion H; subst; clear H. cbn. split; [reflexivity|].
  unfold Store.select_reactions.
  destruct (filter _ (review_reactions d)) as [|x l] eqn:F; [reflexivity|].
  assert (Hin : In x (filter (fun x => (x_review_id x =? reviewId) && (x_user_id x =? userId))
                             (review_reactions d))) by (rewrite F; now left).
  apply filter_In in Hin. destruct Hin as [Hin Hx].
  assert (existsb (fun x => (x_review_id x =? reviewId) && (x_user_id x =? userId))
                  (review_reactions d) = true) by (apply existsb_exists; eauto).
  congruence.
Qed.

(** One accepted reaction request leaves exactly one row for the pair. *)
Lemma react_step (user : Principal) (reviewId : Z) (t : string) (w : World) :
  forall r w',
    Store.unique_reaction (w_db w) = true ->
    post_reviews_id_reactions (Bearer user) reviewId t w = (r, w') ->
    status r = 200 ->
    Store.unique_reaction (w_db w') = true
    /\ (exists x, Store.select_reactions reviewId (p_id user) (w_db w') = [x]
                  /\ string_of_reaction (x_reaction_type x) = t)
    /\ List.length (review_reactions (w_db w'))
       = match Store.select_reactions reviewId (p_id user) (w_db w) with
         | [] => S (List.length (review_reactions (w_db w)))
         | _ :: _ => List.length (review_reactions (w_db w))
         end.
Proof.
  intros r w' Hu Hrun Hok.
  destruct (react_answers _ _ _ _ _ _ Hrun Hok)
    as (ty & Hty & Hs & _ & [[Hsel Hup] | [Hsel Hin]] & _).
  - destruct (update_reaction_effect _ _ _ _ _ _ Hty Hup) as (Hsel' & Hkeys & Hlen).
    pose proof (unique_select_at_most_one _ reviewId (p_id user) Hu) as Hle.
    destruct (Store.select_reactions reviewId (p_id user) (w_db w)) as [|x [|y l]];
      [congruence| |cbn in Hle; lia].
    split; [|split].
    + unfold Store.unique_reaction in *. now rewrite Hkeys.
    + rewrite Hsel'. cbn. eexists. split; [reflexivity|]. exact Hs.
    + exact Hlen.
  - destruct (insert_reaction_effect _ _ _ _ _ _ _ Hty Hin) as (Hrows & _).
    split; [|split].
    + unfold Store.unique_reaction in *.
      rewrite Hrows, map_app. cbn. apply nodupb_snoc; [assumption|].
      apply select_absent_key. exact Hsel.
    + unfold Store.select_reactions in *. rewrite Hrows, filter_app, Hsel. cbn.
      rewrite !Z.eqb_refl. cbn. eexists. split; [reflexivity|]. exact Hs.
    + rewrite Hsel, Hrows, length_app. cbn. lia.
Qed.

(** C1: after any non-empty run of accepted reaction requests of one
    principal on one review, started from a database that respects the
    unique key of [review_reactions], the table holds exactly one row for
    the pair, typed as the last request asked; the run added a row only if
    the pair had none, and the unique key still holds. *)
Theorem react_keeps_one_row_with_latest_type
    (user : Principal) (reviewId : Z) (types : list string) :
  forall (w : World) (rs : list Response) (w' : World),
    Store.unique_reaction (w_db w) = true ->
    types <> [] ->
    react_calls (Bearer user) reviewId types w = (rs, w') ->
    Forall (fun r => status r = 200) rs ->
    (exists x, Store.select_reactions reviewId (p_id user) (w_db w') = [x]
               /\ string_of_reaction (x_reaction_type x) = last types EmptyString)
    /\ List.length (review_reactions (w_db w'))
       = match Store.select_reactions reviewId (p_id user) (w_db w) with
         | [] => S (List.length (review_reactions (w_db w)))
         | _ :: _ => List.length (review_reactions (w_db w))
         end
    /\ Store.unique_reaction (w_db w') = true.
Proof.
  induction types as [|t ts IH]; intros w rs w' Hu Hne Hrun Hall; [congruence|].
  cbn [react_calls] in Hrun.
  destruct (post_reviews_id_reactions (Bearer user) reviewId t w) as [r w1] eqn:Hstep.
  destruct (react_calls (Bearer user) reviewId ts w1) as [rs' w2] eqn:Hrest.
  inversion Hrun; subst; clear Hrun.
  inversion Hall as [|? ? Hr Hrs]; subst.
  destruct (react_step _ _ _ _ _ _ Hu Hstep Hr) as (Hu1 & (x & Hx & Hxt) & Hlen).
  destruct ts as [|t2 ts'].
  - cbn in Hrest. inversion Hrest; subst. repeat split; eauto.
  - destruct (IH w1 rs' w' Hu1 ltac:(discriminate) Hrest Hrs)
      as ((y & Hy & Hyt) & Hlen' & Hu').
    rewrite Hx in Hlen'. repeat split.
    + exists y. split; [exact Hy|]. exact Hyt.
    + now rewrite Hlen'.
    + exact Hu'.
Qed.

Lemma react_keeps_one_row_with_latest_type_witness :
  exists x,
    Store.select_reactions 1 (p_id jane)
      (w_db (snd (react_calls (Bearer jane) 1 ["dislike"; "like"; "dislike"] seed_world)))
    = [x]
    /\ string_of_reaction (x_reaction_type x) = "dislike".
Proof.
  destruct (react_calls (Bearer jane) 1 ["dislike"; "like"; "dislike"] seed_world)
    as [rs w'] eqn:E.
  cbn [snd].
  refine (proj1 (react_keeps_one_row_with_latest_type jane 1 _ seed_world rs w' _ _ E _)).
  - reflexivity.
  - discriminate.
  - replace rs with (fst (react_calls (Bearer jane) 1 ["dislike"; "like"; "dislike"]
                            seed_world)) by (now rewrite E).
    vm_compute. repeat constructor.
Defined.

(** ** Listings: what the two listing routes answer *)

Section Listings.

Variable order : Z -> Z -> list Review -> list Review.

Lemma get_reviews_run (page_param limit_param userId : option Z) (w : World) :
  let page := or_default page_param 1 in
  let limit := or_default limit_param 6 in
  let offset := Js.mul (Js.sub page 1) limit in
  let matching := filter (Store.where_user userId) (reviews (w_db w)) in
  let total := Store.count matching in
  let w' := sent (SelectReviewsPage userId limit offset) (sent (CountReviews userId) w) in
  get_reviews order page_param limit_param userId w
  = match ordered_window order limit offset matching with
    | Ok rows =>
        (json 200 (Listing (map (listed (w_db w) false) rows)
                           (mkPagination total page limit (Math_ceil_div total limit))),
         w')
    | Err _ => (json 500 (Message "Server error"), w')
    end.
Proof.
  unfold get_reviews, select_reviews_page. run_handler.
  destruct (ordered_window _ _ _ _); reflexivity.
Qed.

Lemma get_admin_reviews_run (user : Principal)
    (page_param limit_param : option Z) (search_param : option string) (w : World) :
  p_role user = RoleAdmin ->
  let page := or_default page_param 1 in
  let limit := or_default limit_param 10 in
  let offset := Js.mul (Js.sub page 1) limit in
  let search := match search_param with Some s => s | None => EmptyString end in
  let pattern := ("%" ++ search ++ "%")%string in
  let matching := filter (Store.where_comment_like pattern) (reviews (w_db w)) in
  let total := Store.count matching in
  let w' := sent (SelectAdminPage pattern limit offset) (sent (CountReviewsLike pattern) w) in
  get_admin_reviews order (Bearer user) page_param limit_param search_param w
  = match ordered_window order limit offset matching with
    | Ok rows =>
        (json 200 (Listing (map (listed (w_db w) true) rows)
                           (mkPagination total page limit (Math_ceil_div total limit))),
         w')
    | Err _ => (json 500 (Message "Server error"), w')
    end.
Proof.
  intros Hadmin. unfold get_admin_reviews, select_admin_page, authenticateToken, isAdmin.
  rewrite Hadmin. run_handler.
  destruct (ordered_window _ _ _ _); reflexivity.
Qed.

Lemma listing_items_listed (d : DB) (e : bool) (rows : list Review)
    (item : ListedReview) :
  In item (map (listed d e) rows) ->
  lr_likes item = Store.count_reactions (r_id (lr_review item)) Like d
  /\ lr_dislikes item = Store.count_reactions (r_id (lr_review item)) Dislike d.
Proof.
  intros H. apply in_map_iff in H. destruct H as (r & <- & _). now cbn.
Qed.

Lemma get_reviews_items_live (page_param limit_param userId : option Z)
    (w : World) (item : ListedReview) :
  In item (response_items (fst (get_reviews order page_param limit_param userId w))) ->
  lr_likes item = Store.count_reactions (r_id (lr_review item)) Like (w_db w)
  /\ lr_dislikes item = Store.count_reactions (r_id (lr_review item)) Dislike (w_db w).
Proof.
  rewrite get_reviews_run. cbv zeta.
  destruct (ordered_window _ _ _ _); cbn; [apply listing_items_listed | tauto].
Qed.

Lemma get_admin_reviews_items_live (auth : Auth)
    (page_param limit_param : option Z) (search_param : option string)
    (w : World) (item : ListedReview) :
  In item (response_items
             (fst (get_admin_reviews order auth page_param limit_param search_param w))) ->
  lr_likes item = Store.count_reactions (r_id (lr_review item)) Like (w_db w)
  /\ lr_dislikes item = Store.count_reactions (r_id (lr_review item)) Dislike (w_db w).
Proof.
  destruct auth as [| |user]; try (cbn; tauto).
  destruct (p_role user) eqn:Hrole.
  - unfold get_admin_reviews, authenticateToken, isAdmin. rewrite Hrole. cbn. tauto.
  - rewrite get_admin_reviews_run by assumption. cbv zeta.
    destruct (ordered_window _ _ _ _); cbn; [apply listing_items_listed | tauto].
Qed.

Lemma get_reviews_reads_only (page_param limit_param userId : option Z) (w : World) :
  w_db (snd (get_reviews order page_param limit_param userId w)) = w_db w.
Proof.
  rewrite get_reviews_run. cbv zeta. now destruct (ordered_window _ _ _ _).
Qed.

Lemma get_admin_reviews_reads_only (auth : Auth)
    (page_param limit_param : option Z) (search_param : option string) (w : World) :
  w_db (snd (get_admin_reviews order auth page_param limit_param search_param w))
  = w_db w.
Proof.
  destruct auth as [| |user]; try reflexivity.
  destruct (p_role user) eqn:Hrole.
  - unfold get_admin_reviews, authenticateToken, isAdmin. now rewrite Hrole.
  - rewrite get_admin_reviews_run by assumption. cbv zeta.
    now destruct (ordered_window _ _ _ _).
Qed.

End Listings.

(** ** Like and dislike counts *)

(** C2: the counts a reaction request answers are the numbers of 'like' and
    of 'dislike' rows of the review in the table as the request leaves it,
    and the [likes] and [dislikes] of every row of either listing are the
    numbers of such rows of that review in the table being read; the
    [likes] and [dislikes] columns of [reviews] take no part. *)
Theorem counts_are_live_reaction_rows
    (order : Z -> Z -> list Review -> list Review) :
  (forall user reviewId reactionType w r w',
      post_reviews_id_reactions (Bearer user) reviewId reactionType w = (r, w') ->
      status r = 200 ->
      body r
      = Counts
          (Store.count
             (filter (fun x => (x_review_id x =? reviewId)
                               && reaction_eqb (x_reaction_type x) Like)
                     (review_reactions (w_db w'))))
          (Store.count
             (filter (fun x => (x_review_id x =? reviewId)
                               && reaction_eqb (x_reaction_type x) Dislike)
                     (review_reactions (w_db w')))))
  /\ (forall page_param limit_param userId w item,
         In item (response_items
                    (fst (get_reviews order page_param limit_param userId w))) ->
         lr_likes item
         = Store.count
             (filter (fun x => (x_review_id x =? r_id (lr_review item))
                               && reaction_eqb (x_reaction_type x) Like)
                     (review_reactions (w_db w)))
         /\ lr_dislikes item
            = Store.count
                (filter (fun x => (x_review_id x =? r_id (lr_review item))
                                  && reaction_eqb (x_reaction_type x) Dislike)
                        (review_reactions (w_db w))))
  /\ (forall auth page_param limit_param search_param w item,
         In item (response_items
                    (fst (get_admin_reviews order auth page_param limit_param
                            search_param w))) ->
         lr_likes item
         = Store.count
             (filter (fun x => (x_review_id x =? r_id (lr_review item))
                               && reaction_eqb (x_reaction_type x) Like)
                     (review_reactions (w_db w)))
         /\ lr_dislikes item
            = Store.count
                (filter (fun x => (x_review_id x =? r_id (lr_review item))
                                  && reaction_eqb (x_reaction_type x) Dislike)
                        (review_reactions (w_db w)))).
Proof.
  split; [|split].
  - intros user reviewId t w r w' Hrun Hok.
    destruct (react_answers _ _ _ _ _ _ Hrun Hok) as (_ & _ & _ & _ & _ & Hb).
    exact Hb.
  - intros. now apply (get_reviews_items_live order page_param limit_param userId).
  - intros. now apply (get_admin_reviews_items_live order auth page_param limit_param
                         search_param).
Qed.

Lemma counts_are_live_reaction_rows_witness :
  body (fst (post_reviews_id_reactions (Bearer jane) 2 "dislike" seed_world))
  = Counts 1 1
  /\ map lr_likes (response_items (fst (get_reviews stable_order None None None seed_world)))
     = [2; 1; 0; 0]
  /\ map r_likes (response_reviews (fst (get_reviews stable_order None None None seed_world)))
     = [0; 0; 0; 0].
Proof.
  destruct (counts_are_live_reaction_rows stable_order) as (Hreact & Hlist & _).
  split; [|split].
  - rewrite (Hreact jane 2 "dislike" seed_world
               (fst (post_reviews_id_reactions (Bearer jane) 2 "dislike" seed_world))
               (snd (post_reviews_id_reactions (Bearer jane) 2 "dislike" seed_world))
               (surjective_pairing _)) by (vm_compute; reflexivity).
    vm_compute. reflexivity.
  - pose proof (Hlist None None None seed_world) as H.
    vm_compute. reflexivity.
  - vm_compute. reflexivity.
Defined.

(** ** Flagging *)

Lemma update_flag_missing (isFlagged : bool) (id : Z) (d : DB) :
  Store.review_exists d id = false ->
  Store.update_flag isFlagged id d = d.
Proof.
  unfold Store.review_exists, Store.update_flag. intros H.
  destruct d as [us rs xs n1 n2 n3]; cbn in *. f_equal.
  induction rs as [|r rs IH]; cbn in *; [reflexivity|].
  apply orb_false_iff in H. destruct H as [Hr Hrs].
  rewrite Hr. f_equal. auto.
Qed.

(** The UPDATE of the flag route matches no row when the id is unknown, the
    handler does not look at the number of rows it changed, and the answer
    is the same 200 as for a review that exists. *)
Lemma flag_missing_review_succeeds (user : Principal) (id : Z) (isFlagged : bool)
    (w : World) :
  p_role user = RoleAdmin ->
  Store.review_exists (w_db w) id = false ->
  put_admin_reviews_id_flag (Bearer user) id isFlagged w
  = (json 200 (Message "Review flag status updated"), sent (UpdateFlag isFlagged id) w).
Proof.
  intros Hadmin Hmiss.
  unfold put_admin_reviews_id_flag, authenticateToken, isAdmin. rewrite Hadmin.
  run_handler. rewrite update_flag_missing by assumption.
  reflexivity.
Qed.

(** C3: flagging a review id that does not exist.  The admin's request on
    the unknown id 999 is answered 200 'Review flag status updated', not
    404, and the tables are left as they were. *)
Theorem flag_unknown_review_answers_200 :
  Store.review_exists seed_db 999 = false
  /\ put_admin_reviews_id_flag (Bearer the_admin) 999 true seed_world
     = (json 200 (Message "Review flag status updated"),
        sent (UpdateFlag true 999) seed_world)
  /\ w_db (snd (put_admin_reviews_id_flag (Bearer the_admin) 999 true seed_world))
     = seed_db.
Proof.
  split; [reflexivity|].
  split; [|reflexivity].
  apply flag_missing_review_succeeds; reflexivity.
Qed.

(** The rest of the flag contract holds: a principal who is not an admin is
    answered 403 and nothing is sent to the database. *)
Lemma flag_requires_admin (user : Principal) (id : Z) (isFlagged : bool) (w : World) :
  p_role user <> RoleAdmin ->
  put_admin_reviews_id_flag (Bearer user) id isFlagged w
  = (json 403 (Message "Admin access required"), w).
Proof.
  intros H. unfold put_admin_reviews_id_flag, authenticateToken, isAdmin.
  destruct (p_role user); [reflexivity | congruence].
Qed.

(** An admin's request is answered 200 and every review of that id carries
    the requested flag afterwards. *)
Lemma flag_sets_requested_value (user : Principal) (id : Z) (isFlagged : bool)
    (w : World) :
  p_role user = RoleAdmin ->
  status (fst (put_admin_reviews_id_flag (Bearer user) id isFlagged w)) = 200
  /\ w_db (snd (put_admin_reviews_id_flag (Bearer user) id isFlagged w))
     = Store.update_flag isFlagged id (w_db w)
  /\ forall r,
       In r (reviews (Store.update_flag isFlagged id (w_db w))) ->
       r_id r = id -> r_is_flagged r = isFlagged.
Proof.
  intros Hadmin.
  unfold put_admin_reviews_id_flag, authenticateToken, isAdmin. rewrite Hadmin.
  run_handler. repeat split.
  intros r Hin Hid. apply in_map_iff in Hin. destruct Hin as (r0 & Hr & _).
  destruct (r_id r0 =? id) eqn:E.
  - now subst r.
  - subst r. apply Z.eqb_neq in E. congruence.
Qed.

(** Setting the flag to the value it has changes nothing. *)
Lemma flag_idempotent (isFlagged : bool) (id : Z) (d : DB) :
  Store.update_flag isFlagged id (Store.update_flag isFlagged id d)
  = Store.update_flag isFlagged id d.
Proof.
  unfold Store.update_flag; cbn. f_equal.
  rewrite map_map. apply map_ext. intros r.
  destruct (r_id r =? id) eqn:E; cbn; now rewrite E.
Qed.

(** ** Registration *)

Lemma char_eqb_refl (c : ascii) : Sql.char_eqb c c = true.
Proof. unfold Sql.char_eqb. apply Ascii.eqb_refl. Qed.

Lemma text_eqb_refl (s : list ascii) : Sql.text_eqb s s = true.
Proof.
  induction s as [|c s IH]; cbn; [reflexivity|].
  now rewrite char_eqb_refl, IH.
Qed.

Lemma sql_eqb_refl (s : string) : Sql.eqb s s = true.
Proof. apply text_eqb_refl. Qed.

(** C5, as the code has it: a registration whose email is that of an
    existing user is answered 400 'Email already registered' after the one
    SELECT that found the user; no row is inserted. *)
Theorem register_duplicate_email_answers_400
    (bcrypt_hash : string -> string) (name email password : string) (w : World) :
  (exists u, In u (users (w_db w)) /\ u_email u = email) ->
  post_auth_register bcrypt_hash name email password w
  = (json 400 (Message "Email already registered"), sent (SelectUsersByEmail email) w)
  /\ w_db (snd (post_auth_register bcrypt_hash name email password w)) = w_db w.
Proof.
  intros (u & Hin & Hmail).
  assert (Hfound : (0 <? Store.count (Store.select_users_by_email email (w_db w))) = true).
  { apply count_pos. intros E.
    assert (Hu : In u (Store.select_users_by_email email (w_db w))).
    { apply filter_In. split; [exact Hin|]. rewrite Hmail. apply sql_eqb_refl. }
    rewrite E in Hu. exact Hu. }
  unfold post_auth_register. run_handler. rewrite Hfound.
  split; reflexivity.
Qed.

Lemma register_duplicate_email_answers_400_witness :
  post_auth_register (fun p => p) "Johnny" "john@example.com" "secret" seed_world
  = (json 400 (Message "Email already registered"),
     sent (SelectUsersByEmail "john@example.com") seed_world).
Proof.
  apply (register_duplicate_email_answers_400 (fun p => p) "Johnny" "john@example.com"
           "secret" seed_world).
  exists (mkUser 2 "John Doe" "john@example.com"
            "$2a$10$X7UrE2JgX9Y9Y9Y9Y9Y9Y.9Y9Y9Y9Y9Y9Y9Y9Y9Y9Y9Y9Y9Y9Y" RoleUser 0).
  split; [cbn; auto | reflexivity].
Defined.

(** C5 as the spec words it fails: the status for a taken email is 400,
    not 409. *)
Lemma register_duplicate_email_not_409 :
  (exists u, In u (users seed_db) /\ u_email u = "john@example.com")
  /\ status (fst (post_auth_register (fun p => p) "Johnny" "john@example.com"
                    "secret" seed_world)) = 400
  /\ status (fst (post_auth_register (fun p => p) "Johnny" "john@example.com"
                    "secret" seed_world)) <> 409.
Proof.
  split; [|split].
  - eexists. split; [right; left; reflexivity | reflexivity].
  - reflexivity.
  - cbn. discriminate.
Qed.

(** ** Deleting a review *)

Lemma select_review_owner_by_id (d : DB) (id : Z) :
  Store.select_review_owner id d
  = match review_by_id d id with
    | Some r => r_user_id r :: tl (Store.select_review_owner id d)
    | None => []
    end.
Proof.
  unfold Store.select_review_owner, review_by_id.
  induction (reviews d) as [|r l IH]; cbn; [reflexivity|].
  destruct (r_id r =? id); cbn; [reflexivity | exact IH].
Qed.

Lemma filter_twice {A} (f : A -> bool) (l : list A) :
  filter f (filter f l) = filter f l.
Proof.
  induction l as [|a l IH]; cbn; [reflexivity|].
  destruct (f a) eqn:E; cbn; [rewrite E; f_equal|]; exact IH.
Qed.

Lemma review_by_id_after_delete (d : DB) (id : Z) :
  review_by_id (Store.delete_review id (Store.delete_reactions id d)) id = None.
Proof.
  unfold review_by_id; cbn.
  induction (reviews d) as [|r l IH]; cbn; [reflexivity|].
  destruct (r_id r =? id) eqn:E; cbn; [exact IH | now rewrite E].
Qed.

Lemma delete_missing_review (user : Principal) (reviewId : Z) (w : World) :
  review_by_id (w_db w) reviewId = None ->
  delete_reviews_id (Bearer user) reviewId w
  = (json 404 (Message "Review not found"), sent (SelectReviewOwner reviewId) w).
Proof.
  intros Hnone. unfold delete_reviews_id, authenticateToken. run_handler.
  rewrite select_review_owner_by_id, Hnone. reflexivity.
Qed.

Lemma delete_refused (user : Principal) (reviewId : Z) (w : World) (r : Review) :
  review_by_id (w_db w) reviewId = Some r ->
  canDelete user r = false ->
  delete_reviews_id (Bearer user) reviewId w
  = (json 403 (Message "Not authorized to delete this review"),
     sent (SelectReviewOwner reviewId) w).
Proof.
  intros Hr Hcan. unfold delete_reviews_id, authenticateToken. run_handler.
  rewrite select_review_owner_by_id, Hr.
  unfold canDelete in Hcan. apply orb_false_iff in Hcan. destruct Hcan as [Hrole Hid].
  rewrite Hrole, (Z.eqb_sym (r_user_id r) (p_id user)), Hid. reflexivity.
Qed.

Lemma delete_carried_out (user : Principal) (reviewId : Z) (w : World) (r : Review) :
  review_by_id (w_db w) reviewId = Some r ->
  canDelete user r = true ->
  status (fst (delete_reviews_id (Bearer user) reviewId w)) = 200
  /\ w_db (snd (delete_reviews_id (Bearer user) reviewId w))
     = Store.delete_review reviewId (Store.delete_reactions reviewId (w_db w)).
Proof.
  intros Hr Hcan. unfold delete_reviews_id, authenticateToken. run_handler.
  rewrite select_review_owner_by_id, Hr.
  unfold canDelete in Hcan.
  assert (Hgo : negb (role_eqb (p_role user) RoleAdmin)
                && negb (r_user_id r =? p_id user) = false).
  { rewrite <- negb_orb, (Z.eqb_sym (r_user_id r) (p_id user)), Hcan. reflexivity. }
  rewrite Hgo. split; reflexivity.
Qed.

(** C6: deleting a review.  An id no review has is answered 404 and nothing
    changes; a review that exists is kept, with a 403, from a principal who
    is neither its author nor an admin; its author or an admin gets 200,
    after which the [reviews] table is the old one without the rows of that
    id and [review_reactions] the old one without the rows that reference
    it, so that no review of that id and no reaction to it remain, and the
    same request asked again is answered 404. *)
Theorem delete_review_outcomes (user : Principal) (reviewId : Z) (w : World) :
  let answer := delete_reviews_id (Bearer user) reviewId w in
  (review_by_id (w_db w) reviewId = None ->
   status (fst answer) = 404 /\ w_db (snd answer) = w_db w)
  /\ (forall r,
         review_by_id (w_db w) reviewId = Some r ->
         canDelete user r = false ->
         status (fst answer) = 403 /\ w_db (snd answer) = w_db w)
  /\ (forall r,
         review_by_id (w_db w) reviewId = Some r ->
         canDelete user r = true ->
         status (fst answer) = 200
         /\ reviews (w_db (snd answer))
            = filter (fun r' => negb (r_id r' =? reviewId)) (reviews (w_db w))
         /\ review_reactions (w_db (snd answer))
            = filter (fun x => negb (x_review_id x =? reviewId))
                     (review_reactions (w_db w))
         /\ users (w_db (snd answer)) = users (w_db w)
         /\ (forall r', In r' (reviews (w_db (snd answer))) -> r_id r' <> reviewId)
         /\ (forall x, In x (review_reactions (w_db (snd answer))) ->
                       x_review_id x <> reviewId)
         /\ forall again,
              status (fst (delete_reviews_id (Bearer again) reviewId (snd answer))) = 404).
Proof.
  cbv zeta. split; [|split].
  - intros Hnone. rewrite delete_missing_review by assumption. split; reflexivity.
  - intros r Hr Hcan. rewrite (delete_refused _ _ _ r) by assumption. split; reflexivity.
  - intros r Hr Hcan.
    destruct (delete_carried_out user reviewId w r Hr Hcan) as [Hok Hdb].
    split; [exact Hok|]. rewrite Hdb.
    split; [reflexivity|].
    split; [apply filter_twice|].
    split; [reflexivity|].
    split.
    { intros r' Hin. apply filter_In in Hin. destruct Hin as [_ Hne].
      apply negb_true_iff, Z.eqb_neq in Hne. exact Hne. }
    split.
    { intros x Hin. cbn in Hin. rewrite filter_twice in Hin.
      apply filter_In in Hin. destruct Hin as [_ Hne].
      apply negb_true_iff, Z.eqb_neq in Hne. exact Hne. }
    intros again. rewrite delete_missing_review; [reflexivity|].
    rewrite Hdb. apply review_by_id_after_delete.
Qed.

Lemma delete_review_outcomes_witness :
  status (fst (delete_reviews_id (Bearer john) 999 seed_world)) = 404
  /\ status (fst (delete_reviews_id (Bearer jane) 1 seed_world)) = 403
  /\ status (fst (delete_reviews_id (Bearer john) 1 seed_world)) = 200
  /\ status (fst (delete_reviews_id (Bearer the_admin) 1 seed_world)) = 200.
Proof.
  split; [|split; [|split]].
  - apply (delete_review_outcomes john 999 seed_world). reflexivity.
  - eapply (delete_review_outcomes jane 1 seed_world); reflexivity.
  - eapply (delete_review_outcomes john 1 seed_world); reflexivity.
  - eapply (delete_review_outcomes the_admin 1 seed_world); reflexivity.
Defined.

(** ** Creating a review *)

Section Creating.

Variable to_float : Q -> Q.

Lemma post_reviews_run (user : Principal) (rating : Q) (comment : string) (w : World) :
  let sentiment := w_random w (w_drawn w) in
  let classified :=
    mkWorld (w_db w) (w_now w) (w_queries w) (w_random w) (S (w_drawn w))
            (w_classified w ++ [comment]) in
  post_reviews to_float (Bearer user) rating comment w
  = match Store.insert_review (p_id user) rating comment (to_float sentiment)
            (label_of sentiment) (w_now w) (w_db w) with
    | Ok (insertId, d') =>
        (json 201 (Created (hd_error (Store.select_review_with_user insertId d'))),
         sent (SelectReviewWithUser insertId)
              (mkWorld d' (w_now w)
                       (w_queries w ++ [InsertReview (p_id user) rating comment])
                       (w_random w) (S (w_drawn w)) (w_classified w ++ [comment])))
    | Err _ =>
        (json 500 (Message "Server error"),
         sent (InsertReview (p_id user) rating comment) classified)
    end.
Proof.
  unfold post_reviews, authenticateToken, analyzeSentiment, Math_random.
  run_handler.
  destruct (Store.insert_review _ _ _ _ _ _ _) as [[id d']|e]; reflexivity.
Qed.

Lemma fresh_id_selects_nothing (d : DB) :
  Store.review_ids_fresh d = true ->
  filter (fun r => r_id r =? next_review_id d) (reviews d) = [].
Proof.
  unfold Store.review_ids_fresh.
  induction (reviews d) as [|r l IH]; cbn; [reflexivity|].
  intros H. apply andb_true_iff in H. destruct H as [Hr Hl].
  apply Z.ltb_lt in Hr.
  destruct (r_id r =? next_review_id d) eqn:E; [apply Z.eqb_eq in E; lia | auto].
Qed.

Lemma to_int_integer (n : Z) : Store.to_int n = n.
Proof.
  unfold Store.to_int.
  assert (Hup : forall m : Z, Qfloor (inject_Z m + (1 # 2)) = m).
  { intros m. unfold Qfloor, inject_Z, Qplus. cbn.
    symmetry. apply Z.div_unique with (r := 1); lia. }
  destruct (Qle_bool 0 n).
  - apply Hup.
  - replace (- inject_Z n + (1 # 2))%Q with (inject_Z (- n) + (1 # 2))%Q by reflexivity.
    rewrite Hup. lia.
Qed.

Lemma column_fits (width : Z) (text : string) :
  Store.fits width text = true -> Store.column width text = Some text.
Proof. unfold Store.column. now intros ->. Qed.

(** C4, as the code has it.  The handler checks neither the rating nor the
    comment and never answers 400.  It hands the comment to the classifier
    exactly once, before the INSERT.  The rating goes into an INT column
    as the nearest integer (an integer as itself); when that is outside
    1..5 the CHECK constraint of the table turns the row down: the answer
    is 500 and no row is stored.  A comment that its TEXT column does not
    take (one with more than 65535 characters, and more than spaces beyond
    them) is answered 500 in the same way.  When the rating is within 1..5,
    the column takes the comment and the user exists, the row is stored
    with that integer, the comment as the column keeps it (as sent when it
    has at most 65535 characters, empty or not) and the classifier's score
    and label, and the stored row is returned with 201. *)
Theorem create_review_relies_on_table_check
    (user : Principal) (rating : Q) (comment : string) (w : World) :
  let answer := post_reviews to_float (Bearer user) rating comment w in
  let sentiment := w_random w (w_drawn w) in
  let stored := Store.to_int rating in
  let row kept := mkReview (next_review_id (w_db w)) (p_id user) stored kept
                           (Some (to_float sentiment)) (Some (label_of sentiment))
                           0 0 false (w_now w) in
  w_classified (snd answer) = w_classified w ++ [comment]
  /\ w_drawn (snd answer) = S (w_drawn w)
  /\ status (fst answer) <> 400
  /\ (forall n : Z, rating = inject_Z n -> stored = n)
  /\ (stored < 1 \/ 5 < stored ->
      status (fst answer) = 500 /\ w_db (snd answer) = w_db w)
  /\ (Store.column 65535 comment = None ->
      status (fst answer) = 500 /\ w_db (snd answer) = w_db w)
  /\ (Store.fits_comment comment = true -> Store.column 65535 comment = Some comment)
  /\ (forall kept,
         1 <= stored <= 5 ->
         Store.column 65535 comment = Some kept ->
         Store.user_exists (w_db w) (p_id user) = true ->
         Store.review_ids_fresh (w_db w) = true ->
         fst answer
         = json 201 (Created (Some (row kept,
                                    option_map u_name
                                               (Store.joined_user (w_db w) (row kept)))))
         /\ reviews (w_db (snd answer)) = reviews (w_db w) ++ [row kept]
         /\ users (w_db (snd answer)) = users (w_db w)
         /\ review_reactions (w_db (snd answer)) = review_reactions (w_db w)).
Proof.
  cbv zeta. rewrite post_reviews_run. cbv zeta.
  unfold Store.insert_review. cbv zeta.
  assert (Hint : forall n : Z, rating = inject_Z n -> Store.to_int rating = n)
    by (intros n ->; apply to_int_integer).
  destruct (Store.column 65535 comment) as [stored_comment|] eqn:Hf;
    [destruct ((Store.to_int rating <? Store.int_min)
               || (Store.int_max <? Store.to_int rating)) eqn:Hr;
     [|destruct (negb (Store.user_exists (w_db w) (p_id user))) eqn:Hu;
       [|destruct (negb ((1 <=? Store.to_int rating) && (Store.to_int rating <=? 5)))
           eqn:Hc]]|];
    cbn [fst snd status json w_classified w_drawn w_db sent];
    (split; [reflexivity|]); (split; [reflexivity|]);
    (split; [cbn; discriminate|]); (split; [exact Hint|]);
    (split; [intros Hout
            | split; [intros Hlong
                     | split; [intros Hfits; rewrite <- Hf; now apply column_fits
                              | intros kept Hin Hkept Huser Hfresh]]]);
    try (split; reflexivity); try discriminate.
  - apply orb_true_iff in Hr. unfold Store.int_min, Store.int_max in Hr.
    destruct Hr as [Hr | Hr]; apply Z.ltb_lt in Hr; lia.
  - rewrite Huser in Hu. discriminate.
  - apply negb_true_iff, andb_false_iff in Hc.
    destruct Hc as [Hc | Hc]; apply Z.leb_gt in Hc; lia.
  - apply negb_false_iff, andb_true_iff in Hc. destruct Hc as [H1 H5].
    apply Z.leb_le in H1, H5. lia.
  - inversion Hkept; subst kept. cbn. repeat split.
    unfold Store.select_review_with_user. cbn.
    rewrite filter_app, fresh_id_selects_nothing by assumption.
    cbn. rewrite Z.eqb_refl. reflexivity.
Qed.

End Creating.

Lemma create_review_relies_on_table_check_witness :
  status (fst (post_reviews (fun q => q) (Bearer john) 7 "Too good" seed_world)) = 500
  /\ w_db (snd (post_reviews (fun q => q) (Bearer john) 7 "Too good" seed_world)) = seed_db
  /\ status (fst (post_reviews (fun q => q) (Bearer john) 5 "Great!" seed_world)) = 201.
Proof.
  pose proof (create_review_relies_on_table_check (fun q => q) john 7 "Too good" seed_world)
    as (_ & _ & _ & _ & Hbad & _).
  pose proof (create_review_relies_on_table_check (fun q => q) john 5 "Great!" seed_world)
    as (_ & _ & _ & _ & _ & _ & _ & Hgood).
  cbv zeta in Hbad, Hgood.
  destruct (Hbad ltac:(right; vm_compute; reflexivity)) as [H1 H2].
  destruct (Hgood "Great!" ltac:(split; vm_compute; discriminate) eq_refl eq_refl eq_refl)
    as [H3 _].
  split; [exact H1|]. split; [exact H2|]. now rewrite H3.
Defined.

(** C4 as the spec words it fails: an empty comment with a rating of 5 is
    answered 201 and stored; so is the rating 5.4, which is not an
    integer, as a 5; and the rating 7 is answered 500, not 400. *)
Lemma create_review_accepts_empty_comment :
  let answer := post_reviews (fun q => q) (Bearer john) 5 EmptyString seed_world in
  let fraction := post_reviews (fun q => q) (Bearer john) (54 # 10)%Q "Great!" seed_world in
  let seven := post_reviews (fun q => q) (Bearer john) 7 "Great!" seed_world in
  status (fst answer) = 201
  /\ status (fst answer) <> 400
  /\ map r_comment (reviews (w_db (snd answer)))
     = map r_comment (reviews seed_db) ++ [EmptyString]
  /\ status (fst fraction) = 201
  /\ map r_rating (reviews (w_db (snd fraction)))
     = map r_rating (reviews seed_db) ++ [5]
  /\ status (fst seven) = 500
  /\ status (fst seven) <> 400.
Proof.
  cbv zeta. split; [reflexivity|]. split; [cbn; discriminate|].
  split; [reflexivity|]. split; [reflexivity|]. split; [reflexivity|].
  split; [reflexivity | cbn; discriminate].
Qed.

(** ** Pagination *)

Lemma pow_2_53 : 2 ^ 53 = 9007199254740992.
Proof. reflexivity. Qed.

Lemma pow_2_64 : 2 ^ 64 = 18446744073709551616.
Proof. reflexivity. Qed.

Lemma pow_10_21 : 10 ^ 21 = 1000000000000000000000.
Proof. reflexivity. Qed.

(** An integer below [2 ^ 53] is a double. *)
Lemma round53_exact (n : Z) : Z.abs n < 2 ^ 53 -> Js.round53 n = n.
Proof.
  intros H. unfold Js.round53. cbv zeta.
  apply Z.ltb_lt in H. now rewrite H.
Qed.

(** ... and is written into a statement as its own digits. *)
Lemma unsigned_literal_exact (n : Z) :
  0 <= n < 2 ^ 53 -> Js.unsigned_literal n = Some n.
Proof.
  intros H. unfold Js.unsigned_literal, Js.to_digits.
  rewrite pow_2_53 in *. rewrite pow_10_21.
  replace (n <? 0) with false by (symmetry; apply Z.ltb_ge; lia).
  replace (1000000000000000000000 <=? n) with false
    by (symmetry; apply Z.leb_gt; lia).
  replace (n <? 9007199254740992) with true by (symmetry; apply Z.ltb_lt; lia).
  reflexivity.
Qed.

Lemma exact_paging_spec (page limit : Z) :
  exact_paging page limit = true ->
  1 <= page <= 2 ^ 53 /\ 1 <= limit < 2 ^ 53 /\ 0 <= (page - 1) * limit < 2 ^ 53.
Proof.
  unfold exact_paging. rewrite !andb_true_iff.
  rewrite !Z.leb_le, !Z.ltb_lt. rewrite pow_2_53. nia.
Qed.

Lemma exact_paging_intro (page limit : Z) :
  1 <= page -> 1 <= limit < 2 ^ 53 -> (page - 1) * limit < 2 ^ 53 ->
  exact_paging page limit = true.
Proof.
  intros Hp Hl Ho. unfold exact_paging. rewrite !andb_true_iff.
  rewrite !Z.leb_le, !Z.ltb_lt. lia.
Qed.

Lemma or_default_given (n d : Z) : 1 <= n < 2 ^ 53 -> or_default (Some n) d = n.
Proof.
  intros H. unfold or_default. cbv zeta.
  rewrite round53_exact by (rewrite pow_2_53 in *; lia).
  destruct (n =? 0) eqn:E; [apply Z.eqb_eq in E; lia | reflexivity].
Qed.

Lemma Math_ceil_div_spec (total limit : Z) :
  1 <= limit ->
  (Math_ceil_div total limit - 1) * limit < total <= Math_ceil_div total limit * limit.
Proof.
  intros Hl. unfold Math_ceil_div.
  pose proof (Z.mul_div_le (- total) limit ltac:(lia)).
  pose proof (Z.mul_succ_div_gt (- total) limit ltac:(lia)).
  set (q := - total / limit) in *. clearbody q. lia.
Qed.

Lemma Math_ceil_div_nonneg (total limit : Z) :
  1 <= limit -> 0 <= total -> 0 <= Math_ceil_div total limit.
Proof.
  intros Hl Ht. pose proof (Math_ceil_div_spec total limit Hl). nia.
Qed.

Lemma limit_offset_accepts {A} (limit offset : Z) (rows : list A) :
  0 <= limit < 2 ^ 64 -> 0 <= offset < 2 ^ 64 ->
  Store.limit_offset limit offset rows
  = Ok (firstn (Z.to_nat limit) (skipn (Z.to_nat offset) rows)).
Proof.
  intros Hl Ho. unfold Store.limit_offset.
  destruct (limit <? 0) eqn:E1; [apply Z.ltb_lt in E1; lia|].
  destruct (offset <? 0) eqn:E2; [apply Z.ltb_lt in E2; lia|].
  destruct (2 ^ 64 <=? limit) eqn:E3; [apply Z.leb_le in E3; lia|].
  destruct (2 ^ 64 <=? offset) eqn:E4; [apply Z.leb_le in E4; lia|].
  reflexivity.
Qed.

(** With a page and a limit that JavaScript computes with exactly, the
    listing statement is accepted and names the window of [limit] rows
    that starts [(page - 1) * limit] rows into the ordered result. *)
Lemma ordered_window_exact
    (order : Z -> Z -> list Review -> list Review)
    (page limit : Z) (rows : list Review) :
  exact_paging page limit = true ->
  ordered_window order limit (Js.mul (Js.sub page 1) limit) rows
  = Ok (firstn (Z.to_nat limit)
               (skipn (Z.to_nat ((page - 1) * limit))
                      (order limit ((page - 1) * limit) rows))).
Proof.
  intros H. apply exact_paging_spec in H. destruct H as (Hp & Hl & Ho).
  unfold ordered_window, Js.mul, Js.sub.
  rewrite (round53_exact (page - 1)) by (rewrite pow_2_53 in *; lia).
  rewrite (round53_exact ((page - 1) * limit)) by (rewrite pow_2_53 in *; lia).
  rewrite !unsigned_literal_exact by lia.
  apply limit_offset_accepts; rewrite pow_2_64; rewrite pow_2_53 in *; lia.
Qed.

(** A listing statement is turned down, or names a window of the ordered
    result. *)
Lemma ordered_window_shape
    (order : Z -> Z -> list Review -> list Review)
    (limit offset : Z) (rows : list Review) :
  (exists e, ordered_window order limit offset rows = Err e)
  \/ (exists l o,
         ordered_window order limit offset rows
         = Ok (firstn (Z.to_nat l) (skipn (Z.to_nat o) (order l o rows)))).
Proof.
  unfold ordered_window.
  destruct (Js.unsigned_literal limit) as [l|]; [|left; eexists; reflexivity].
  destruct (Js.unsigned_literal offset) as [o|]; [|left; eexists; reflexivity].
  unfold Store.limit_offset.
  destruct (_ || _); [left | right]; repeat eexists.
Qed.

(** A negative limit makes the listing statement invalid: the handler
    answers 500. *)
Lemma listing_negative_limit_rejected
    (order : Z -> Z -> list Review -> list Review)
    (page_param userId : option Z) (limit : Z) (w : World) :
  - 2 ^ 53 < limit < 0 ->
  fst (get_reviews order page_param (Some limit) userId w)
  = json 500 (Message "Server error").
Proof.
  intros Hneg. rewrite get_reviews_run. cbv zeta.
  assert (Hlim : or_default (Some limit) 6 = limit).
  { unfold or_default. cbv zeta.
    rewrite round53_exact by (rewrite pow_2_53 in *; lia).
    destruct (limit =? 0) eqn:E; [apply Z.eqb_eq in E; lia | reflexivity]. }
  rewrite Hlim. unfold ordered_window, Js.unsigned_literal.
  destruct (limit <? 0) eqn:E; [reflexivity | apply Z.ltb_ge in E; lia].
Qed.

Lemma window_length {A} (limit offset : nat) (rows : list A) :
  List.length (firstn limit (skipn offset rows))
  = Nat.min limit (List.length rows - offset).
Proof. now rewrite length_firstn, length_skipn. Qed.

Lemma sum_app (l1 l2 : list Z) : sum (l1 ++ l2) = sum l1 + sum l2.
Proof.
  unfold sum. induction l1 as [|a l1 IH]; cbn; [reflexivity|].
  rewrite IH. lia.
Qed.

(** Windows of [limit] rows at offsets 0, [limit], 2 [limit], ... of lists
    of one length [T] hold [min (n limit) T] rows between the first [n]. *)
Lemma windows_sum (f : Z -> Z) (limit T : nat) :
  (forall p : nat, (1 <= p)%nat ->
     f (Z.of_nat p) = Z.of_nat (Nat.min limit (T - (p - 1) * limit))) ->
  forall n : nat,
    sum (map f (map Z.of_nat (seq 1 n))) = Z.of_nat (Nat.min (n * limit) T).
Proof.
  intros Hf. induction n as [|n IH]; [reflexivity|].
  rewrite seq_S, !map_app. cbn [map].
  rewrite sum_app, IH. unfold sum at 1. cbn [fold_right].
  rewrite (Hf (1 + n)%nat) by lia.
  replace (1 + n - 1)%nat with n by lia.
  nia.
Qed.

Section Paging.

Variable order : Z -> Z -> list Review -> list Review.
Hypothesis order_ok : orders_by_created_at_desc order.

Lemma order_length (limit offset : Z) (rows : list Review) :
  List.length (order limit offset rows) = List.length rows.
Proof. symmetry. apply Permutation_length, order_ok. Qed.

(** The rows of page [page] when the statement is accepted. *)
Lemma get_reviews_page (page_param limit_param userId : option Z) (w : World) :
  exact_paging (or_default page_param 1) (or_default limit_param 6) = true ->
  let page := or_default page_param 1 in
  let limit := or_default limit_param 6 in
  let matching := filter (Store.where_user userId) (reviews (w_db w)) in
  let total := Store.count matching in
  fst (get_reviews order page_param limit_param userId w)
  = json 200
      (Listing (map (listed (w_db w) false)
                    (firstn (Z.to_nat limit)
                            (skipn (Z.to_nat ((page - 1) * limit))
                                   (order limit ((page - 1) * limit) matching))))
               (mkPagination total page limit (Math_ceil_div total limit))).
Proof.
  intros Hexact. cbv zeta.
  rewrite get_reviews_run. cbv zeta.
  rewrite ordered_window_exact by assumption. reflexivity.
Qed.

Lemma get_admin_reviews_page (user : Principal)
    (page_param limit_param : option Z) (search_param : option string) (w : World) :
  p_role user = RoleAdmin ->
  exact_paging (or_default page_param 1) (or_default limit_param 10) = true ->
  let page := or_default page_param 1 in
  let limit := or_default limit_param 10 in
  let search := match search_param with Some s => s | None => EmptyString end in
  let pattern := ("%" ++ search ++ "%")%string in
  let matching := filter (Store.where_comment_like pattern) (reviews (w_db w)) in
  let total := Store.count matching in
  fst (get_admin_reviews order (Bearer user) page_param limit_param search_param w)
  = json 200
      (Listing (map (listed (w_db w) true)
                    (firstn (Z.to_nat limit)
                            (skipn (Z.to_nat ((page - 1) * limit))
                                   (order limit ((page - 1) * limit) matching))))
               (mkPagination total page limit (Math_ceil_div total limit))).
Proof.
  intros Hadmin Hexact. cbv zeta.
  rewrite get_admin_reviews_run by assumption. cbv zeta.
  rewrite ordered_window_exact by assumption. reflexivity.
Qed.

(** What holds of the windows of any listing, whatever its WHERE clause. *)
Lemma paging_facts (e : bool) (d : DB) (matching : list Review) (page limit : Z) :
  1 <= page -> 1 <= limit ->
  let total := Store.count matching in
  let totalPages := Math_ceil_div total limit in
  let window p :=
    map (listed d e)
        (firstn (Z.to_nat limit)
                (skipn (Z.to_nat ((p - 1) * limit))
                       (order limit ((p - 1) * limit) matching))) in
  (totalPages < page -> window page = [])
  /\ sum (map (fun p => Store.count (window p)) (pages totalPages)) = total.
Proof.
  intros Hp Hl. cbv zeta.
  pose proof (Math_ceil_div_spec (Store.count matching) limit Hl) as Hceil.
  assert (Htot : 0 <= Store.count matching) by (unfold Store.count; lia).
  pose proof (Math_ceil_div_nonneg _ _ Hl Htot) as Hnn.
  split.
  - intros Hbeyond.
    rewrite skipn_all2; [now rewrite firstn_nil|].
    rewrite order_length. unfold Store.count in *. nia.
  - unfold pages.
    rewrite (windows_sum _ (Z.to_nat limit) (List.length matching)).
    + unfold Store.count in *. nia.
    + intros p Hp1. unfold Store.count.
      rewrite length_map, window_length, order_length.
      do 2 f_equal. nia.
Qed.

End Paging.

Lemma pages_from_one (totalPages p : Z) : In p (pages totalPages) -> 1 <= p.
Proof.
  unfold pages. intros H. apply in_map_iff in H. destruct H as (n & <- & Hn).
  apply in_seq in Hn. lia.
Qed.

Lemma map_listed_reviews (d : DB) (e : bool) (rows : list Review) :
  map lr_review (map (listed d e) rows) = rows.
Proof. rewrite map_map. cbn. apply map_id. Qed.

Lemma count_filter_le (f : Review -> bool) (rows : list Review) :
  Store.count (filter f rows) <= Store.count rows.
Proof.
  unfold Store.count. induction rows as [|r rows IH]; cbn; [lia|].
  destruct (f r); cbn [List.length]; lia.
Qed.

(** Every page up to the last one of a result of fewer than [2 ^ 53] rows
    is a page JavaScript computes with exactly. *)
Lemma pages_exact (total limit p : Z) :
  1 <= limit < 2 ^ 53 -> total < 2 ^ 53 ->
  In p (pages (Math_ceil_div total limit)) ->
  1 <= p < 2 ^ 53 /\ exact_paging p limit = true.
Proof.
  intros Hl Ht Hin.
  pose proof (Math_ceil_div_spec total limit ltac:(lia)) as Hceil.
  assert (Hp : 1 <= p <= Math_ceil_div total limit).
  { unfold pages in Hin. apply in_map_iff in Hin. destruct Hin as (n & <- & Hn).
    apply in_seq in Hn. lia. }
  assert (Hoff : (p - 1) * limit < 2 ^ 53) by nia.
  split; [|apply exact_paging_intro; lia]. nia.
Qed.

(** C7: paging of the two listings, for a page and a limit that are absent,
    not numbers, or integers from 0 on with which JavaScript computes
    exactly (the limit in force and the offset [(page - 1) * limit] below
    [2 ^ 53]), over a table of fewer than [2 ^ 53] reviews.  Pages count
    from 1, the window starts [(page - 1) * limit] rows into the ordered
    result, the limit is 6 on the public listing and 10 on the admin
    listing unless the request gives one, [total] counts the rows the
    filter keeps, [totalPages] is the least number of pages of [limit] rows
    that hold them, the pages [1 .. totalPages] hold [total] rows between
    them, and a page after the last is answered 200 with no rows and the
    same [total] and [totalPages]. *)
Theorem pagination_contract
    (order : Z -> Z -> list Review -> list Review)
    (order_ok : orders_by_created_at_desc order) :
  (forall (page_param limit_param userId : option Z) (w : World),
      exact_paging (or_default page_param 1) (or_default limit_param 6) = true ->
      Store.count (reviews (w_db w)) < 2 ^ 53 ->
      let page := or_default page_param 1 in
      let limit := or_default limit_param 6 in
      let matching := filter (Store.where_user userId) (reviews (w_db w)) in
      let total := Store.count matching in
      let totalPages := Math_ceil_div total limit in
      let answer := fst (get_reviews order page_param limit_param userId w) in
      (page_param = None -> page = 1)
      /\ (limit_param = None -> limit = 6)
      /\ 1 <= page
      /\ status answer = 200
      /\ (exists items,
             body answer = Listing items (mkPagination total page limit totalPages))
      /\ response_reviews answer
         = firstn (Z.to_nat limit)
                  (skipn (Z.to_nat ((page - 1) * limit))
                         (order limit ((page - 1) * limit) matching))
      /\ (totalPages - 1) * limit < total <= totalPages * limit
      /\ (totalPages < page -> response_items answer = [])
      /\ sum (map (fun p =>
                     Store.count
                       (response_items
                          (fst (get_reviews order (Some p) (Some limit) userId w))))
                  (pages totalPages))
         = total)
  /\ (forall (user : Principal) (page_param limit_param : option Z)
             (search_param : option string) (w : World),
         p_role user = RoleAdmin ->
         exact_paging (or_default page_param 1) (or_default limit_param 10) = true ->
         Store.count (reviews (w_db w)) < 2 ^ 53 ->
         let page := or_default page_param 1 in
         let limit := or_default limit_param 10 in
         let search := match search_param with Some s => s | None => EmptyString end in
         let pattern := ("%" ++ search ++ "%")%string in
         let matching := filter (Store.where_comment_like pattern) (reviews (w_db w)) in
         let total := Store.count matching in
         let totalPages := Math_ceil_div total limit in
         let answer :=
           fst (get_admin_reviews order (Bearer user) page_param limit_param
                  search_param w) in
         (page_param = None -> page = 1)
         /\ (limit_param = None -> limit = 10)
         /\ 1 <= page
         /\ status answer = 200
         /\ (exists items,
                body answer = Listing items (mkPagination total page limit totalPages))
         /\ response_reviews answer
            = firstn (Z.to_nat limit)
                     (skipn (Z.to_nat ((page - 1) * limit))
                            (order limit ((page - 1) * limit) matching))
         /\ (totalPages - 1) * limit < total <= totalPages * limit
         /\ (totalPages < page -> response_items answer = [])
         /\ sum (map (fun p =>
                        Store.count
                          (response_items
                             (fst (get_admin_reviews order (Bearer user) (Some p)
                                     (Some limit) search_param w))))
                     (pages totalPages))
            = total).
Proof.
  split.
  - intros page_param limit_param userId w Hexact Hsize. cbv zeta.
    destruct (exact_paging_spec _ _ Hexact) as (Hpage & Hlimit & Hoffset).
    rewrite get_reviews_page by assumption. cbv zeta.
    destruct (paging_facts order order_ok false (w_db w)
                (filter (Store.where_user userId) (reviews (w_db w)))
                _ _ (proj1 Hpage) (proj1 Hlimit)) as [Hbeyond Hsum].
    cbv zeta in Hbeyond, Hsum.
    pose proof (count_filter_le (Store.where_user userId) (reviews (w_db w))) as Hle.
    split; [now intros ->|]. split; [now intros ->|].
    split; [exact (proj1 Hpage)|]. split; [reflexivity|].
    split; [eexists; reflexivity|].
    split; [apply map_listed_reviews|].
    split; [apply Math_ceil_div_spec; exact (proj1 Hlimit)|].
    split; [exact Hbeyond|].
    rewrite <- Hsum at 2. f_equal. apply map_ext_in. intros p Hin.
    apply pages_exact in Hin; [|exact Hlimit|lia]. destruct Hin as [Hp Hpe].
    rewrite get_reviews_page; cbv zeta;
      rewrite ?or_default_given by assumption;
      try reflexivity; assumption.
  - intros user page_param limit_param search_param w Hadmin Hexact Hsize. cbv zeta.
    destruct (exact_paging_spec _ _ Hexact) as (Hpage & Hlimit & Hoffset).
    rewrite get_admin_reviews_page by assumption. cbv zeta.
    set (pattern := ("%" ++ match search_param with Some s => s | None => EmptyString end
                         ++ "%")%string).
    destruct (paging_facts order order_ok true (w_db w)
                (filter (Store.where_comment_like pattern) (reviews (w_db w)))
                _ _ (proj1 Hpage) (proj1 Hlimit)) as [Hbeyond Hsum].
    cbv zeta in Hbeyond, Hsum.
    pose proof (count_filter_le (Store.where_comment_like pattern)
                  (reviews (w_db w))) as Hle.
    split; [now intros ->|]. split; [now intros ->|].
    split; [exact (proj1 Hpage)|]. split; [reflexivity|].
    split; [eexists; reflexivity|].
    split; [apply map_listed_reviews|].
    split; [apply Math_ceil_div_spec; exact (proj1 Hlimit)|].
    split; [exact Hbeyond|].
    rewrite <- Hsum at 2. f_equal. apply map_ext_in. intros p Hin.
    apply pages_exact in Hin; [|exact Hlimit|lia]. destruct Hin as [Hp Hpe].
    rewrite get_admin_reviews_page; cbv zeta;
      rewrite ?or_default_given by assumption;
      try reflexivity; assumption.
Qed.

(** ** Ordering *)

Lemma insert_by_created_at_perm (r : Review) (l : list Review) :
  Permutation (r :: l) (insert_by_created_at r l).
Proof.
  induction l as [|h t IH]; cbn; [reflexivity|].
  destruct (r_created_at h <=? r_created_at r); [reflexivity|].
  rewrite perm_swap. now constructor.
Qed.

Lemma sorted_by_cons (le : Review -> Review -> bool) (a b : Review) (l : list Review) :
  sorted_by le (a :: b :: l) = le a b && sorted_by le (b :: l).
Proof. reflexivity. Qed.

Lemma insert_by_created_at_sorted (r : Review) (l : list Review) :
  sorted_by created_at_desc l = true ->
  sorted_by created_at_desc (insert_by_created_at r l) = true.
Proof.
  induction l as [|h t IH]; [reflexivity|].
  intros Hs. cbn [insert_by_created_at].
  destruct (r_created_at h <=? r_created_at r) eqn:E.
  - rewrite sorted_by_cons, Hs. unfold created_at_desc. now rewrite E.
  - apply Z.leb_gt in E.
    destruct t as [|h2 t2].
    + cbn. unfold created_at_desc. rewrite andb_true_r. apply Z.leb_le. lia.
    + rewrite sorted_by_cons in Hs. apply andb_true_iff in Hs. destruct Hs as [Hh Ht].
      specialize (IH Ht). cbn [insert_by_created_at] in *.
      destruct (r_created_at h2 <=? r_created_at r).
      * rewrite sorted_by_cons, IH, andb_true_r.
        unfold created_at_desc. apply Z.leb_le. lia.
      * now rewrite sorted_by_cons, Hh, IH.
Qed.

Lemma stable_order_ok : orders_by_created_at_desc stable_order.
Proof.
  intros limit offset rows. unfold stable_order. clear limit offset.
  induction rows as [|r rows [IHp IHs]]; cbn; [split; [constructor | reflexivity]|].
  split.
  - rewrite <- insert_by_created_at_perm. now constructor.
  - now apply insert_by_created_at_sorted.
Qed.

Lemma plan_dependent_order_ok : orders_by_created_at_desc plan_dependent_order.
Proof.
  intros limit offset rows. unfold plan_dependent_order.
  destruct (offset =? 0); [apply stable_order_ok|].
  destruct (stable_order_ok limit offset (rev rows)) as [Hp Hs].
  split; [|exact Hs]. rewrite <- Hp. apply Permutation_rev.
Qed.

Lemma pagination_contract_witness :
  let answer p := fst (get_reviews stable_order (Some p) (Some 3) None seed_world) in
  map r_id (response_reviews (answer 2)) = [4]
  /\ status (answer 5) = 200
  /\ response_items (answer 5) = []
  /\ sum (map (fun p => Store.count (response_items (answer p))) (pages 2)) = 4.
Proof.
  destruct (pagination_contract stable_order stable_order_ok) as [Hpub _].
  pose proof (Hpub (Some 2) (Some 3) None seed_world eq_refl eq_refl)
    as (_ & _ & _ & _ & _ & Hrows & _ & _ & Hsum).
  pose proof (Hpub (Some 5) (Some 3) None seed_world eq_refl eq_refl)
    as (_ & _ & _ & Hok & _ & _ & _ & Hbeyond & _).
  cbv zeta in *.
  split; [rewrite Hrows; reflexivity|].
  split; [exact Hok|].
  split; [apply Hbeyond; reflexivity|].
  exact Hsum.
Defined.

(** C7 as the spec words it fails for a request outside those.  With
    [limit=-1] the four reviews of [schema.sql] make [totalPages] -4, page 1
    lies after it, and the answer is the error 500, not an empty page; a
    negative page has the same answer.  With [page=1000000000000000000000]
    the offset goes into the statement as [6e+21] and the answer is 500
    again.  With [page=9007199254740994] and [limit=1] the statement is
    accepted, but [page - 1] is no double and the offset it carries is
    9007199254740992, one less than [(page - 1) * limit]. *)
Lemma listing_negative_parameters_answer_500 :
  Store.count (filter (Store.where_user None) (reviews seed_db)) = 4
  /\ Math_ceil_div 4 (-1) < 1
  /\ get_reviews stable_order (Some 1) (Some (-1)) None seed_world
     = (json 500 (Message "Server error"),
        sent (SelectReviewsPage None (-1) 0) (sent (CountReviews None) seed_world))
  /\ fst (get_reviews stable_order (Some (-1)) None None seed_world)
     = json 500 (Message "Server error")
  /\ fst (get_admin_reviews stable_order (Bearer the_admin) (Some 1) (Some (-1)) None
            seed_world)
     = json 500 (Message "Server error")
  /\ Math_ceil_div 4 6 < 10 ^ 21
  /\ fst (get_reviews stable_order (Some (10 ^ 21)) None None seed_world)
     = json 500 (Message "Server error")
  /\ fst (get_admin_reviews stable_order (Bearer the_admin) (Some (10 ^ 21)) None None
            seed_world)
     = json 500 (Message "Server error")
  /\ get_reviews stable_order (Some 9007199254740994) (Some 1) None seed_world
     = (json 200 (Listing [] (mkPagination 4 9007199254740994 1 4)),
        sent (SelectReviewsPage None 1 9007199254740992)
             (sent (CountReviews None) seed_world))
  /\ (9007199254740994 - 1) * 1 = 9007199254740993.
Proof. repeat split; vm_compute; reflexivity. Qed.

Lemma sorted_by_tail (le : Review -> Review -> bool) (a : Review) (l : list Review) :
  sorted_by le (a :: l) = true -> sorted_by le l = true.
Proof.
  destruct l; [reflexivity|]. cbn. intros H. apply andb_true_iff in H. tauto.
Qed.

Lemma sorted_by_skipn (le : Review -> Review -> bool) (n : nat) (l : list Review) :
  sorted_by le l = true -> sorted_by le (skipn n l) = true.
Proof.
  revert l. induction n as [|n IH]; intros l H; [exact H|].
  destruct l as [|a l]; [reflexivity|]. cbn [skipn].
  apply IH. now apply sorted_by_tail in H.
Qed.

Lemma sorted_by_firstn (le : Review -> Review -> bool) (n : nat) (l : list Review) :
  sorted_by le l = true -> sorted_by le (firstn n l) = true.
Proof.
  revert l. induction n as [|n IH]; intros l H; [reflexivity|].
  destruct l as [|a l]; [reflexivity|]. cbn [firstn].
  pose proof (sorted_by_tail _ _ _ H) as Ht. specialize (IH l Ht).
  destruct l as [|b l]; [destruct n; reflexivity|].
  destruct n as [|n]; [reflexivity|].
  cbn [firstn] in *. rewrite sorted_by_cons in *.
  apply andb_true_iff in H. destruct H as [Hab _].
  now rewrite Hab, IH.
Qed.

Lemma sorted_head_newest (a : Review) (l : list Review) :
  sorted_by created_at_desc (a :: l) = true ->
  forall x, In x l -> r_created_at x <= r_created_at a.
Proof.
  revert a. induction l as [|b l IH]; intros a H x Hin; [destruct Hin|].
  rewrite sorted_by_cons in H. apply andb_true_iff in H. destruct H as [Hab Hs].
  unfold created_at_desc in Hab. apply Z.leb_le in Hab.
  destruct Hin as [<- | Hin]; [exact Hab|].
  specialize (IH b Hs x Hin). lia.
Qed.

(** Rows of pairwise distinct creation times have one newest-first order. *)
Lemma newest_first_unique (l1 : list Review) :
  forall l2,
    Permutation l1 l2 ->
    NoDup (map r_created_at l1) ->
    sorted_by created_at_desc l1 = true ->
    sorted_by created_at_desc l2 = true ->
    l1 = l2.
Proof.
  induction l1 as [|a l1 IH]; intros l2 Hp Hnd H1 H2.
  - apply Permutation_nil in Hp. now subst.
  - destruct l2 as [|b l2].
    { apply Permutation_sym, Permutation_nil in Hp. discriminate. }
    assert (Hab : a = b).
    { assert (Hb : In b (a :: l1)) by (eapply Permutation_in;
                                        [apply Permutation_sym; exact Hp | now left]).
      assert (Ha : In a (b :: l2)) by (eapply Permutation_in; [exact Hp | now left]).
      destruct Hb as [Hb | Hb]; [exact Hb|].
      destruct Ha as [Ha | Ha]; [now symmetry|].
      pose proof (sorted_head_newest _ _ H1 b Hb).
      pose proof (sorted_head_newest _ _ H2 a Ha).
      inversion Hnd as [|? ? Hnotin _]; subst.
      exfalso. apply Hnotin. apply in_map_iff. exists b. split; [lia | exact Hb]. }
    subst b. f_equal.
    apply IH.
    + now apply Permutation_cons_inv in Hp.
    + now inversion Hnd.
    + now apply sorted_by_tail in H1.
    + now apply sorted_by_tail in H2.
Qed.

Lemma distinct_newest_first_strict (l : list Review) :
  NoDup (map r_created_at l) ->
  sorted_by created_at_desc l = true ->
  sorted_by created_at_strictly_desc l = true.
Proof.
  induction l as [|a l IH]; [reflexivity|].
  intros Hnd Hs. destruct l as [|b l]; [reflexivity|].
  rewrite sorted_by_cons in *. apply andb_true_iff in Hs. destruct Hs as [Hab Hs].
  inversion Hnd as [|? ? Hnotin Hnd']; subst.
  rewrite IH by assumption. rewrite andb_true_r.
  unfold created_at_desc in Hab. unfold created_at_strictly_desc.
  apply Z.leb_le in Hab. apply Z.ltb_lt.
  assert (r_created_at a <> r_created_at b).
  { intros E. apply Hnotin. cbn. now left. }
  lia.
Qed.

Lemma firstn_plus {A} (a b : nat) (l : list A) :
  firstn (a + b) l = firstn a l ++ firstn b (skipn a l).
Proof.
  revert l. induction a as [|a IH]; intros l; [reflexivity|].
  destruct l as [|x l]; cbn; [now rewrite firstn_nil | now rewrite IH].
Qed.

(** Consecutive windows of one list put end to end are its beginning. *)
Lemma windows_concat {A} (F : Z -> list A) (limit : nat) (rows : list A) (n : nat) :
  (forall p : nat, (1 <= p <= n)%nat ->
     F (Z.of_nat p) = firstn limit (skipn ((p - 1) * limit) rows)) ->
  flat_map F (map Z.of_nat (seq 1 n)) = firstn (n * limit) rows.
Proof.
  induction n as [|n IH]; intros HF; [reflexivity|].
  rewrite seq_S, map_app, flat_map_app, IH by (intros p Hp; apply HF; lia).
  cbn [map flat_map].
  rewrite app_nil_r, (HF (1 + n)%nat) by lia.
  replace (1 + n - 1)%nat with n by lia.
  replace (S n * limit)%nat with (n * limit + limit)%nat by lia.
  now rewrite firstn_plus.
Qed.

Section Ordering.

Variable order : Z -> Z -> list Review -> list Review.
Hypothesis order_ok : orders_by_created_at_desc order.

Lemma order_sorted (limit offset : Z) (rows : list Review) :
  sorted_by created_at_desc (order limit offset rows) = true.
Proof. apply order_ok. Qed.

Lemma order_distinct (limit offset : Z) (rows : list Review) :
  NoDup (map r_created_at rows) ->
  NoDup (map r_created_at (order limit offset rows)).
Proof.
  intros H. eapply Permutation_NoDup; [|exact H].
  apply Permutation_map, order_ok.
Qed.

(** With pairwise distinct creation times the order of the rows does not
    depend on the LIMIT and OFFSET of the statement. *)
Lemma order_determined (limit offset : Z) (rows : list Review) :
  NoDup (map r_created_at rows) ->
  order limit offset rows = order 0 0 rows.
Proof.
  intros H. apply newest_first_unique.
  - rewrite <- (proj1 (order_ok limit offset rows)). apply order_ok.
  - now apply order_distinct.
  - apply order_sorted.
  - apply order_sorted.
Qed.

Lemma window_sorted (limit offset : Z) (n m : nat) (rows : list Review) :
  sorted_by created_at_desc
    (firstn n (skipn m (order limit offset rows))) = true.
Proof. apply sorted_by_firstn, sorted_by_skipn, order_sorted. Qed.

Lemma window_strictly_sorted (limit offset : Z) (n m : nat) (rows : list Review) :
  NoDup (map r_created_at rows) ->
  sorted_by created_at_strictly_desc
    (firstn n (skipn m (order limit offset rows))) = true.
Proof.
  intros H. apply sorted_by_firstn, sorted_by_skipn, distinct_newest_first_strict.
  - now apply order_distinct.
  - apply order_sorted.
Qed.

Lemma all_pages_in_order (F : Z -> list Review) (matching : list Review) (limit : Z) :
  1 <= limit ->
  NoDup (map r_created_at matching) ->
  (forall p, In p (pages (Math_ceil_div (Store.count matching) limit)) ->
     F p = firstn (Z.to_nat limit)
                  (skipn (Z.to_nat ((p - 1) * limit))
                         (order limit ((p - 1) * limit) matching))) ->
  flat_map F (pages (Math_ceil_div (Store.count matching) limit))
  = order 0 0 matching.
Proof.
  intros Hl Hnd HF. unfold pages in *.
  rewrite (windows_concat F (Z.to_nat limit) (order 0 0 matching)).
  - apply firstn_all2.
    pose proof (Math_ceil_div_spec (Store.count matching) limit Hl).
    rewrite <- (Permutation_length (proj1 (order_ok 0 0 matching))).
    unfold Store.count in *. nia.
  - intros p Hp. rewrite HF by (apply in_map, in_seq; lia).
    rewrite order_determined by assumption.
    do 2 f_equal. nia.
Qed.

End Ordering.

(** C8, as the code has it.  The rows of a page of either listing are
    newest first; ORDER BY names the creation time only, so rows created at
    one instant come in the order the database server gives them.  When
    the rows the filter keeps have pairwise distinct creation times, every
    page is strictly newest first; and when, besides, the limit in force
    is from 1 to below [2 ^ 53] and the table has fewer than [2 ^ 53]
    reviews, the pages [1 .. totalPages], put end to end, are those rows
    once each, strictly newest first. *)
Theorem listing_newest_first
    (order : Z -> Z -> list Review -> list Review)
    (order_ok : orders_by_created_at_desc order) :
  (forall (page_param limit_param userId : option Z) (w : World),
      let limit := or_default limit_param 6 in
      let matching := filter (Store.where_user userId) (reviews (w_db w)) in
      let totalPages := Math_ceil_div (Store.count matching) limit in
      let page p := response_reviews (fst (get_reviews order p (Some limit) userId w)) in
      sorted_by created_at_desc
        (response_reviews (fst (get_reviews order page_param limit_param userId w)))
      = true
      /\ (NoDup (map r_created_at matching) ->
          sorted_by created_at_strictly_desc
            (response_reviews (fst (get_reviews order page_param limit_param userId w)))
          = true
          /\ (1 <= limit < 2 ^ 53 ->
              Store.count (reviews (w_db w)) < 2 ^ 53 ->
              Permutation matching (flat_map (fun p => page (Some p)) (pages totalPages))
              /\ sorted_by created_at_strictly_desc
                   (flat_map (fun p => page (Some p)) (pages totalPages)) = true)))
  /\ (forall (user : Principal) (page_param limit_param : option Z)
             (search_param : option string) (w : World),
         p_role user = RoleAdmin ->
         let limit := or_default limit_param 10 in
         let search := match search_param with Some s => s | None => EmptyString end in
         let pattern := ("%" ++ search ++ "%")%string in
         let matching := filter (Store.where_comment_like pattern) (reviews (w_db w)) in
         let totalPages := Math_ceil_div (Store.count matching) limit in
         let page p :=
           response_reviews
             (fst (get_admin_reviews order (Bearer user) p (Some limit) search_param w)) in
         sorted_by created_at_desc
           (response_reviews
              (fst (get_admin_reviews order (Bearer user) page_param limit_param
                      search_param w)))
         = true
         /\ (NoDup (map r_created_at matching) ->
             sorted_by created_at_strictly_desc
               (response_reviews
                  (fst (get_admin_reviews order (Bearer user) page_param limit_param
                          search_param w)))
             = true
             /\ (1 <= limit < 2 ^ 53 ->
                 Store.count (reviews (w_db w)) < 2 ^ 53 ->
                 Permutation matching (flat_map (fun p => page (Some p)) (pages totalPages))
                 /\ sorted_by created_at_strictly_desc
                      (flat_map (fun p => page (Some p)) (pages totalPages)) = true))).
Proof.
  split.
  - intros page_param limit_param userId w. cbv zeta.
    rewrite get_reviews_run. cbv zeta.
    split; [|intros Hnd; split].
    + destruct (ordered_window_shape order (or_default limit_param 6)
                  (Js.mul (Js.sub (or_default page_param 1) 1) (or_default limit_param 6))
                  (filter (Store.where_user userId) (reviews (w_db w))))
        as [[e ->] | (l & o & ->)]; [reflexivity|].
      unfold response_reviews. cbn.
      rewrite map_listed_reviews. now apply window_sorted.
    + destruct (ordered_window_shape order (or_default limit_param 6)
                  (Js.mul (Js.sub (or_default page_param 1) 1) (or_default limit_param 6))
                  (filter (Store.where_user userId) (reviews (w_db w))))
        as [[e ->] | (l & o & ->)]; [reflexivity|].
      unfold response_reviews. cbn.
      rewrite map_listed_reviews. now apply window_strictly_sorted.
    + intros Hlimit Hsize.
      pose proof (count_filter_le (Store.where_user userId) (reviews (w_db w))) as Hle.
      rewrite (all_pages_in_order order order_ok _ _ _ (proj1 Hlimit) Hnd).
      * split; [apply order_ok|].
        apply distinct_newest_first_strict;
          [now apply order_distinct | now apply order_sorted].
      * intros p Hin. apply pages_exact in Hin; [|exact Hlimit|lia].
        destruct Hin as [Hp Hpe]. unfold response_reviews.
        rewrite get_reviews_page; cbv zeta;
          rewrite ?or_default_given by assumption; try assumption.
        cbn. apply map_listed_reviews.
  - intros user page_param limit_param search_param w Hadmin. cbv zeta.
    rewrite get_admin_reviews_run by assumption. cbv zeta.
    set (pattern := ("%" ++ match search_param with Some s => s | None => EmptyString end
                         ++ "%")%string).
    split; [|intros Hnd; split].
    + destruct (ordered_window_shape order (or_default limit_param 10)
                  (Js.mul (Js.sub (or_default page_param 1) 1) (or_default limit_param 10))
                  (filter (Store.where_comment_like pattern) (reviews (w_db w))))
        as [[e ->] | (l & o & ->)]; [reflexivity|].
      unfold response_reviews. cbn.
      rewrite map_listed_reviews. now apply window_sorted.
    + destruct (ordered_window_shape order (or_default limit_param 10)
                  (Js.mul (Js.sub (or_default page_param 1) 1) (or_default limit_param 10))
                  (filter (Store.where_comment_like pattern) (reviews (w_db w))))
        as [[e ->] | (l & o & ->)]; [reflexivity|].
      unfold response_reviews. cbn.
      rewrite map_listed_reviews. now apply window_strictly_sorted.
    + intros Hlimit Hsize.
      pose proof (count_filter_le (Store.where_comment_like pattern)
                    (reviews (w_db w))) as Hle.
      rewrite (all_pages_in_order order order_ok _ _ _ (proj1 Hlimit) Hnd).
      * split; [apply order_ok|].
        apply distinct_newest_first_strict;
          [now apply order_distinct | now apply order_sorted].
      * intros p Hin. apply pages_exact in Hin; [|exact Hlimit|lia].
        destruct Hin as [Hp Hpe]. unfold response_reviews.
        rewrite get_admin_reviews_page; cbv zeta;
          rewrite ?or_default_given by assumption; try assumption.
        cbn. apply map_listed_reviews.
Qed.

Lemma listing_newest_first_witness :
  let page p :=
    response_reviews (fst (get_reviews stable_order (Some p) (Some 3) None dated_world)) in
  map r_id (page 1) = [4; 3; 2]
  /\ sorted_by created_at_strictly_desc (flat_map page (pages 2)) = true.
Proof.
  cbv zeta. split; [reflexivity|].
  destruct (listing_newest_first stable_order stable_order_ok) as [Hpub _].
  destruct (Hpub None (Some 3) None dated_world) as [_ Hdistinct].
  cbv zeta in Hdistinct.
  assert (Hnd : NoDup (map r_created_at
                         (filter (Store.where_user None) (reviews (w_db dated_world))))).
  { cbn. repeat constructor; cbn; intuition discriminate. }
  destruct (Hdistinct Hnd) as [_ Hpages].
  destruct (Hpages ltac:(split; [discriminate | reflexivity]) eq_refl) as [_ Hsorted].
  exact Hsorted.
Defined.

(** C8 as the spec words it fails.  The four reviews of [schema.sql] carry
    one creation time.  A server that sorts stably lists them by id
    ascending, which is not newest-then-highest-id first; and a server
    whose order among equal times changes with the OFFSET, as
    ORDER BY r.created_at DESC allows, answers page 2 of size 2 with the
    two reviews of page 1 again, so that reviews 3 and 4 are on no page. *)
Lemma listing_ties_left_to_server :
  (exists order,
      orders_by_created_at_desc order
      /\ map r_created_at
           (response_reviews (fst (get_reviews order None None None seed_world)))
         = [0; 0; 0; 0]
      /\ map r_id (response_reviews (fst (get_reviews order None None None seed_world)))
         = [1; 2; 3; 4]
      /\ sorted_by created_at_then_id_desc
           (response_reviews (fst (get_reviews order None None None seed_world)))
         = false)
  /\ (exists order,
         orders_by_created_at_desc order
         /\ map r_id (response_reviews
                        (fst (get_reviews order (Some 1) (Some 2) None seed_world)))
            = [1; 2]
         /\ map r_id (response_reviews
                        (fst (get_reviews order (Some 2) (Some 2) None seed_world)))
            = [2; 1]).
Proof.
  split.
  - exists stable_order. split; [exact stable_order_ok|]. repeat split; reflexivity.
  - exists plan_dependent_order. split; [exact plan_dependent_order_ok|].
    split; reflexivity.
Qed.

(** ** Searching *)

Lemma like_percent (p s : list ascii) :
  Sql.like_chars (Sql.percent :: p) s
  = Sql.like_chars p s
    || match s with
       | [] => false
       | _ :: s' => Sql.like_chars (Sql.percent :: p) s'
       end.
Proof. destruct s; reflexivity. Qed.

Lemma like_literal (c : ascii) (p s : list ascii) :
  Sql.is_meta c = false ->
  Sql.like_chars (c :: p) s
  = match s with
    | [] => false
    | d :: s' => Sql.char_eqb c d && Sql.like_chars p s'
    end.
Proof.
  unfold Sql.is_meta. intros H.
  apply orb_false_iff in H. destruct H as [H Hb].
  apply orb_false_iff in H. destruct H as [Hp Hu].
  cbn [Sql.like_chars]. rewrite Hp, Hu, Hb. reflexivity.
Qed.

Lemma like_trailing_percent (s : list ascii) :
  Sql.like_chars [Sql.percent] s = true.
Proof.
  induction s as [|d s IH]; [reflexivity|].
  rewrite like_percent, IH. apply orb_true_r.
Qed.

Lemma like_plain_prefix (t : list ascii) :
  forallb (fun c => negb (Sql.is_meta c)) t = true ->
  forall s, Sql.like_chars (t ++ [Sql.percent]) s = Sql.starts_with t s.
Proof.
  induction t as [|c t IH]; intros Hplain s.
  - cbn [app Sql.starts_with]. apply like_trailing_percent.
  - cbn [forallb] in Hplain. apply andb_true_iff in Hplain. destruct Hplain as [Hc Ht].
    apply negb_true_iff in Hc.
    cbn [app]. rewrite like_literal by assumption.
    destruct s as [|d s]; [reflexivity|]. cbn [Sql.starts_with].
    now rewrite IH.
Qed.

Lemma like_plain_anywhere (t : list ascii) :
  forallb (fun c => negb (Sql.is_meta c)) t = true ->
  forall s,
    Sql.like_chars (Sql.percent :: t ++ [Sql.percent]) s = Sql.contains_chars t s.
Proof.
  intros Hplain. induction s as [|d s IH].
  - rewrite like_percent, like_plain_prefix by assumption.
    destruct t; reflexivity.
  - rewrite like_percent, like_plain_prefix, IH by assumption.
    destruct t; reflexivity.
Qed.

Lemma list_ascii_of_append (a b : string) :
  list_ascii_of_string (a ++ b)%string
  = list_ascii_of_string a ++ list_ascii_of_string b.
Proof. induction a as [|c a IH]; cbn; [reflexivity | now rewrite IH]. Qed.

(** For a term without [%], [_] and [\], the pattern the admin listing
    builds matches the comments that contain the term. *)
Lemma like_is_contains (text term : string) :
  Sql.plain term = true ->
  Sql.like text ("%" ++ term ++ "%")%string = Sql.contains text term.
Proof.
  intros Hplain. unfold Sql.like, Sql.contains.
  rewrite list_ascii_of_append, list_ascii_of_append.
  apply (like_plain_anywhere _ Hplain).
Qed.

Lemma text_eqb_lower (a b : list ascii) :
  Sql.text_eqb a b = true <-> map Sql.lower a = map Sql.lower b.
Proof.
  revert b. induction a as [|x a IH]; intros [|y b]; cbn;
    try (split; [reflexivity | reflexivity]);
    try (split; discriminate).
  rewrite andb_true_iff, IH. unfold Sql.char_eqb. rewrite Ascii.eqb_eq.
  split; [intros [-> ->]; reflexivity | intros H; inversion H; auto].
Qed.

Lemma starts_with_spec (t s : list ascii) :
  Sql.starts_with t s = true
  <-> exists mid post, s = mid ++ post /\ map Sql.lower mid = map Sql.lower t.
Proof.
  revert s. induction t as [|x t IH]; intros s.
  - cbn. split; [intros _; exists [], s; split; reflexivity | reflexivity].
  - destruct s as [|y s]; cbn.
    + split; [discriminate|]. intros (mid & post & Hs & Hm).
      destruct mid; cbn in *; discriminate.
    + rewrite andb_true_iff, IH. unfold Sql.char_eqb. rewrite Ascii.eqb_eq. split.
      * intros (Hxy & mid & post & -> & Hm). exists (y :: mid), post.
        split; [reflexivity|]. cbn. now rewrite Hxy, Hm.
      * intros (mid & post & Hs & Hm). destruct mid as [|z mid]; [discriminate|].
        cbn in Hs, Hm. inversion Hs; subst. inversion Hm.
        split; [congruence|]. exists mid, post. split; [reflexivity | congruence].
Qed.

(** [Sql.contains]: the term occurs somewhere in the text, letter case
    aside. *)
Lemma contains_spec (text term : string) :
  Sql.contains text term = true
  <-> exists pre mid post,
        list_ascii_of_string text = pre ++ mid ++ post
        /\ map Sql.lower mid = map Sql.lower (list_ascii_of_string term).
Proof.
  unfold Sql.contains.
  generalize (list_ascii_of_string term) as t.
  generalize (list_ascii_of_string text) as s.
  intros s t. induction s as [|y s IH].
  - cbn. rewrite orb_false_r, starts_with_spec. split.
    + intros (mid & post & Hs & Hm). exists [], mid, post. split; assumption.
    + intros (pre & mid & post & Hs & Hm). destruct pre; [|discriminate].
      exists mid, post. split; assumption.
  - cbn [Sql.contains_chars]. rewrite orb_true_iff, IH, starts_with_spec. split.
    + intros [(mid & post & Hs & Hm) | (pre & mid & post & Hs & Hm)].
      * exists [], mid, post. split; assumption.
      * exists (y :: pre), mid, post. split; [cbn; now rewrite Hs | assumption].
    + intros (pre & mid & post & Hs & Hm). destruct pre as [|z pre].
      * left. exists mid, post. split; assumption.
      * right. cbn in Hs. inversion Hs; subst. exists pre, mid, post.
        split; [reflexivity | assumption].
Qed.

Lemma contains_empty_term (text : string) : Sql.contains text EmptyString = true.
Proof. unfold Sql.contains. cbn. now destruct (list_ascii_of_string text). Qed.

Lemma filter_all {A} (f : A -> bool) (l : list A) :
  (forall a, f a = true) -> filter f l = l.
Proof.
  intros H. induction l as [|a l IH]; cbn; [reflexivity|]. now rewrite H, IH.
Qed.

Lemma window_In {A} (n m : nat) (l : list A) (x : A) :
  In x (firstn n (skipn m l)) -> In x l.
Proof.
  intros H. rewrite <- (firstn_skipn m l). apply in_or_app. right.
  rewrite <- (firstn_skipn n (skipn m l)). apply in_or_app. now left.
Qed.

(** The search for a plain term.  For a search term without the LIKE
    characters [%], [_] and [\], the admin listing keeps the reviews whose
    comment contains the term somewhere, letter case aside: every row of
    every page is such a review of the table, [total] is their number
    whenever the page and the limit are ones JavaScript computes with
    exactly, a first page large enough holds them all, and the empty or
    absent term keeps every review. *)
Lemma search_keeps_comments_containing_plain_term
    (order : Z -> Z -> list Review -> list Review)
    (order_ok : orders_by_created_at_desc order)
    (user : Principal) (page_param limit_param : option Z)
    (search_param : option string) (w : World) :
  p_role user = RoleAdmin ->
  let term := match search_param with Some s => s | None => EmptyString end in
  Sql.plain term = true ->
  let containing :=
    filter (fun r => Sql.contains (r_comment r) term) (reviews (w_db w)) in
  let answer p l := fst (get_admin_reviews order (Bearer user) p l search_param w) in
  (forall r, In r (response_reviews (answer page_param limit_param)) ->
             In r (reviews (w_db w)) /\ Sql.contains (r_comment r) term = true)
  /\ (exact_paging (or_default page_param 1) (or_default limit_param 10) = true ->
      exists items page limit totalPages,
        answer page_param limit_param
        = json 200 (Listing items
                            (mkPagination (Store.count containing) page limit totalPages)))
  /\ (forall limit,
         1 <= limit < 2 ^ 53 -> Store.count containing <= limit ->
         Permutation containing (response_reviews (answer (Some 1) (Some limit))))
  /\ (term = EmptyString -> containing = reviews (w_db w)).
Proof.
  intros Hadmin term Hplain containing answer. subst answer. cbv beta.
  assert (Hfilter : filter (Store.where_comment_like ("%" ++ term ++ "%")%string)
                           (reviews (w_db w)) = containing).
  { apply filter_ext. intros r. unfold Store.where_comment_like.
    now apply like_is_contains. }
  split; [|split; [|split]].
  - intros r. rewrite get_admin_reviews_run by assumption. cbv zeta.
    fold term. rewrite Hfilter.
    destruct (ordered_window_shape order (or_default limit_param 10)
                (Js.mul (Js.sub (or_default page_param 1) 1) (or_default limit_param 10))
                containing)
      as [[e ->] | (l & o & ->)]; [intros []|].
    unfold response_reviews. cbn. rewrite map_listed_reviews.
    intros Hin.
    apply window_In in Hin.
    eapply Permutation_in in Hin; [|apply Permutation_sym, order_ok].
    apply filter_In in Hin. exact Hin.
  - intros Hexact. rewrite get_admin_reviews_page by assumption. cbv zeta.
    fold term. rewrite Hfilter. repeat eexists.
  - intros limit Hl Hfits.
    assert (Hone : or_default (Some 1) 1 = 1) by reflexivity.
    rewrite get_admin_reviews_page; try assumption;
      rewrite ?Hone, ?or_default_given by assumption;
      [|apply exact_paging_intro; rewrite ?pow_2_53 in *; lia].
    cbv zeta. fold term. rewrite Hfilter.
    rewrite ?Hone, ?or_default_given by assumption.
    unfold response_reviews. cbn [body json response_items].
    rewrite map_listed_reviews.
    replace (Z.to_nat ((1 - 1) * limit)) with 0%nat by lia. cbn [skipn].
    rewrite firstn_all2; [apply order_ok|].
    rewrite <- (Permutation_length (proj1 (order_ok _ _ containing))).
    unfold Store.count in Hfits. lia.
  - intros Hempty. subst containing. rewrite Hempty.
    apply filter_all. intros r. apply contains_empty_term.
Qed.

Lemma search_quality_finds_two_reviews :
  map r_id (response_reviews
              (fst (get_admin_reviews stable_order (Bearer the_admin) (Some 1) (Some 10)
                      (Some "QUALITY") seed_world)))
  = [1; 4]
  /\ Permutation
       (filter (fun r => Sql.contains (r_comment r) "QUALITY") (reviews seed_db))
       (response_reviews
          (fst (get_admin_reviews stable_order (Bearer the_admin) (Some 1) (Some 10)
                  (Some "QUALITY") seed_world))).
Proof.
  split; [vm_compute; reflexivity|].
  pose proof (search_keeps_comments_containing_plain_term stable_order stable_order_ok
                the_admin (Some 1) (Some 10) (Some "QUALITY") seed_world
                eq_refl eq_refl) as (_ & _ & Hall & _).
  apply (Hall 10); [split; [discriminate | reflexivity] | vm_compute; discriminate].
Qed.

(** C9: the search for a term that LIKE reads as a pattern.  The handler
    puts the term between two [%] and hands it to LIKE with its own [%],
    [_] and [\] unescaped.  The term
    [_] is then a pattern for any one character, and the admin's search
    for it over the reviews of [schema.sql] returns all four of them,
    though no comment among them contains an underscore; a term without
    these characters, such as [zz], is searched for as it is written and
    finds none of the four. *)
Theorem search_underscore_matches_every_comment :
  let search term :=
    fst (get_admin_reviews stable_order (Bearer the_admin) None None (Some term)
           seed_world) in
  let found := response_reviews (search "_") in
  map r_id found = [1; 2; 3; 4]
  /\ (exists items, body (search "_") = Listing items (mkPagination 4 1 10 1))
  /\ forallb (fun r => negb (Sql.contains (r_comment r) "_")) found = true
  /\ filter (fun r => Sql.contains (r_comment r) "_") (reviews seed_db) = []
  /\ response_reviews (search "zz") = [].
Proof.
  cbv zeta. split; [vm_compute; reflexivity|].
  split; [eexists; vm_compute; reflexivity|].
  split; [vm_compute; reflexivity|].
  split; vm_compute; reflexivity.
Qed.

(** ** The scenario of the specification

    John writes a review; Jane likes it, then dislikes it; Jane may not
    delete it; the admin deletes it, after which it is listed nowhere and
    a reaction to it is answered 404. *)
Example review_life_cycle :
  let (created, w1) := post_reviews (fun q => q) (Bearer john) 5 "Great!" seed_world in
  let (liked, w2) := post_reviews_id_reactions (Bearer jane) 5 "like" w1 in
  let (disliked, w3) := post_reviews_id_reactions (Bearer jane) 5 "dislike" w2 in
  let (refused, w4) := delete_reviews_id (Bearer jane) 5 w3 in
  let (deleted, w5) := delete_reviews_id (Bearer the_admin) 5 w4 in
  let (listing, w6) := get_reviews stable_order None None None w5 in
  let (late, _) := post_reviews_id_reactions (Bearer jane) 5 "like" w6 in
  status created = 201
  /\ body liked = Counts 1 0
  /\ body disliked = Counts 0 1
  /\ status refused = 403
  /\ status deleted = 200
  /\ map r_id (response_reviews listing) = [1; 2; 3; 4]
  /\ Store.select_reactions 5 3 (w_db w5) = []
  /\ status late = 404.
Proof. vm_compute. repeat split; reflexivity. Qed.

(** * Further properties of the routes *)

(** ** Registration and login *)

Lemma filter_nil_existsb {A} (f : A -> bool) (l : list A) :
  filter f l = [] <-> existsb f l = false.
Proof.
  induction l as [|a l IH]; cbn; [tauto|].
  destruct (f a); cbn; [split; discriminate | exact IH].
Qed.

Lemma fits_users_columns (name email password : string) :
  Store.fits_users name email password = true ->
  Store.column 100 name = Some name
  /\ Store.column 100 email = Some email
  /\ Store.column 255 password = Some password.
Proof.
  unfold Store.fits_users. intros H.
  apply andb_true_iff in H. destruct H as [H Hp].
  apply andb_true_iff in H. destruct H as [Hn He].
  repeat split; now apply column_fits.
Qed.

Lemma insert_user_shape (name email password : string) (role : Role)
    (now : Z) (d : DB) (id : Z) (d' : DB) :
  Store.insert_user name email password role now d = Ok (id, d') ->
  exists name' email' password',
    Store.column 100 name = Some name'
    /\ Store.column 100 email = Some email'
    /\ Store.column 255 password = Some password'
    /\ existsb (fun u => Sql.eqb (u_email u) email') (users d) = false
    /\ id = next_user_id d
    /\ d' = mkDB (users d ++ [mkUser id name' email' password' role now])
                 (reviews d) (review_reactions d)
                 (id + 1) (next_review_id d) (next_reaction_id d).
Proof.
  unfold Store.insert_user.
  destruct (Store.column 100 name) as [name'|]; [|discriminate].
  destruct (Store.column 100 email) as [email'|]; [|discriminate].
  destruct (Store.column 255 password) as [password'|]; [|discriminate].
  destruct (existsb _ _) eqn:E; [discriminate|].
  intros H; inversion H; subst. exists name', email', password'. repeat split.
  exact E.
Qed.

Lemma insert_user_accepts (name email password : string) (role : Role)
    (now : Z) (d : DB) :
  Store.fits_users name email password = true ->
  existsb (fun u => Sql.eqb (u_email u) email) (users d) = false ->
  Store.insert_user name email password role now d
  = Ok (next_user_id d,
        mkDB (users d ++ [mkUser (next_user_id d) name email password role now])
             (reviews d) (review_reactions d)
             (next_user_id d + 1) (next_review_id d) (next_reaction_id d)).
Proof.
  intros Hfits Hfree. unfold Store.insert_user.
  destruct (fits_users_columns _ _ _ Hfits) as (-> & -> & ->).
  now rewrite Hfree.
Qed.

Lemma register_run (bcrypt_hash : string -> string)
    (name email password : string) (w : World) :
  post_auth_register bcrypt_hash name email password w
  = match Store.select_users_by_email email (w_db w) with
    | [] =>
        match Store.insert_user name email (bcrypt_hash password) RoleUser
                (w_now w) (w_db w) with
        | Ok (id, d') =>
            (json 201 (Registered (mkPrincipal id email RoleUser) id name email RoleUser),
             mkWorld d' (w_now w)
                     ((w_queries w ++ [SelectUsersByEmail email]) ++ [InsertUser name email])
                     (w_random w) (w_drawn w) (w_classified w))
        | Err _ =>
            (json 500 (Message "Server error during registration"),
             sent (InsertUser name email) (sent (SelectUsersByEmail email) w))
        end
    | _ :: _ =>
        (json 400 (Message "Email already registered"),
         sent (SelectUsersByEmail email) w)
    end.
Proof.
  unfold post_auth_register. run_handler.
  destruct (Store.select_users_by_email email (w_db w)) as [|u l] eqn:E.
  - cbn.
    destruct (Store.insert_user name email (bcrypt_hash password) RoleUser
                (w_now w) (w_db w)) as [[id d']|e]; reflexivity.
  - replace (0 <? Store.count (u :: l)) with true; [reflexivity|].
    symmetry. apply count_pos. discriminate.
Qed.

(** X1: the answers of a registration whose name, email and password are
    strings.  When a user has the email, letter case aside, it is answered
    400.  When none has it and the name, the email and the hash of the
    password fit their columns (100, 100 and 255 characters), it is
    answered 201 and the [users] table gains one row, with the next id,
    the role 'user', the name and email as sent and the hash in place of
    the password; the other tables are as before.  When none has it and a
    column turns its value down (a value longer than the column, with
    more than spaces beyond its width), it is answered 500.  Every answer
    other than 201 leaves all tables as they were. *)
Theorem register_outcomes (bcrypt_hash : string -> string)
    (name email password : string) (w : World) :
  let answer := post_auth_register bcrypt_hash name email password w in
  let taken := existsb (fun u => Sql.eqb (u_email u) email) (users (w_db w)) in
  let hash := bcrypt_hash password in
  (taken = true -> fst answer = json 400 (Message "Email already registered"))
  /\ (taken = false ->
      Store.fits_users name email hash = true ->
      status (fst answer) = 201
      /\ users (w_db (snd answer))
         = users (w_db w)
             ++ [mkUser (next_user_id (w_db w)) name email hash RoleUser (w_now w)]
      /\ reviews (w_db (snd answer)) = reviews (w_db w)
      /\ review_reactions (w_db (snd answer)) = review_reactions (w_db w)
      /\ body (fst answer)
         = Registered (mkPrincipal (next_user_id (w_db w)) email RoleUser)
                      (next_user_id (w_db w)) name email RoleUser)
  /\ (taken = false ->
      Store.column 100 name = None \/ Store.column 100 email = None
      \/ Store.column 255 hash = None ->
      fst answer = json 500 (Message "Server error during registration"))
  /\ (status (fst answer) <> 201 -> w_db (snd answer) = w_db w).
Proof.
  cbv zeta. rewrite register_run.
  destruct (Store.select_users_by_email email (w_db w)) as [|u l] eqn:E.
  - unfold Store.select_users_by_email in E. apply filter_nil_existsb in E.
    rewrite E. split; [discriminate|]. split; [|split].
    + intros _ Hfits. rewrite insert_user_accepts by assumption. cbn.
      repeat split.
    + intros _ Hlong. unfold Store.insert_user.
      destruct Hlong as [-> | [-> | ->]]; [reflexivity| |].
      * now destruct (Store.column 100 name).
      * now destruct (Store.column 100 name), (Store.column 100 email).
    + destruct (Store.insert_user _ _ _ _ _ _) as [[id d']|e]; cbn;
        [intros H; now contradiction H | reflexivity].
  - assert (Ht : existsb (fun u => Sql.eqb (u_email u) email) (users (w_db w)) = true).
    { destruct (existsb _ _) eqn:F; [reflexivity|].
      apply filter_nil_existsb in F. unfold Store.select_users_by_email in E.
      congruence. }
    rewrite Ht. cbn. repeat split; intros; try discriminate; reflexivity.
Qed.

Lemma register_outcomes_witness :
  let long := String.concat EmptyString (repeat "abcdefghij" 10) in
  status (fst (post_auth_register (fun p => p) "Ann" "ann@example.com" "pw" seed_world))
  = 201
  /\ List.length
       (users (w_db (snd (post_auth_register (fun p => p) "Ann" "ann@example.com" "pw"
                            seed_world))))
     = 4%nat
  /\ fst (post_auth_register (fun p => p) "Ann" "JOHN@example.com" "pw" seed_world)
     = json 400 (Message "Email already registered")
  /\ w_db (snd (post_auth_register (fun p => p) "Ann" "JOHN@example.com" "pw" seed_world))
     = seed_db
  /\ String.length (long ++ "k") = 101%nat
  /\ status (fst (post_auth_register (fun p => p) (long ++ "k") "ann@example.com" "pw"
                    seed_world))
     = 500
  /\ map u_name
         (users (w_db (snd (post_auth_register (fun p => p) (long ++ " ")
                              "ann@example.com" "pw" seed_world))))
     = map u_name (users seed_db) ++ [long].
Proof.
  cbv zeta.
  pose proof (register_outcomes (fun p => p) "Ann" "ann@example.com" "pw" seed_world)
    as (_ & Hnew & _).
  pose proof (register_outcomes (fun p => p) "Ann" "JOHN@example.com" "pw" seed_world)
    as (Hold & _ & _ & Hsame).
  pose proof (register_outcomes (fun p => p)
                (String.concat EmptyString (repeat "abcdefghij" 10) ++ "k")
                "ann@example.com" "pw" seed_world)
    as (_ & _ & Hlong & _).
  cbv zeta in *.
  destruct (Hnew eq_refl eq_refl) as (Hs & Hu & _).
  split; [exact Hs|].
  split; [rewrite Hu; reflexivity|].
  split; [exact (Hold eq_refl)|].
  split; [apply Hsame; rewrite (Hold eq_refl); cbn; discriminate|].
  split; [reflexivity|].
  split; [rewrite (Hlong eq_refl (or_introl eq_refl)); reflexivity|].
  vm_compute. reflexivity.
Defined.

Lemma existsb_snoc {A} (f : A -> bool) (l : list A) (a : A) :
  existsb f (l ++ [a]) = existsb f l || f a.
Proof. rewrite existsb_app. cbn. now rewrite orb_false_r. Qed.

(** X2: an email can be registered once.  Unless the first request with an
    email of at most 100 characters was answered 500, a second
    registration with the same email is answered 400 and changes nothing,
    whatever name and password it carries. *)
Theorem register_twice_refused (bcrypt_hash : string -> string)
    (name1 password1 name2 password2 email : string) (w : World) :
  let first := post_auth_register bcrypt_hash name1 email password1 w in
  let second := post_auth_register bcrypt_hash name2 email password2 (snd first) in
  Store.fits 100 email = true ->
  status (fst first) <> 500 ->
  fst second = json 400 (Message "Email already registered")
  /\ w_db (snd second) = w_db (snd first).
Proof.
  cbv zeta. intros Hfits Hfirst.
  assert (Hnow : Store.select_users_by_email email
                   (w_db (snd (post_auth_register bcrypt_hash name1 email password1 w)))
                 <> []).
  { revert Hfirst. rewrite register_run.
    destruct (Store.select_users_by_email email (w_db w)) as [|u l] eqn:E.
    - destruct (Store.insert_user _ _ _ _ _ _) as [[id d']|e] eqn:I;
        [intros _ | intros H; now contradiction H].
      apply insert_user_shape in I.
      destruct I as (name' & email' & hash' & _ & He & _ & _ & _ & ->).
      rewrite (column_fits _ _ Hfits) in He. inversion He; subst email'.
      cbn. unfold Store.select_users_by_email. cbn.
      rewrite filter_app. cbn [filter u_email].
      rewrite sql_eqb_refl.
      intros H. apply app_eq_nil in H. destruct H as [_ H]. discriminate.
    - intros _. cbn. rewrite E. discriminate. }
  rewrite (register_run bcrypt_hash name2).
  destruct (Store.select_users_by_email email _); [congruence|].
  split; reflexivity.
Qed.

Lemma register_twice_refused_witness :
  let long := String.concat EmptyString (repeat "abcdefghij" 11) in
  let first := post_auth_register (fun p => p) "Ann" "ann@example.com" "pw" seed_world in
  status (fst first) = 201
  /\ fst (post_auth_register (fun p => p) long "ann@example.com" "pw2" (snd first))
     = json 400 (Message "Email already registered").
Proof.
  cbv zeta. split; [reflexivity|].
  refine (proj1 (register_twice_refused (fun p => p) "Ann" "pw" _ "pw2"
                   "ann@example.com" seed_world eq_refl _)).
  vm_compute. discriminate.
Defined.

Lemma emails_unique_snoc (l : list User) (u : User) :
  Schema.emails_unique_in l = true ->
  existsb (fun v => Sql.eqb (u_email v) (u_email u)) l = false ->
  Schema.emails_unique_in (l ++ [u]) = true.
Proof.
  induction l as [|v l IH]; cbn; [reflexivity|].
  intros H1 H2. apply andb_true_iff in H1. destruct H1 as [Hv Hl].
  apply orb_false_iff in H2. destruct H2 as [Hvu H2].
  rewrite IH, andb_true_r by assumption.
  rewrite existsb_snoc, negb_orb. apply andb_true_iff. split; [assumption|].
  apply negb_true_iff.
  destruct (Sql.eqb (u_email u) (u_email v)) eqn:E; [|reflexivity].
  rewrite <- Hvu. symmetry. revert E. unfold Sql.eqb.
  generalize (list_ascii_of_string (u_email u)) as a.
  generalize (list_ascii_of_string (u_email v)) as b.
  intros b a E. apply text_eqb_lower in E. apply text_eqb_lower. now symmetry.
Qed.

Lemma login_run (bcrypt_compare : string -> string -> bool)
    (email password : string) (w : World) :
  post_auth_login bcrypt_compare email password w
  = (match Store.select_users_by_email email (w_db w) with
     | [] => json 401 (Message "Invalid credentials")
     | user :: _ =>
         if bcrypt_compare password (u_password user)
         then json 200 (Registered (mkPrincipal (u_id user) (u_email user) (u_role user))
                                   (u_id user) (u_name user) (u_email user) (u_role user))
         else json 401 (Message "Invalid credentials")
     end,
     sent (SelectUsersByEmail email) w).
Proof.
  unfold post_auth_login. run_handler.
  destruct (Store.select_users_by_email email (w_db w)) as [|u l]; [reflexivity|].
  destruct (bcrypt_compare password (u_password u)); reflexivity.
Qed.

(** X3: a login sends one SELECT and writes nothing.  An email no user
    has and a password that does not fit the stored hash get the same
    answer, 401 'Invalid credentials'; a password that fits gets 200 with
    the id, name, email and role of the stored row, which also make the
    token. *)
Theorem login_outcomes (bcrypt_compare : string -> string -> bool)
    (email password : string) (w : World) :
  let answer := post_auth_login bcrypt_compare email password w in
  let found := Store.select_users_by_email email (w_db w) in
  snd answer = sent (SelectUsersByEmail email) w
  /\ (found = [] -> fst answer = json 401 (Message "Invalid credentials"))
  /\ (forall u l,
         found = u :: l ->
         bcrypt_compare password (u_password u) = false ->
         fst answer = json 401 (Message "Invalid credentials"))
  /\ (forall u l,
         found = u :: l ->
         bcrypt_compare password (u_password u) = true ->
         fst answer
         = json 200 (Registered (mkPrincipal (u_id u) (u_email u) (u_role u))
                                (u_id u) (u_name u) (u_email u) (u_role u))).
Proof.
  cbv zeta. rewrite login_run. cbn [fst snd].
  split; [reflexivity|].
  split; [now intros ->|].
  split; intros u l -> Hc; now rewrite Hc.
Qed.

Lemma login_outcomes_witness :
  fst (post_auth_login String.eqb "nobody@example.com" "pw" seed_world)
  = json 401 (Message "Invalid credentials")
  /\ fst (post_auth_login String.eqb "john@example.com" "pw" seed_world)
     = json 401 (Message "Invalid credentials")
  /\ status (fst (post_auth_login (fun _ _ => true) "John@Example.com" "pw" seed_world))
     = 200.
Proof.
  pose proof (login_outcomes String.eqb "nobody@example.com" "pw" seed_world)
    as (_ & Hnone & _).
  pose proof (login_outcomes String.eqb "john@example.com" "pw" seed_world)
    as (_ & _ & Hbad & _).
  pose proof (login_outcomes (fun _ _ => true) "John@Example.com" "pw" seed_world)
    as (_ & _ & _ & Hgood).
  cbv zeta in *.
  split; [exact (Hnone eq_refl)|].
  split; [exact (Hbad _ _ eq_refl eq_refl)|].
  rewrite (Hgood _ _ eq_refl eq_refl). reflexivity.
Defined.

(** X4: registering and then logging in.  When no user has the email, the
    name, the email and the hash of the password fit their columns (100,
    100 and 255 characters) and [bcrypt.compare] accepts the password
    against its own hash, the registration is answered 201 and the login
    that follows it 200 with the token and user the registration returned;
    a password [bcrypt.compare] turns down is answered 401. *)
Theorem register_then_login
    (bcrypt_hash : string -> string) (bcrypt_compare : string -> string -> bool)
    (name email password attempt : string) (w : World) :
  existsb (fun u => Sql.eqb (u_email u) email) (users (w_db w)) = false ->
  Store.fits_users name email (bcrypt_hash password) = true ->
  let registered := post_auth_register bcrypt_hash name email password w in
  let login := fst (post_auth_login bcrypt_compare email attempt (snd registered)) in
  status (fst registered) = 201
  /\ (bcrypt_compare attempt (bcrypt_hash password) = true ->
      status login = 200 /\ body login = body (fst registered))
  /\ (bcrypt_compare attempt (bcrypt_hash password) = false ->
      login = json 401 (Message "Invalid credentials")).
Proof.
  intros Hfree Hfits. cbv zeta.
  rewrite register_run, login_run.
  assert (Hnone : Store.select_users_by_email email (w_db w) = []).
  { apply filter_nil_existsb. exact Hfree. }
  rewrite Hnone, insert_user_accepts by assumption. cbn [fst snd w_db].
  unfold Store.select_users_by_email. cbn [users].
  fold (Store.select_users_by_email email (w_db w)).
  rewrite filter_app. unfold Store.select_users_by_email in Hnone. rewrite Hnone.
  cbn [filter u_email app]. rewrite sql_eqb_refl. cbn [u_password].
  split; [reflexivity|].
  split; intros ->; [split; reflexivity | reflexivity].
Qed.

Lemma register_then_login_witness :
  let registered :=
    post_auth_register (fun p => ("#" ++ p)%string) "Ann" "ann@example.com" "pw" seed_world in
  let compare p h := String.eqb h ("#" ++ p)%string in
  status (fst (post_auth_login compare "ann@example.com" "pw" (snd registered))) = 200
  /\ status (fst (post_auth_login compare "ann@example.com" "pw2" (snd registered))) = 401.
Proof.
  cbv zeta.
  pose proof (register_then_login (fun p => ("#" ++ p)%string)
                (fun p h => String.eqb h ("#" ++ p)%string)
                "Ann" "ann@example.com" "pw" "pw" seed_world eq_refl eq_refl)
    as (_ & Hok & _).
  pose proof (register_then_login (fun p => ("#" ++ p)%string)
                (fun p h => String.eqb h ("#" ++ p)%string)
                "Ann" "ann@example.com" "pw" "pw2" seed_world eq_refl eq_refl)
    as (_ & _ & Hbad).
  cbv zeta in *.
  split; [exact (proj1 (Hok eq_refl))|].
  now rewrite (Hbad eq_refl).
Defined.

(** ** The two gates *)

(** X5: without a verified token no protected route does anything.  A
    request with no token is answered 401 and one with a token that does
    not verify 403, and the world is returned as it was: no statement is
    sent, the classifier is not called, no row changes. *)
Theorem unauthenticated_requests_touch_nothing
    (order : Z -> Z -> list Review -> list Review) (to_float : Q -> Q)
    (auth : Auth) (w : World) :
  (forall user, auth <> Bearer user) ->
  let refusal :=
    match auth with
    | InvalidToken => json 403 (Message "Invalid or expired token")
    | _ => json 401 (Message "Authentication required")
    end in
  (forall rating comment, post_reviews to_float auth rating comment w = (refusal, w))
  /\ (forall reviewId, delete_reviews_id auth reviewId w = (refusal, w))
  /\ (forall reviewId reactionType,
         post_reviews_id_reactions auth reviewId reactionType w = (refusal, w))
  /\ (forall page limit search,
         get_admin_reviews order auth page limit search w = (refusal, w))
  /\ (forall reviewId isFlagged,
         put_admin_reviews_id_flag auth reviewId isFlagged w = (refusal, w)).
Proof.
  intros Hno. destruct auth as [| |user]; [| |now destruct (Hno user)];
    cbv zeta; repeat split; reflexivity.
Qed.

Lemma unauthenticated_requests_touch_nothing_witness :
  post_reviews (fun q => q) NoToken 5 "Great!" seed_world
  = (json 401 (Message "Authentication required"), seed_world)
  /\ delete_reviews_id InvalidToken 1 seed_world
     = (json 403 (Message "Invalid or expired token"), seed_world).
Proof.
  split.
  - apply (unauthenticated_requests_touch_nothing stable_order (fun q => q) NoToken
             seed_world); discriminate.
  - apply (unauthenticated_requests_touch_nothing stable_order (fun q => q) InvalidToken
             seed_world); discriminate.
Defined.

(** X6: the admin routes are closed to every other role.  A principal who
    is not an admin is answered 403 'Admin access required' by the admin
    listing and by the flag route, and the world is returned as it was. *)
Theorem admin_routes_closed_to_users
    (order : Z -> Z -> list Review -> list Review)
    (user : Principal) (w : World) :
  p_role user <> RoleAdmin ->
  (forall page limit search,
      get_admin_reviews order (Bearer user) page limit search w
      = (json 403 (Message "Admin access required"), w))
  /\ (forall reviewId isFlagged,
         put_admin_reviews_id_flag (Bearer user) reviewId isFlagged w
         = (json 403 (Message "Admin access required"), w)).
Proof.
  intros Hrole. unfold get_admin_reviews, put_admin_reviews_id_flag,
    authenticateToken, isAdmin.
  destruct (p_role user); [|congruence]. split; reflexivity.
Qed.

Lemma admin_routes_closed_to_users_witness :
  get_admin_reviews stable_order (Bearer john) None None None seed_world
  = (json 403 (Message "Admin access required"), seed_world)
  /\ put_admin_reviews_id_flag (Bearer jane) 1 true seed_world
     = (json 403 (Message "Admin access required"), seed_world).
Proof.
  split.
  - apply (admin_routes_closed_to_users stable_order john seed_world). discriminate.
  - apply (admin_routes_closed_to_users stable_order jane seed_world). discriminate.
Defined.

(** ** What a request can do to the tables *)

Section Serving.

Variable order : Z -> Z -> list Review -> list Review.
Variable to_float : Q -> Q.
Variable bcrypt_hash : string -> string.
Variable bcrypt_compare : string -> string -> bool.

Lemma react_writes (auth : Auth) (reviewId : Z) (t : string) (w : World) :
  w_now (snd (post_reviews_id_reactions auth reviewId t w)) = w_now w
  /\ accepted_writes (w_now w) (w_db w)
       (w_db (snd (post_reviews_id_reactions auth reviewId t w))).
Proof.
  destruct auth as [| |user]; try (split; [reflexivity | constructor]).
  unfold post_reviews_id_reactions, authenticateToken.
  destruct (is_reaction_type t); cbn [negb]; [|split; [reflexivity | constructor]].
  run_handler.
  destruct (Store.count (Store.select_review_id reviewId (w_db w)) =? 0);
    [split; [reflexivity | constructor]|].
  cbn.
  destruct (0 <? Store.count (Store.select_reactions reviewId (p_id user) (w_db w))); cbn.
  - destruct (Store.update_reaction t reviewId (p_id user) (w_db w))
      as [[[] d']|e] eqn:E; cbn; (split; [reflexivity|]); [|constructor].
    eapply ThenWrite; [eapply UpdatedReaction; exact E | constructor].
  - destruct (Store.insert_reaction reviewId (p_id user) t (w_now w) (w_db w))
      as [[[] d']|e] eqn:E; cbn; (split; [reflexivity|]); [|constructor].
    eapply ThenWrite; [eapply WroteReaction; exact E | constructor].
Qed.

(** Whatever the request, the tables after it are the tables before it put
    through accepted writes, and the clock is where it was. *)
Lemma serve_writes (req : Request) (w : World) :
  w_now (snd (serve order to_float bcrypt_hash bcrypt_compare req w)) = w_now w
  /\ accepted_writes (w_now w) (w_db w)
       (w_db (snd (serve order to_float bcrypt_hash bcrypt_compare req w))).
Proof.
  destruct req; cbn [serve].
  - rewrite register_run.
    destruct (Store.select_users_by_email email (w_db w)) eqn:E;
      [|split; [reflexivity | constructor]].
    destruct (Store.insert_user name email (bcrypt_hash password) RoleUser
                (w_now w) (w_db w)) as [[id d']|e] eqn:I; cbn;
      (split; [reflexivity|]); [|constructor].
    eapply ThenWrite; [eapply WroteUser; exact I | constructor].
  - rewrite login_run. split; [reflexivity | constructor].
  - rewrite get_reviews_run. cbv zeta.
    destruct (ordered_window _ _ _ _); split; try reflexivity; constructor.
  - destruct auth as [| |user]; try (split; [reflexivity | constructor]).
    rewrite post_reviews_run. cbv zeta.
    destruct (Store.insert_review _ _ _ _ _ _ _) as [[id d']|e] eqn:E; cbn;
      (split; [reflexivity|]); [|constructor].
    eapply ThenWrite; [eapply WroteReview; exact E | constructor].
  - destruct auth as [| |user]; try (split; [reflexivity | constructor]).
    unfold delete_reviews_id, authenticateToken. run_handler.
    destruct (Store.select_review_owner reviewId (w_db w)) as [|owner l];
      [split; [reflexivity | constructor]|].
    destruct (negb (role_eqb (p_role user) RoleAdmin) && negb (owner =? p_id user));
      cbn; (split; [reflexivity|]); [constructor|].
    eapply ThenWrite; [apply DeletedReactions|].
    eapply ThenWrite; [apply DeletedReview | constructor].
  - apply react_writes.
  - destruct auth as [| |user]; try (split; [reflexivity | constructor]).
    destruct (p_role user) eqn:Hrole.
    + unfold get_admin_reviews, authenticateToken, isAdmin. rewrite Hrole.
      split; [reflexivity | constructor].
    + rewrite get_admin_reviews_run by assumption. cbv zeta.
      destruct (ordered_window _ _ _ _); split; try reflexivity; constructor.
  - destruct auth as [| |user]; try (split; [reflexivity | constructor]).
    unfold put_admin_reviews_id_flag, authenticateToken, isAdmin.
    destruct (role_eqb (p_role user) RoleAdmin); cbn;
      (split; [reflexivity|]); [|constructor].
    eapply ThenWrite; [apply UpdatedFlag | constructor].
Qed.

Lemma accepted_writes_trans (now : Z) (d1 d2 d3 : DB) :
  accepted_writes now d1 d2 -> accepted_writes now d2 d3 -> accepted_writes now d1 d3.
Proof.
  induction 1; [auto|]. intros H3. eapply ThenWrite; eauto.
Qed.

Lemma serve_all_writes (reqs : list Request) :
  forall w,
    w_now (snd (serve_all order to_float bcrypt_hash bcrypt_compare reqs w)) = w_now w
    /\ accepted_writes (w_now w) (w_db w)
         (w_db (snd (serve_all order to_float bcrypt_hash bcrypt_compare reqs w))).
Proof.
  induction reqs as [|req reqs IH]; intros w; [split; [reflexivity | constructor]|].
  cbn [serve_all].
  pose proof (serve_writes req w) as [Hn Hw].
  destruct (serve order to_float bcrypt_hash bcrypt_compare req w) as [r w1].
  specialize (IH w1). cbn [snd] in *.
  destruct (serve_all order to_float bcrypt_hash bcrypt_compare reqs w1) as [rs w2].
  cbn [snd] in *. destruct IH as [Hn2 Hw2]. rewrite Hn in *.
  split; [exact Hn2|]. eapply accepted_writes_trans; eassumption.
Qed.

(** A check that every accepted write keeps is kept by every run of
    requests. *)
Lemma serve_all_keeps (ok : DB -> bool) :
  (forall now d d', accepted_write now d d' -> ok d = true -> ok d' = true) ->
  forall reqs w,
    ok (w_db w) = true ->
    ok (w_db (snd (serve_all order to_float bcrypt_hash bcrypt_compare reqs w))) = true.
Proof.
  intros Hstep reqs w Hok.
  destruct (serve_all_writes reqs w) as [_ Hw].
  induction Hw; [assumption|]. eauto.
Qed.

End Serving.

(** ** What the accepted writes are *)

Lemma insert_review_shape (userId : Z) (sent_rating : Q) (sent_comment : string)
    (score : Q) (label : SentimentLabel) (now : Z) (d : DB) (id : Z) (d' : DB) :
  Store.insert_review userId sent_rating sent_comment score label now d = Ok (id, d') ->
  exists comment,
    Store.user_exists d userId = true
    /\ 1 <= Store.to_int sent_rating <= 5
    /\ id = next_review_id d
    /\ d' = mkDB (users d)
                 (reviews d ++ [mkReview id userId (Store.to_int sent_rating) comment
                                         (Some score) (Some label) 0 0 false now])
                 (review_reactions d)
                 (next_user_id d) (id + 1) (next_reaction_id d).
Proof.
  unfold Store.insert_review. cbv zeta.
  destruct (Store.column 65535 sent_comment) as [comment|]; [|discriminate].
  destruct (_ || _); [discriminate|].
  destruct (Store.user_exists d userId); cbn [negb]; [|discriminate].
  destruct ((1 <=? Store.to_int sent_rating) && (Store.to_int sent_rating <=? 5)) eqn:E;
    cbn [negb]; [|discriminate].
  apply andb_true_iff in E. destruct E as [E1 E2]. apply Z.leb_le in E1, E2.
  intros H; inversion H; subst. exists comment. repeat split; assumption.
Qed.

Lemma update_reaction_shape (t : string) (reviewId userId : Z) (d d' : DB) :
  Store.update_reaction t reviewId userId d = Ok (tt, d') ->
  exists ty,
    reaction_of_string t = Some ty
    /\ d' = mkDB (users d) (reviews d)
                 (map (fun x =>
                         if (x_review_id x =? reviewId) && (x_user_id x =? userId)
                         then mkReaction (x_id x) (x_review_id x) (x_user_id x) ty
                                         (x_created_at x)
                         else x)
                      (review_reactions d))
                 (next_user_id d) (next_review_id d) (next_reaction_id d).
Proof.
  unfold Store.update_reaction. destruct (reaction_of_string t) as [ty|]; [|discriminate].
  intros H; inversion H; subst. exists ty. split; reflexivity.
Qed.

Lemma insert_reaction_shape (reviewId userId : Z) (t : string) (now : Z) (d d' : DB) :
  Store.insert_reaction reviewId userId t now d = Ok (tt, d') ->
  exists ty,
    reaction_of_string t = Some ty
    /\ Store.review_exists d reviewId = true
    /\ Store.user_exists d userId = true
    /\ has_reacted d reviewId userId = false
    /\ d' = mkDB (users d) (reviews d)
                 (review_reactions d
                    ++ [mkReaction (next_reaction_id d) reviewId userId ty now])
                 (next_user_id d) (next_review_id d) (next_reaction_id d + 1).
Proof.
  unfold Store.insert_reaction, has_reacted.
  destruct (reaction_of_string t) as [ty|]; [|discriminate].
  destruct (Store.review_exists d reviewId && Store.user_exists d userId) eqn:E;
    cbn [negb]; [|discriminate].
  apply andb_true_iff in E. destruct E as [E1 E2].
  destruct (existsb _ _) eqn:F; [discriminate|].
  intros H; inversion H; subst. exists ty. repeat split; assumption.
Qed.

(** ** The unique key of [review_reactions] *)

Lemma key_absent_after_filter (f : Reaction -> bool) (a b : Z) (l : list Reaction) :
  existsb (fun q => (fst q =? a) && (snd q =? b)) (map Store.reaction_key l) = false ->
  existsb (fun q => (fst q =? a) && (snd q =? b))
          (map Store.reaction_key (filter f l)) = false.
Proof.
  induction l as [|x l IH]; cbn; [reflexivity|].
  intros H. apply orb_false_iff in H. destruct H as [Hx Hl].
  destruct (f x); cbn; [rewrite Hx|]; auto.
Qed.

Lemma nodupb_filter (f : Reaction -> bool) (l : list Reaction) :
  Store.nodupb (map Store.reaction_key l) = true ->
  Store.nodupb (map Store.reaction_key (filter f l)) = true.
Proof.
  induction l as [|x l IH]; cbn; [reflexivity|].
  intros H. apply andb_true_iff in H. destruct H as [Hx Hl].
  destruct (f x); cbn; [|auto].
  apply negb_true_iff in Hx.
  rewrite (key_absent_after_filter f _ _ _ Hx). cbn. auto.
Qed.

Lemma unique_reaction_kept (now : Z) (d d' : DB) :
  accepted_write now d d' ->
  Store.unique_reaction d = true -> Store.unique_reaction d' = true.
Proof.
  unfold Store.unique_reaction. intros Hw Hu. inversion Hw; subst; clear Hw.
  - apply insert_user_shape in H.
    destruct H as (name' & email' & hash' & _ & _ & _ & _ & _ & ->). exact Hu.
  - apply insert_review_shape in H. destruct H as (kept & _ & _ & _ & ->). exact Hu.
  - cbn. now apply nodupb_filter.
  - cbn. now apply nodupb_filter.
  - apply update_reaction_shape in H. destruct H as (ty & _ & ->). cbn.
    rewrite map_map.
    erewrite map_ext; [exact Hu|]. intros x. cbn.
    now destruct ((x_review_id x =? reviewId) && (x_user_id x =? userId)).
  - apply insert_reaction_shape in H. destruct H as (ty & _ & _ & _ & Hnone & ->).
    cbn. rewrite map_app. cbn. apply nodupb_snoc; [exact Hu|].
    apply select_absent_key. apply filter_nil_existsb. exact Hnone.
  - exact Hu.
Qed.

(** X7: the unique key [(review_id, user_id)] of [review_reactions] holds
    after any run of requests on a database in which it held: no run of
    registrations, logins, listings, reviews, deletions, reactions and
    flaggings leaves two reactions of one user to one review. *)
Theorem requests_keep_unique_reaction
    (order : Z -> Z -> list Review -> list Review) (to_float : Q -> Q)
    (bcrypt_hash : string -> string) (bcrypt_compare : string -> string -> bool)
    (reqs : list Request) (w : World) :
  Store.unique_reaction (w_db w) = true ->
  Store.unique_reaction
    (w_db (snd (serve_all order to_float bcrypt_hash bcrypt_compare reqs w))) = true.
Proof.
  apply (serve_all_keeps order to_float bcrypt_hash bcrypt_compare Store.unique_reaction).
  exact unique_reaction_kept.
Qed.

(** ** The unique emails of [users] *)

Lemma emails_unique_kept (now : Z) (d d' : DB) :
  accepted_write now d d' ->
  Schema.emails_unique d = true -> Schema.emails_unique d' = true.
Proof.
  unfold Schema.emails_unique. intros Hw Hu. inversion Hw; subst; clear Hw;
    try exact Hu.
  - apply insert_user_shape in H.
    destruct H as (name' & email' & hash' & _ & _ & _ & Hfree & _ & ->). cbn.
    apply emails_unique_snoc; assumption.
  - apply insert_review_shape in H. destruct H as (kept & _ & _ & _ & ->). exact Hu.
  - apply update_reaction_shape in H. destruct H as (ty & _ & ->). exact Hu.
  - apply insert_reaction_shape in H. destruct H as (ty & _ & _ & _ & _ & ->). exact Hu.
Qed.

(** X8: no two users share an email, letter case aside, after any run of
    requests on a database of which that was true. *)
Theorem requests_keep_emails_unique
    (order : Z -> Z -> list Review -> list Review) (to_float : Q -> Q)
    (bcrypt_hash : string -> string) (bcrypt_compare : string -> string -> bool)
    (reqs : list Request) (w : World) :
  Schema.emails_unique (w_db w) = true ->
  Schema.emails_unique
    (w_db (snd (serve_all order to_float bcrypt_hash bcrypt_compare reqs w))) = true.
Proof.
  apply (serve_all_keeps order to_float bcrypt_hash bcrypt_compare Schema.emails_unique).
  exact emails_unique_kept.
Qed.

Lemma requests_keep_unique_reaction_witness :
  Store.unique_reaction
    (w_db (snd (serve_all stable_order (fun q => q) (fun p => p) String.eqb
                  [PostReviewsIdReactions (Bearer jane) 1 "dislike";
                   PostReviewsIdReactions (Bearer the_admin) 1 "like";
                   DeleteReviewsId (Bearer jane) 2]
                  seed_world)))
  = true.
Proof.
  apply (requests_keep_unique_reaction stable_order (fun q => q) (fun p => p) String.eqb).
  reflexivity.
Defined.

Lemma requests_keep_emails_unique_witness :
  Schema.emails_unique
    (w_db (snd (serve_all stable_order (fun q => q) (fun p => p) String.eqb
                  [PostAuthRegister "Ann" "ann@example.com" "pw";
                   PostAuthRegister "Ann" "ANN@example.com" "pw";
                   PostAuthLogin "ann@example.com" "pw"]
                  seed_world)))
  = true.
Proof.
  apply (requests_keep_emails_unique stable_order (fun q => q) (fun p => p) String.eqb).
  reflexivity.
Defined.

(** ** References between the tables *)

Lemma references_ok_spec (d : DB) :
  Schema.references_ok d = true
  <-> (forall r, In r (reviews d) -> Store.user_exists d (r_user_id r) = true)
      /\ (forall x, In x (review_reactions d) ->
                    Store.review_exists d (x_review_id x) = true
                    /\ Store.user_exists d (x_user_id x) = true).
Proof.
  unfold Schema.references_ok. rewrite andb_true_iff, !forallb_forall.
  split; intros [H1 H2]; (split; [exact H1|]); intros x Hx.
  - apply andb_true_iff. now apply H2.
  - apply andb_true_iff. now apply H2.
Qed.

Lemma user_exists_more (d d' : DB) (more : list User) (id : Z) :
  users d' = users d ++ more ->
  Store.user_exists d id = true -> Store.user_exists d' id = true.
Proof.
  unfold Store.user_exists. intros ->. rewrite existsb_app. now intros ->.
Qed.

Lemma review_exists_more (d d' : DB) (more : list Review) (id : Z) :
  reviews d' = reviews d ++ more ->
  Store.review_exists d id = true -> Store.review_exists d' id = true.
Proof.
  unfold Store.review_exists. intros ->. rewrite existsb_app. now intros ->.
Qed.

Lemma review_exists_flagged (isFlagged : bool) (id id' : Z) (d : DB) :
  Store.review_exists (Store.update_flag isFlagged id d) id' = Store.review_exists d id'.
Proof.
  unfold Store.review_exists; cbn.
  induction (reviews d) as [|r l IH]; cbn; [reflexivity|].
  rewrite IH. now destruct (r_id r =? id).
Qed.

Lemma review_exists_after_delete (id id' : Z) (d : DB) :
  id' <> id ->
  Store.review_exists (Store.delete_review id d) id' = Store.review_exists d id'.
Proof.
  intros Hne. unfold Store.review_exists; cbn.
  induction (reviews d) as [|r l IH]; cbn; [reflexivity|].
  destruct (r_id r =? id) eqn:E; cbn; [|now rewrite IH].
  apply Z.eqb_eq in E. rewrite IH.
  destruct (r_id r =? id') eqn:F; [apply Z.eqb_eq in F; congruence | reflexivity].
Qed.

Lemma references_ok_kept (now : Z) (d d' : DB) :
  accepted_write now d d' ->
  Schema.references_ok d = true -> Schema.references_ok d' = true.
Proof.
  intros Hw Hok. apply references_ok_spec in Hok. destruct Hok as [Hrev Hreact].
  apply references_ok_spec.
  inversion Hw; subst; clear Hw.
  - apply insert_user_shape in H.
    destruct H as (name' & email' & hash' & _ & _ & _ & _ & _ & ->). split.
    + intros r Hr. eapply (user_exists_more d); [reflexivity|]. now apply Hrev.
    + intros x Hx. destruct (Hreact x Hx) as [H1 H2].
      split; [exact H1 | eapply (user_exists_more d); [reflexivity | exact H2]].
  - apply insert_review_shape in H. destruct H as (kept & Huser & _ & _ & ->). split.
    + intros r Hr. cbn in Hr. apply in_app_or in Hr. destruct Hr as [Hr | [<- | []]].
      * now apply Hrev.
      * exact Huser.
    + intros x Hx. destruct (Hreact x Hx) as [H1 H2]. split; [|exact H2].
      eapply (review_exists_more d); [reflexivity | exact H1].
  - split; [exact Hrev|]. intros x Hx. cbn in Hx. apply filter_In in Hx.
    destruct Hx as [Hx _]. now apply Hreact.
  - split.
    + intros r Hr. cbn in Hr. apply filter_In in Hr. destruct Hr as [Hr _].
      now apply Hrev.
    + intros x Hx. cbn in Hx. apply filter_In in Hx. destruct Hx as [Hx Hne].
      apply negb_true_iff, Z.eqb_neq in Hne.
      destruct (Hreact x Hx) as [H1 H2]. split; [|exact H2].
      now rewrite review_exists_after_delete.
  - apply update_reaction_shape in H. destruct H as (ty & _ & ->).
    split; [exact Hrev|]. intros x Hx. cbn in Hx. apply in_map_iff in Hx.
    destruct Hx as (x0 & Hx0 & Hin). specialize (Hreact x0 Hin).
    destruct ((x_review_id x0 =? reviewId) && (x_user_id x0 =? userId));
      subst x; exact Hreact.
  - apply insert_reaction_shape in H. destruct H as (ty & _ & Hr & Hu & _ & ->).
    split; [exact Hrev|]. intros x Hx. cbn in Hx. apply in_app_or in Hx.
    destruct Hx as [Hx | [<- | []]]; [now apply Hreact|]. split; assumption.
  - split.
    + intros r Hr. cbn in Hr. apply in_map_iff in Hr. destruct Hr as (r0 & Hr0 & Hin).
      specialize (Hrev r0 Hin). destruct (r_id r0 =? id); subst r; exact Hrev.
    + intros x Hx. destruct (Hreact x Hx) as [H1 H2]. split; [|exact H2].
      now rewrite review_exists_flagged.
Qed.

(** X9: the references between the tables hold after any run of requests
    on a database in which they held: every review is by a user of the
    [users] table and every reaction is to a review of the [reviews] table,
    so that a deleted review leaves no reaction behind. *)
Theorem requests_keep_references
    (order : Z -> Z -> list Review -> list Review) (to_float : Q -> Q)
    (bcrypt_hash : string -> string) (bcrypt_compare : string -> string -> bool)
    (reqs : list Request) (w : World) :
  Schema.references_ok (w_db w) = true ->
  Schema.references_ok
    (w_db (snd (serve_all order to_float bcrypt_hash bcrypt_compare reqs w))) = true.
Proof.
  apply (serve_all_keeps order to_float bcrypt_hash bcrypt_compare Schema.references_ok).
  exact references_ok_kept.
Qed.

Lemma requests_keep_references_witness :
  Schema.references_ok
    (w_db (snd (serve_all stable_order (fun q => q) (fun p => p) String.eqb
                  [PostReviews (Bearer jane) 4 "Fine";
                   PostReviewsIdReactions (Bearer john) 5 "like";
                   DeleteReviewsId (Bearer the_admin) 1;
                   DeleteReviewsId (Bearer jane) 5]
                  seed_world)))
  = true.
Proof.
  apply (requests_keep_references stable_order (fun q => q) (fun p => p) String.eqb).
  reflexivity.
Defined.

(** ** Ids and ratings of [reviews] *)

Lemma review_ids_fresh_kept (now : Z) (d d' : DB) :
  accepted_write now d d' ->
  Store.review_ids_fresh d = true -> Store.review_ids_fresh d' = true.
Proof.
  unfold Store.review_ids_fresh. intros Hw Hok.
  rewrite forallb_forall in Hok. apply forallb_forall.
  inversion Hw; subst; clear Hw; try exact Hok.
  - apply insert_user_shape in H.
    destruct H as (name' & email' & hash' & _ & _ & _ & _ & _ & ->). exact Hok.
  - apply insert_review_shape in H. destruct H as (kept & _ & _ & -> & ->). cbn.
    intros r Hr. apply Z.ltb_lt. apply in_app_or in Hr.
    destruct Hr as [Hr | [<- | []]]; [|cbn; lia].
    specialize (Hok r Hr). apply Z.ltb_lt in Hok. lia.
  - cbn. intros r Hr. apply filter_In in Hr. now apply Hok.
  - apply update_reaction_shape in H. destruct H as (ty & _ & ->). exact Hok.
  - apply insert_reaction_shape in H. destruct H as (ty & _ & _ & _ & _ & ->). exact Hok.
  - cbn. intros r Hr. apply in_map_iff in Hr. destruct Hr as (r0 & Hr0 & Hin).
    specialize (Hok r0 Hin). destruct (r_id r0 =? id); subst r; exact Hok.
Qed.

Lemma ratings_ok_kept (now : Z) (d d' : DB) :
  accepted_write now d d' ->
  Schema.ratings_ok d = true -> Schema.ratings_ok d' = true.
Proof.
  unfold Schema.ratings_ok. intros Hw Hok.
  rewrite forallb_forall in Hok. apply forallb_forall.
  inversion Hw; subst; clear Hw; try exact Hok.
  - apply insert_user_shape in H.
    destruct H as (name' & email' & hash' & _ & _ & _ & _ & _ & ->). exact Hok.
  - apply insert_review_shape in H. destruct H as (kept & _ & Hr & _ & ->). cbn.
    intros r Hin. apply in_app_or in Hin.
    destruct Hin as [Hin | [<- | []]]; [now apply Hok|]. cbn.
    apply andb_true_iff. split; apply Z.leb_le; lia.
  - cbn. intros r Hr. apply filter_In in Hr. now apply Hok.
  - apply update_reaction_shape in H. destruct H as (ty & _ & ->). exact Hok.
  - apply insert_reaction_shape in H. destruct H as (ty & _ & _ & _ & _ & ->). exact Hok.
  - cbn. intros r Hr. apply in_map_iff in Hr. destruct Hr as (r0 & Hr0 & Hin).
    specialize (Hok r0 Hin). destruct (r_id r0 =? id); subst r; exact Hok.
Qed.

(** X10: after any run of requests on a database whose ratings were all
    within 1..5 and whose review ids were all below the next id to hand
    out, the same is true: no request stores a rating outside 1..5, and a
    new review never takes the id of a review in the table. *)
Theorem requests_keep_ratings_and_ids
    (order : Z -> Z -> list Review -> list Review) (to_float : Q -> Q)
    (bcrypt_hash : string -> string) (bcrypt_compare : string -> string -> bool)
    (reqs : list Request) (w : World) :
  let after := w_db (snd (serve_all order to_float bcrypt_hash bcrypt_compare reqs w)) in
  (Schema.ratings_ok (w_db w) = true -> Schema.ratings_ok after = true)
  /\ (Store.review_ids_fresh (w_db w) = true -> Store.review_ids_fresh after = true).
Proof.
  cbv zeta. split.
  - apply (serve_all_keeps order to_float bcrypt_hash bcrypt_compare Schema.ratings_ok).
    exact ratings_ok_kept.
  - apply (serve_all_keeps order to_float bcrypt_hash bcrypt_compare
             Store.review_ids_fresh).
    exact review_ids_fresh_kept.
Qed.

Lemma requests_keep_ratings_and_ids_witness :
  let after :=
    w_db (snd (serve_all stable_order (fun q => q) (fun p => p) String.eqb
                 [PostReviews (Bearer jane) 9 "Off the scale";
                  PostReviews (Bearer jane) 4 "Fine";
                  DeleteReviewsId (Bearer jane) 5;
                  PostReviews (Bearer john) 1 "Poor"]
                 seed_world)) in
  Schema.ratings_ok after = true /\ Store.review_ids_fresh after = true.
Proof.
  cbv zeta.
  pose proof (requests_keep_ratings_and_ids stable_order (fun q => q) (fun p => p)
                String.eqb
                [PostReviews (Bearer jane) 9 "Off the scale";
                 PostReviews (Bearer jane) 4 "Fine";
                 DeleteReviewsId (Bearer jane) 5;
                 PostReviews (Bearer john) 1 "Poor"] seed_world) as [Hr Hi].
  cbv zeta in *. split; [apply Hr | apply Hi]; reflexivity.
Defined.

(** ** Reactions: when they are accepted and what they move *)

Lemma has_reacted_select (d : DB) (reviewId userId : Z) :
  has_reacted d reviewId userId = false
  <-> Store.select_reactions reviewId userId d = [].
Proof. unfold has_reacted, Store.select_reactions. symmetry. apply filter_nil_existsb. Qed.

Lemma react_run (user : Principal) (reviewId : Z) (t : string) (w : World) :
  is_reaction_type t = true ->
  let d := w_db w in
  let uid := p_id user in
  let answer := post_reviews_id_reactions (Bearer user) reviewId t w in
  (Store.review_exists d reviewId = false ->
   answer = (json 404 (Message "Review not found"), sent (SelectReviewId reviewId) w))
  /\ (Store.review_exists d reviewId = true ->
      has_reacted d reviewId uid = true ->
      status (fst answer) = 200
      /\ Store.update_reaction t reviewId uid d = Ok (tt, w_db (snd answer)))
  /\ (Store.review_exists d reviewId = true ->
      has_reacted d reviewId uid = false ->
      Store.user_exists d uid = true ->
      status (fst answer) = 200
      /\ Store.insert_reaction reviewId uid t (w_now w) d = Ok (tt, w_db (snd answer)))
  /\ (Store.review_exists d reviewId = true ->
      has_reacted d reviewId uid = false ->
      Store.user_exists d uid = false ->
      status (fst answer) = 500 /\ w_db (snd answer) = d).
Proof.
  intros Ht. cbv zeta.
  destruct (reaction_of_string_valid t Ht) as (ty & Hty & _).
  unfold post_reviews_id_reactions, authenticateToken. rewrite Ht. cbn [negb].
  run_handler.
  destruct (Store.review_exists (w_db w) reviewId) eqn:Hrev.
  - assert (Hc : (Store.count (Store.select_review_id reviewId (w_db w)) =? 0) = false).
    { destruct (_ =? 0) eqn:E; [|reflexivity]. apply count_zero in E.
      apply review_exists_select in Hrev. congruence. }
    rewrite Hc. cbn.
    destruct (has_reacted (w_db w) reviewId (p_id user)) eqn:Hhas.
    + assert (Hs : (0 <? Store.count
                            (Store.select_reactions reviewId (p_id user) (w_db w))) = true).
      { apply count_pos. intros E. apply has_reacted_select in E. congruence. }
      rewrite Hs. cbn. unfold Store.update_reaction. rewrite Hty. cbn.
      repeat split; intros; try discriminate; reflexivity.
    + assert (Hs : (0 <? Store.count
                            (Store.select_reactions reviewId (p_id user) (w_db w))) = false).
      { apply has_reacted_select in Hhas. now rewrite Hhas. }
      rewrite Hs. cbn. unfold Store.insert_reaction. rewrite Hty, Hrev.
      unfold has_reacted in Hhas.
      destruct (Store.user_exists (w_db w) (p_id user)); cbn.
      * rewrite Hhas. cbn. repeat split; intros; try discriminate; reflexivity.
      * repeat split; intros; try discriminate; reflexivity.
  - assert (Hc : (Store.count (Store.select_review_id reviewId (w_db w)) =? 0) = true).
    { apply count_zero.
      destruct (Store.select_review_id reviewId (w_db w)) eqn:E; [reflexivity|].
      assert (Store.review_exists (w_db w) reviewId = true)
        by (apply review_exists_select; congruence).
      congruence. }
    rewrite Hc. repeat split; intros; try discriminate; reflexivity.
Qed.

(** X11: the answer to a reaction of type 'like' or 'dislike'.  It is 404
    when the review does not exist; 200 when it exists and either the
    principal has reacted to it before or the principal is a user of the
    [users] table; and 500 when the review exists and the principal is
    not such a user and has not reacted.  The tables change on 200 only. *)
Theorem react_outcomes (user : Principal) (reviewId : Z) (t : string) (w : World) :
  is_reaction_type t = true ->
  let d := w_db w in
  let answer := post_reviews_id_reactions (Bearer user) reviewId t w in
  status (fst answer)
  = (if Store.review_exists d reviewId
     then if has_reacted d reviewId (p_id user) || Store.user_exists d (p_id user)
          then 200 else 500
     else 404)
  /\ (status (fst answer) <> 200 -> w_db (snd answer) = d).
Proof.
  intros Ht. cbv zeta.
  destruct (react_run user reviewId t w Ht) as (H404 & Hup & Hin & H500).
  cbv zeta in *.
  destruct (Store.review_exists (w_db w) reviewId).
  - destruct (has_reacted (w_db w) reviewId (p_id user)).
    + destruct (Hup eq_refl eq_refl) as [Hs _]. cbn [orb]. split; [exact Hs | congruence].
    + destruct (Store.user_exists (w_db w) (p_id user)).
      * destruct (Hin eq_refl eq_refl eq_refl) as [Hs _]. split; [exact Hs | congruence].
      * destruct (H500 eq_refl eq_refl eq_refl) as [Hs Hd]. split; [exact Hs | now intros _].
  - rewrite (H404 eq_refl). split; reflexivity.
Qed.

Lemma react_outcomes_witness :
  status (fst (post_reviews_id_reactions (Bearer john) 9 "like" seed_world)) = 404
  /\ status (fst (post_reviews_id_reactions (Bearer john) 3 "like" seed_world)) = 200
  /\ status (fst (post_reviews_id_reactions
                    (Bearer (mkPrincipal 77 "gone@example.com" RoleUser)) 3 "like"
                    seed_world)) = 500.
Proof.
  split; [|split].
  - apply (react_outcomes john 9 "like" seed_world eq_refl).
  - apply (react_outcomes john 3 "like" seed_world eq_refl).
  - apply (react_outcomes (mkPrincipal 77 "gone@example.com" RoleUser) 3 "like"
             seed_world eq_refl).
Defined.

Lemma update_without_row (reviewId userId : Z) (ty : ReactionType) (l : list Reaction) :
  existsb (fun x => (x_review_id x =? reviewId) && (x_user_id x =? userId)) l = false ->
  map (fun x =>
         if (x_review_id x =? reviewId) && (x_user_id x =? userId)
         then mkReaction (x_id x) (x_review_id x) (x_user_id x) ty (x_created_at x)
         else x) l
  = l.
Proof.
  induction l as [|x l IH]; cbn; [reflexivity|].
  intros H. apply orb_false_iff in H. destruct H as [Hx Hl].
  now rewrite Hx, IH.
Qed.

Lemma no_row_no_typed_row (reviewId userId : Z) (ty : ReactionType) (l : list Reaction) :
  existsb (fun x => (x_review_id x =? reviewId) && (x_user_id x =? userId)) l = false ->
  existsb (fun x => (x_review_id x =? reviewId) && (x_user_id x =? userId)
                    && reaction_eqb (x_reaction_type x) ty) l = false.
Proof.
  induction l as [|x l IH]; cbn; [reflexivity|].
  intros H. apply orb_false_iff in H. destruct H as [Hx Hl].
  now rewrite Hx, IH.
Qed.

Lemma count_cons {A} (f : A -> bool) (a : A) (l : list A) :
  Store.count (filter f (a :: l))
  = (if f a then 1 else 0) + Store.count (filter f l).
Proof.
  unfold Store.count. cbn [filter]. destruct (f a); cbn [List.length]; lia.
Qed.

(** Retyping the one row of a pair moves one unit between the two counts of
    its review. *)
Lemma update_moves_counts (reviewId userId : Z) (ty ty' : ReactionType)
    (l : list Reaction) :
  Store.nodupb (map Store.reaction_key l) = true ->
  existsb (fun x => (x_review_id x =? reviewId) && (x_user_id x =? userId)) l = true ->
  Store.count
    (filter (fun x => (x_review_id x =? reviewId) && reaction_eqb (x_reaction_type x) ty')
            (map (fun x =>
                    if (x_review_id x =? reviewId) && (x_user_id x =? userId)
                    then mkReaction (x_id x) (x_review_id x) (x_user_id x) ty
                                    (x_created_at x)
                    else x) l))
  = Store.count
      (filter (fun x => (x_review_id x =? reviewId)
                        && reaction_eqb (x_reaction_type x) ty') l)
    + (if reaction_eqb ty ty' then 1 else 0)
    - (if existsb (fun x => (x_review_id x =? reviewId) && (x_user_id x =? userId)
                            && reaction_eqb (x_reaction_type x) ty') l
       then 1 else 0).
Proof.
  induction l as [|x l IH]; [discriminate|].
  intros Hu Hex. cbn [map Store.nodupb Store.reaction_key] in Hu.
  apply andb_true_iff in Hu. destruct Hu as [Hx Hl]. apply negb_true_iff in Hx.
  cbn [map existsb] in *.
  destruct ((x_review_id x =? reviewId) && (x_user_id x =? userId)) eqn:K.
  - apply andb_true_iff in K. destruct K as [K1 K2].
    pose proof K1 as K1'. pose proof K2 as K2'. apply Z.eqb_eq in K1', K2'.
    assert (Hnone : existsb (fun x => (x_review_id x =? reviewId)
                                      && (x_user_id x =? userId)) l = false).
    { apply filter_nil_existsb. apply key_absent_select. now rewrite <- K1', <- K2'. }
    rewrite (update_without_row _ _ _ _ Hnone),
      (no_row_no_typed_row _ _ ty' _ Hnone), !count_cons.
    cbn [x_review_id x_reaction_type]. rewrite K1. cbn [andb orb].
    rewrite orb_false_r.
    destruct (reaction_eqb ty ty'), (reaction_eqb (x_reaction_type x) ty'); lia.
  - cbn [orb andb] in *. rewrite !count_cons, (IH Hl Hex). lia.
Qed.

(** X12: what an accepted reaction does to the counts of its review, in a
    table that respects the unique key.  The count of the requested type
    goes up by one unless the principal's reaction was of that type
    already; the count of the other type goes down by one if the
    principal's reaction was of that other type, and is unchanged
    otherwise.  So a first reaction adds, a switch moves, a repeat changes
    nothing. *)
Theorem react_moves_counts (user : Principal) (reviewId : Z) (t : string)
    (ty : ReactionType) (w : World) :
  Store.unique_reaction (w_db w) = true ->
  reaction_of_string t = Some ty ->
  status (fst (post_reviews_id_reactions (Bearer user) reviewId t w)) = 200 ->
  let d := w_db w in
  let d' := w_db (snd (post_reviews_id_reactions (Bearer user) reviewId t w)) in
  Store.count_reactions reviewId ty d'
  = Store.count_reactions reviewId ty d
    + (if has_reacted_with d reviewId (p_id user) ty then 0 else 1)
  /\ forall other,
       other <> ty ->
       Store.count_reactions reviewId other d'
       = Store.count_reactions reviewId other d
         - (if has_reacted_with d reviewId (p_id user) other then 1 else 0).
Proof.
  intros Hu Hty Hok. cbv zeta.
  destruct (react_answers user reviewId t w _ _ (surjective_pairing _) Hok)
    as (ty0 & Hty0 & _ & _ & Hcase & _).
  assert (ty0 = ty) by congruence. subst ty0.
  assert (Hself : reaction_eqb ty ty = true) by now destruct ty.
  assert (Hother : forall other, other <> ty -> reaction_eqb ty other = false).
  { intros other Hne. destruct ty, other; try reflexivity; congruence. }
  unfold Store.count_reactions, has_reacted_with.
  destruct Hcase as [[Hsel Hup] | [Hsel Hin]].
  - apply update_reaction_shape in Hup. destruct Hup as (ty1 & Hty1 & ->).
    assert (ty1 = ty) by congruence. subst ty1. cbn [review_reactions].
    assert (Hex : existsb (fun x => (x_review_id x =? reviewId)
                                    && (x_user_id x =? p_id user))
                          (review_reactions (w_db w)) = true).
    { destruct (existsb _ _) eqn:E; [reflexivity|].
      apply filter_nil_existsb in E. unfold Store.select_reactions in Hsel. congruence. }
    split.
    + rewrite (update_moves_counts _ _ _ _ _ Hu Hex), Hself.
      match goal with |- context [if ?b then 1 else 0] => destruct b end; lia.
    + intros other Hne.
      rewrite (update_moves_counts _ _ _ _ _ Hu Hex), (Hother other Hne). lia.
  - apply insert_reaction_shape in Hin. destruct Hin as (ty1 & Hty1 & _ & _ & Hnone & ->).
    assert (ty1 = ty) by congruence. subst ty1. cbn [review_reactions].
    unfold has_reacted in Hnone.
    rewrite !(no_row_no_typed_row _ _ _ _ Hnone).
    split.
    + rewrite filter_app. unfold Store.count. rewrite length_app. cbn.
      rewrite Z.eqb_refl, Hself. cbn. lia.
    + intros other Hne.
      rewrite filter_app. unfold Store.count. rewrite length_app. cbn.
      rewrite Z.eqb_refl, (Hother other Hne). cbn. rewrite (no_row_no_typed_row _ _ _ _ Hnone).
      lia.
Qed.

Lemma react_moves_counts_witness :
  let d' := w_db (snd (post_reviews_id_reactions (Bearer jane) 1 "dislike" seed_world)) in
  Store.count_reactions 1 Dislike d' = 1 /\ Store.count_reactions 1 Like d' = 1.
Proof.
  cbv zeta.
  destruct (react_moves_counts jane 1 "dislike" Dislike seed_world eq_refl eq_refl eq_refl)
    as [Hd Hl].
  cbv zeta in *. split.
  - rewrite Hd. reflexivity.
  - rewrite (Hl Like) by discriminate. reflexivity.
Defined.

(** ** What a reaction and a deletion leave alone *)

Lemma react_db_cases (auth : Auth) (reviewId : Z) (t : string) (w : World) :
  let d' := w_db (snd (post_reviews_id_reactions auth reviewId t w)) in
  d' = w_db w
  \/ (exists user, auth = Bearer user
                   /\ Store.update_reaction t reviewId (p_id user) (w_db w) = Ok (tt, d'))
  \/ (exists user, auth = Bearer user
                   /\ Store.insert_reaction reviewId (p_id user) t (w_now w) (w_db w)
                      = Ok (tt, d')).
Proof.
  cbv zeta. destruct auth as [| |user]; try (left; reflexivity).
  unfold post_reviews_id_reactions, authenticateToken.
  destruct (is_reaction_type t); cbn [negb]; [|left; reflexivity].
  run_handler.
  destruct (Store.count (Store.select_review_id reviewId (w_db w)) =? 0);
    [left; reflexivity|].
  cbn.
  destruct (0 <? Store.count (Store.select_reactions reviewId (p_id user) (w_db w))); cbn.
  - destruct (Store.update_reaction t reviewId (p_id user) (w_db w))
      as [[[] d']|e] eqn:E; cbn; [|left; reflexivity].
    right. left. exists user. split; [reflexivity | exact E].
  - destruct (Store.insert_reaction reviewId (p_id user) t (w_now w) (w_db w))
      as [[[] d']|e] eqn:E; cbn; [|left; reflexivity].
    right. right. exists user. split; [reflexivity | exact E].
Qed.

Lemma update_elsewhere (reviewId userId other : Z) (ty ty' : ReactionType)
    (l : list Reaction) :
  other <> reviewId ->
  filter (fun x => (x_review_id x =? other) && reaction_eqb (x_reaction_type x) ty')
         (map (fun x =>
                 if (x_review_id x =? reviewId) && (x_user_id x =? userId)
                 then mkReaction (x_id x) (x_review_id x) (x_user_id x) ty
                                 (x_created_at x)
                 else x) l)
  = filter (fun x => (x_review_id x =? other) && reaction_eqb (x_reaction_type x) ty') l.
Proof.
  intros Hne. induction l as [|x l IH]; [reflexivity|]. cbn [map filter].
  destruct ((x_review_id x =? reviewId) && (x_user_id x =? userId)) eqn:K.
  - apply andb_true_iff in K. destruct K as [K1 _]. apply Z.eqb_eq in K1.
    cbn [x_review_id x_reaction_type].
    assert (Hoff : (x_review_id x =? other) = false) by (apply Z.eqb_neq; congruence).
    rewrite Hoff. cbn [andb]. exact IH.
  - now rewrite IH.
Qed.

(** X13: a reaction request, whatever its answer, leaves the [users] and
    [reviews] tables as they were and does not change the like or dislike
    count of any other review. *)
Theorem react_leaves_other_reviews (auth : Auth) (reviewId : Z) (t : string) (w : World) :
  let d' := w_db (snd (post_reviews_id_reactions auth reviewId t w)) in
  users d' = users (w_db w)
  /\ reviews d' = reviews (w_db w)
  /\ forall other ty,
       other <> reviewId ->
       Store.count_reactions other ty d' = Store.count_reactions other ty (w_db w).
Proof.
  cbv zeta.
  destruct (react_db_cases auth reviewId t w) as [Hsame | [(user & _ & Hup) | (user & _ & Hin)]];
    cbv zeta in *.
  - rewrite Hsame. repeat split.
  - apply update_reaction_shape in Hup. destruct Hup as (ty0 & _ & ->).
    split; [reflexivity|]. split; [reflexivity|].
    intros other ty Hne. unfold Store.count_reactions. cbn [review_reactions].
    now rewrite update_elsewhere.
  - apply insert_reaction_shape in Hin. destruct Hin as (ty0 & _ & _ & _ & _ & ->).
    split; [reflexivity|]. split; [reflexivity|].
    intros other ty Hne. unfold Store.count_reactions. cbn [review_reactions].
    rewrite filter_app. cbn.
    assert (Hoff : (reviewId =? other) = false) by (apply Z.eqb_neq; congruence).
    rewrite Hoff. cbn. now rewrite app_nil_r.
Qed.

Lemma delete_db_cases (auth : Auth) (reviewId : Z) (w : World) :
  let d' := w_db (snd (delete_reviews_id auth reviewId w)) in
  d' = w_db w
  \/ d' = Store.delete_review reviewId (Store.delete_reactions reviewId (w_db w)).
Proof.
  cbv zeta. destruct auth as [| |user]; try (left; reflexivity).
  unfold delete_reviews_id, authenticateToken. run_handler.
  destruct (Store.select_review_owner reviewId (w_db w)) as [|owner l];
    [left; reflexivity|].
  destruct (negb (role_eqb (p_role user) RoleAdmin) && negb (owner =? p_id user));
    [left | right]; reflexivity.
Qed.

Lemma find_other_after_delete (id other : Z) (l : list Review) :
  other <> id ->
  find (fun r => r_id r =? other) (filter (fun r => negb (r_id r =? id)) l)
  = find (fun r => r_id r =? other) l.
Proof.
  intros Hne. induction l as [|r l IH]; [reflexivity|]. cbn [filter find].
  destruct (r_id r =? id) eqn:E; cbn [negb find].
  - apply Z.eqb_eq in E.
    assert (Hoff : (r_id r =? other) = false) by (apply Z.eqb_neq; congruence).
    now rewrite Hoff.
  - now rewrite IH.
Qed.

Lemma filter_implied {A} (f g : A -> bool) (l : list A) :
  (forall a, f a = true -> g a = true) ->
  filter f (filter g l) = filter f l.
Proof.
  intros H. induction l as [|a l IH]; [reflexivity|]. cbn [filter].
  destruct (g a) eqn:G; cbn [filter].
  - now rewrite IH.
  - rewrite IH. destruct (f a) eqn:F; [|reflexivity].
    apply H in F. congruence.
Qed.

(** X14: a delete request, whatever its answer, leaves the [users] table
    as it was, and every review with another id, with its like and dislike
    counts, as it was. *)
Theorem delete_leaves_other_reviews (auth : Auth) (reviewId : Z) (w : World) :
  let d' := w_db (snd (delete_reviews_id auth reviewId w)) in
  users d' = users (w_db w)
  /\ forall other,
       other <> reviewId ->
       review_by_id d' other = review_by_id (w_db w) other
       /\ forall ty,
            Store.count_reactions other ty d' = Store.count_reactions other ty (w_db w).
Proof.
  cbv zeta. destruct (delete_db_cases auth reviewId w) as [-> | ->].
  - split; [reflexivity|]. intros other _. split; [reflexivity|]. reflexivity.
  - split; [reflexivity|]. intros other Hne. split.
    + unfold review_by_id. cbn [reviews Store.delete_review Store.delete_reactions].
      now apply find_other_after_delete.
    + intros ty. unfold Store.count_reactions.
      cbn [review_reactions Store.delete_review Store.delete_reactions].
      rewrite !filter_implied; [reflexivity| |];
        intros x Hx; apply andb_true_iff in Hx; destruct Hx as [Hx _];
        apply Z.eqb_eq in Hx; apply negb_true_iff, Z.eqb_neq; congruence.
Qed.

Lemma react_leaves_other_reviews_witness :
  Store.count_reactions 1 Like
    (w_db (snd (post_reviews_id_reactions (Bearer jane) 2 "dislike" seed_world)))
  = 2.
Proof.
  pose proof (react_leaves_other_reviews (Bearer jane) 2 "dislike" seed_world)
    as (_ & _ & Hother).
  cbv zeta in Hother. rewrite (Hother 1 Like) by discriminate. reflexivity.
Defined.

Lemma delete_leaves_other_reviews_witness :
  Store.count_reactions 1 Like (w_db (snd (delete_reviews_id (Bearer jane) 2 seed_world)))
  = 2.
Proof.
  pose proof (delete_leaves_other_reviews (Bearer jane) 2 seed_world) as (_ & Hother).
  cbv zeta in Hother.
  destruct (Hother 1 ltac:(discriminate)) as [_ Hcount].
  rewrite Hcount. reflexivity.
Defined.

(** ** Creating and deleting *)

Lemma fresh_ids_differ (d : DB) (r : Review) :
  Store.review_ids_fresh d = true -> In r (reviews d) ->
  (r_id r =? next_review_id d) = false.
Proof.
  unfold Store.review_ids_fresh. rewrite forallb_forall. intros H Hin.
  specialize (H r Hin). apply Z.ltb_lt in H. apply Z.eqb_neq. lia.
Qed.

Lemma no_reaction_to_next_review (d : DB) (x : Reaction) :
  Store.review_ids_fresh d = true ->
  Schema.references_ok d = true ->
  In x (review_reactions d) ->
  (x_review_id x =? next_review_id d) = false.
Proof.
  intros Hfresh Hrefs Hin. apply references_ok_spec in Hrefs.
  destruct Hrefs as [_ Hreact]. destruct (Hreact x Hin) as [Hex _].
  unfold Store.review_exists in Hex. apply existsb_exists in Hex.
  destruct Hex as (r & Hr & Hid). apply Z.eqb_eq in Hid.
  rewrite <- Hid. now apply fresh_ids_differ.
Qed.

Lemma find_absent {A} (f : A -> bool) (l : list A) :
  (forall x, In x l -> f x = false) -> find f l = None.
Proof.
  induction l as [|a l IH]; [reflexivity|]. intros H. cbn.
  rewrite (H a) by now left. apply IH. intros x Hx. apply H. now right.
Qed.

Lemma find_snoc_absent {A} (f : A -> bool) (l : list A) (a : A) :
  find f l = None -> find f (l ++ [a]) = if f a then Some a else None.
Proof.
  induction l as [|b l IH]; [reflexivity|]. cbn.
  destruct (f b); [discriminate | exact IH].
Qed.

Lemma filter_all_in {A} (f : A -> bool) (l : list A) :
  (forall a, In a l -> f a = true) -> filter f l = l.
Proof.
  induction l as [|a l IH]; [reflexivity|]. intros H. cbn.
  rewrite (H a) by now left. f_equal. apply IH. intros x Hx. apply H. now right.
Qed.

(** The INSERT of a review is accepted when the comment fits its column,
    the rating as the INT column takes it is within 1..5 and the author
    exists. *)
Lemma insert_review_accepts (userId : Z) (rating : Q) (comment : string) (score : Q)
    (label : SentimentLabel) (now : Z) (d : DB) :
  1 <= Store.to_int rating <= 5 ->
  Store.fits_comment comment = true ->
  Store.user_exists d userId = true ->
  Store.insert_review userId rating comment score label now d
  = Ok (next_review_id d,
        mkDB (users d)
             (reviews d ++ [mkReview (next_review_id d) userId (Store.to_int rating)
                                     comment (Some score) (Some label) 0 0 false now])
             (review_reactions d)
             (next_user_id d) (next_review_id d + 1) (next_reaction_id d)).
Proof.
  intros Hrating Hfits Huser. unfold Store.insert_review. cbv zeta.
  rewrite (column_fits _ _ Hfits), Huser. cbn [negb].
  replace ((Store.to_int rating <? Store.int_min)
           || (Store.int_max <? Store.to_int rating)) with false.
  - replace ((1 <=? Store.to_int rating) && (Store.to_int rating <=? 5)) with true
      by (symmetry; apply andb_true_iff; split; apply Z.leb_le; lia).
    reflexivity.
  - symmetry. apply orb_false_iff. unfold Store.int_min, Store.int_max.
    split; apply Z.ltb_ge; [change (- 2 ^ 31) with (-2147483648)
                           | change (2 ^ 31 - 1) with 2147483647]; lia.
Qed.

(** X15: writing a review and deleting it again.  In a database whose
    references hold and whose review ids are below the next id, a review
    written by an existing user, with a comment of at most 65535
    characters and a rating that the INT column takes as a number within
    1..5, is answered 201 and gets the next id, and its deletion by the
    same user is answered 200 and leaves the [users], [reviews] and
    [review_reactions] tables exactly as they were before the review was
    written. *)
Theorem create_then_delete_restores (to_float : Q -> Q)
    (user : Principal) (rating : Q) (comment : string) (w : World) :
  1 <= Store.to_int rating <= 5 ->
  Store.fits_comment comment = true ->
  Store.user_exists (w_db w) (p_id user) = true ->
  Store.review_ids_fresh (w_db w) = true ->
  Schema.references_ok (w_db w) = true ->
  let created := post_reviews to_float (Bearer user) rating comment w in
  let deleted := delete_reviews_id (Bearer user) (next_review_id (w_db w)) (snd created) in
  status (fst created) = 201
  /\ status (fst deleted) = 200
  /\ users (w_db (snd deleted)) = users (w_db w)
  /\ reviews (w_db (snd deleted)) = reviews (w_db w)
  /\ review_reactions (w_db (snd deleted)) = review_reactions (w_db w).
Proof.
  intros Hrating Hfits Huser Hfresh Hrefs. cbv zeta.
  rewrite post_reviews_run. cbv zeta.
  rewrite insert_review_accepts by assumption.
  cbn [negb fst snd].
  split; [reflexivity|].
  set (row := mkReview (next_review_id (w_db w)) (p_id user) (Store.to_int rating) comment
                       (Some (to_float (w_random w (w_drawn w))))
                       (Some (label_of (w_random w (w_drawn w)))) 0 0 false (w_now w)).
  match goal with
  | |- context [delete_reviews_id _ _ ?after] => set (w1 := after)
  end.
  assert (Hfound : review_by_id (w_db w1) (next_review_id (w_db w)) = Some row).
  { unfold review_by_id, w1. cbn [w_db sent reviews].
    rewrite find_snoc_absent.
    - cbn. now rewrite Z.eqb_refl.
    - apply find_absent. intros r Hr. now apply fresh_ids_differ. }
  assert (Hcan : canDelete user row = true).
  { unfold canDelete, row. cbn. rewrite Z.eqb_refl. apply orb_true_r. }
  destruct (delete_carried_out user _ w1 row Hfound Hcan) as [Hok Hdb].
  split; [exact Hok|]. rewrite Hdb. unfold w1. cbn [w_db sent].
  split; [reflexivity|]. split.
  - cbn [reviews Store.delete_review Store.delete_reactions].
    rewrite filter_app. cbn. rewrite Z.eqb_refl. cbn. rewrite app_nil_r.
    apply filter_all_in. intros r Hr. now rewrite (fresh_ids_differ _ _ Hfresh Hr).
  - cbn [review_reactions Store.delete_review Store.delete_reactions].
    rewrite filter_twice. apply filter_all_in. intros x Hx.
    now rewrite (no_reaction_to_next_review _ _ Hfresh Hrefs Hx).
Qed.

Lemma create_then_delete_restores_witness :
  let created := post_reviews (fun q => q) (Bearer jane) 4 "Fine" seed_world in
  let deleted := delete_reviews_id (Bearer jane) 5 (snd created) in
  status (fst deleted) = 200
  /\ reviews (w_db (snd deleted)) = seed_reviews
  /\ review_reactions (w_db (snd deleted)) = seed_reactions.
Proof.
  cbv zeta.
  pose proof (create_then_delete_restores (fun q => q) jane 4 "Fine" seed_world
                ltac:(vm_compute; split; discriminate) eq_refl eq_refl eq_refl eq_refl)
    as (_ & Hok & _ & Hr & Hx).
  cbv zeta in *. split; [exact Hok|]. split; [exact Hr | exact Hx].
Defined.

(** ** What the listings show *)

Section Showing.

Variable order : Z -> Z -> list Review -> list Review.
Hypothesis order_ok : orders_by_created_at_desc order.

(** The rows of a public listing are rows of the [reviews] table that pass
    the filter. *)
Lemma get_reviews_rows (page limit userId : option Z) (w : World) (r : Review) :
  In r (response_reviews (fst (get_reviews order page limit userId w))) ->
  In r (reviews (w_db w)) /\ Store.where_user userId r = true.
Proof.
  rewrite get_reviews_run. cbv zeta.
  destruct (ordered_window_shape order (or_default limit 6)
              (Js.mul (Js.sub (or_default page 1) 1) (or_default limit 6))
              (filter (Store.where_user userId) (reviews (w_db w))))
    as [[e ->] | (l & o & ->)]; [intros []|].
  unfold response_reviews. cbn. rewrite map_listed_reviews. intros Hin.
  apply window_In in Hin.
  eapply Permutation_in in Hin; [|apply Permutation_sym, order_ok].
  apply filter_In in Hin. exact Hin.
Qed.

Lemma get_admin_reviews_rows (auth : Auth) (page limit : option Z)
    (search : option string) (w : World) (r : Review) :
  In r (response_reviews (fst (get_admin_reviews order auth page limit search w))) ->
  In r (reviews (w_db w)).
Proof.
  destruct auth as [| |user]; try (intros []).
  destruct (p_role user) eqn:Hrole.
  - unfold get_admin_reviews, authenticateToken, isAdmin. rewrite Hrole. intros [].
  - rewrite get_admin_reviews_run by assumption. cbv zeta.
    match goal with
    | |- context [ordered_window order ?l ?o ?rows] =>
        destruct (ordered_window_shape order l o rows) as [[e ->] | (l' & o' & ->)]
    end; [intros []|].
    unfold response_reviews. cbn. rewrite map_listed_reviews. intros Hin.
    apply window_In in Hin.
    eapply Permutation_in in Hin; [|apply Permutation_sym, order_ok].
    apply filter_In in Hin. apply Hin.
Qed.

End Showing.

Lemma delete_accepted (user : Principal) (reviewId : Z) (w : World) :
  status (fst (delete_reviews_id (Bearer user) reviewId w)) = 200 ->
  w_db (snd (delete_reviews_id (Bearer user) reviewId w))
  = Store.delete_review reviewId (Store.delete_reactions reviewId (w_db w)).
Proof.
  unfold delete_reviews_id, authenticateToken. run_handler.
  destruct (Store.select_review_owner reviewId (w_db w)) as [|owner l];
    [cbn; discriminate|].
  destruct (negb (role_eqb (p_role user) RoleAdmin) && negb (owner =? p_id user));
    [cbn; discriminate | reflexivity].
Qed.

Lemma review_gone_after_delete (id : Z) (d : DB) :
  Store.review_exists (Store.delete_review id (Store.delete_reactions id d)) id = false.
Proof.
  unfold Store.review_exists. cbn.
  induction (reviews d) as [|r l IH]; [reflexivity|]. cbn.
  destruct (r_id r =? id) eqn:E; cbn; [exact IH | now rewrite E, IH].
Qed.

(** X16: a deleted review is gone for every later request that finds the
    tables as the deletion left them: a reaction to its id, by anyone and
    of either type, is answered 404, and no page of the public or the
    admin listing has a row with its id. *)
Theorem deleted_review_is_gone
    (order : Z -> Z -> list Review -> list Review)
    (order_ok : orders_by_created_at_desc order)
    (user : Principal) (reviewId : Z) (w : World) :
  status (fst (delete_reviews_id (Bearer user) reviewId w)) = 200 ->
  forall later,
    w_db later = w_db (snd (delete_reviews_id (Bearer user) reviewId w)) ->
    (forall other t,
        is_reaction_type t = true ->
        status (fst (post_reviews_id_reactions (Bearer other) reviewId t later)) = 404)
    /\ (forall page limit userId r,
           In r (response_reviews (fst (get_reviews order page limit userId later))) ->
           r_id r <> reviewId)
    /\ (forall auth page limit search r,
           In r (response_reviews
                   (fst (get_admin_reviews order auth page limit search later))) ->
           r_id r <> reviewId).
Proof.
  intros Hok later Hdb. rewrite (delete_accepted _ _ _ Hok) in Hdb.
  assert (Hrows : forall r, In r (reviews (w_db later)) -> r_id r <> reviewId).
  { intros r Hin. rewrite Hdb in Hin. cbn in Hin. apply filter_In in Hin.
    destruct Hin as [_ Hne]. now apply negb_true_iff, Z.eqb_neq in Hne. }
  split; [|split].
  - intros other t Ht.
    destruct (react_run other reviewId t later Ht) as (H404 & _). cbv zeta in H404.
    rewrite H404; [reflexivity|]. rewrite Hdb. apply review_gone_after_delete.
  - intros page limit userId r Hin. apply Hrows.
    now apply (get_reviews_rows order order_ok page limit userId).
  - intros auth page limit search r Hin. apply Hrows.
    now apply (get_admin_reviews_rows order order_ok auth page limit search).
Qed.

Lemma deleted_review_is_gone_witness :
  let later := snd (delete_reviews_id (Bearer the_admin) 1 seed_world) in
  status (fst (post_reviews_id_reactions (Bearer jane) 1 "like" later)) = 404
  /\ map r_id (response_reviews (fst (get_reviews stable_order None None None later)))
     = [2; 3; 4].
Proof.
  cbv zeta.
  destruct (deleted_review_is_gone stable_order stable_order_ok the_admin 1 seed_world
              eq_refl _ eq_refl) as (Hreact & _).
  split; [apply Hreact; reflexivity | reflexivity].
Defined.

(** X17: the counts a reaction request answers are the counts the listings
    show.  After a reaction answered 200 with [likes] and [dislikes], every
    row for that review in any page of the public or the admin listing,
    read from the tables as the reaction left them, carries those two
    numbers. *)
Theorem listings_show_answered_counts
    (order : Z -> Z -> list Review -> list Review)
    (user : Principal) (reviewId : Z) (t : string) (w : World) :
  let answer := post_reviews_id_reactions (Bearer user) reviewId t w in
  status (fst answer) = 200 ->
  exists likes dislikes,
    body (fst answer) = Counts likes dislikes
    /\ forall later,
         w_db later = w_db (snd answer) ->
         (forall page limit userId item,
             In item (response_items (fst (get_reviews order page limit userId later))) ->
             r_id (lr_review item) = reviewId ->
             lr_likes item = likes /\ lr_dislikes item = dislikes)
         /\ (forall auth page limit search item,
                In item (response_items
                           (fst (get_admin_reviews order auth page limit search later))) ->
                r_id (lr_review item) = reviewId ->
                lr_likes item = likes /\ lr_dislikes item = dislikes).
Proof.
  cbv zeta. intros Hok.
  destruct (react_answers user reviewId t w _ _ (surjective_pairing _) Hok)
    as (_ & _ & _ & _ & _ & Hbody).
  eexists. eexists. split; [exact Hbody|].
  intros later Hdb. split.
  - intros page limit userId item Hin Hid.
    destruct (get_reviews_items_live order page limit userId later item Hin) as [Hl Hd].
    now rewrite Hl, Hd, Hid, Hdb.
  - intros auth page limit search item Hin Hid.
    destruct (get_admin_reviews_items_live order auth page limit search later item Hin)
      as [Hl Hd].
    now rewrite Hl, Hd, Hid, Hdb.
Qed.

Lemma listings_show_answered_counts_witness :
  let answer := post_reviews_id_reactions (Bearer jane) 2 "dislike" seed_world in
  body (fst answer) = Counts 1 1
  /\ map (fun item => (lr_likes item, lr_dislikes item))
         (filter (fun item => r_id (lr_review item) =? 2)
                 (response_items
                    (fst (get_reviews stable_order None None None (snd answer)))))
     = [(1, 1)].
Proof.
  cbv zeta.
  destruct (listings_show_answered_counts stable_order jane 2 "dislike" seed_world eq_refl)
    as (l & dl & Hbody & _).
  split; [|reflexivity].
  rewrite Hbody. vm_compute in Hbody. inversion Hbody. reflexivity.
Defined.

Lemma newest_is_first (row : Review) (l : list Review) :
  sorted_by created_at_desc l = true ->
  In row l ->
  (forall r, In r l -> r = row \/ r_created_at r < r_created_at row) ->
  hd_error l = Some row.
Proof.
  destruct l as [|h t]; [intros _ []|]. intros Hs Hin Hrest. cbn.
  destruct (Hrest h (or_introl eq_refl)) as [-> | Hlt]; [reflexivity|].
  destruct Hin as [-> | Hin]; [reflexivity|].
  pose proof (sorted_head_newest h t Hs row Hin). lia.
Qed.

Lemma hd_error_firstn {A} (n : nat) (l : list A) :
  (1 <= n)%nat -> hd_error (firstn n l) = hd_error l.
Proof. destruct n; [lia|]. now destruct l. Qed.

Lemma hd_error_map {A B} (f : A -> B) (l : list A) :
  hd_error (map f l) = option_map f (hd_error l).
Proof. now destruct l. Qed.

Lemma create_review_rows (to_float : Q -> Q) (user : Principal) (rating : Q)
    (comment : string) (w : World) :
  1 <= Store.to_int rating <= 5 ->
  Store.fits_comment comment = true ->
  Store.user_exists (w_db w) (p_id user) = true ->
  let d' := w_db (snd (post_reviews to_float (Bearer user) rating comment w)) in
  reviews d'
  = reviews (w_db w)
      ++ [mkReview (next_review_id (w_db w)) (p_id user) (Store.to_int rating) comment
                   (Some (to_float (w_random w (w_drawn w))))
                   (Some (label_of (w_random w (w_drawn w)))) 0 0 false (w_now w)]
  /\ review_reactions d' = review_reactions (w_db w).
Proof.
  intros Hrating Hfits Huser. cbv zeta.
  rewrite post_reviews_run. cbv zeta.
  rewrite insert_review_accepts by assumption.
  split; reflexivity.
Qed.

Lemma filter_nil_all {A} (f : A -> bool) (l : list A) :
  (forall a, In a l -> f a = false) -> filter f l = [].
Proof.
  induction l as [|a l IH]; [reflexivity|]. intros H. cbn.
  rewrite (H a) by now left. apply IH. intros x Hx. apply H. now right.
Qed.

(** X18: a new review heads the listing.  When every review in the table
    was created before the present instant, a review that is then written
    (a comment of at most 65535 characters, a rating that the INT column
    takes as a number within 1..5, by an existing user, ids below the next
    id, references holding) is the first row of the first page of the
    unfiltered public listing, for any limit in force from 1 to below
    [2 ^ 53], and is shown with no like and no dislike. *)
Theorem new_review_heads_listing
    (order : Z -> Z -> list Review -> list Review)
    (order_ok : orders_by_created_at_desc order) (to_float : Q -> Q)
    (user : Principal) (rating : Q) (comment : string) (limit : option Z) (w : World) :
  1 <= Store.to_int rating <= 5 ->
  Store.fits_comment comment = true ->
  Store.user_exists (w_db w) (p_id user) = true ->
  Store.review_ids_fresh (w_db w) = true ->
  Schema.references_ok (w_db w) = true ->
  (forall r, In r (reviews (w_db w)) -> r_created_at r < w_now w) ->
  1 <= or_default limit 6 < 2 ^ 53 ->
  forall later,
    w_db later = w_db (snd (post_reviews to_float (Bearer user) rating comment w)) ->
    exists item,
      hd_error (response_items (fst (get_reviews order None limit None later))) = Some item
      /\ r_id (lr_review item) = next_review_id (w_db w)
      /\ r_user_id (lr_review item) = p_id user
      /\ r_comment (lr_review item) = comment
      /\ r_rating (lr_review item) = Store.to_int rating
      /\ lr_likes item = 0
      /\ lr_dislikes item = 0.
Proof.
  intros Hrating Hfits Huser Hfresh Hrefs Hpast Hl later Hdb.
  destruct (create_review_rows to_float user rating comment w Hrating Hfits Huser)
    as [Hrows Hreact].
  set (row := mkReview (next_review_id (w_db w)) (p_id user) (Store.to_int rating) comment
                       (Some (to_float (w_random w (w_drawn w))))
                       (Some (label_of (w_random w (w_drawn w)))) 0 0 false (w_now w))
    in *.
  rewrite <- Hdb in Hrows, Hreact.
  rewrite get_reviews_page
    by (apply exact_paging_intro; cbn [or_default]; rewrite ?pow_2_53 in *; lia).
  cbv zeta.
  unfold response_items. cbn [body json]. change (or_default None 1) with 1.
  rewrite filter_all by reflexivity. rewrite Hrows.
  replace (Z.to_nat ((1 - 1) * or_default limit 6)) with 0%nat by lia. cbn [skipn].
  rewrite hd_error_map, hd_error_firstn by lia.
  rewrite (newest_is_first row).
  - cbn [option_map]. eexists. split; [reflexivity|]. cbn.
    unfold Store.count_reactions. rewrite Hreact.
    rewrite !filter_nil_all; [repeat split; reflexivity| |];
      intros x Hx; now rewrite (no_reaction_to_next_review _ _ Hfresh Hrefs Hx).
  - apply order_ok.
  - eapply Permutation_in; [apply order_ok|]. apply in_or_app. right. now left.
  - intros r Hin. eapply Permutation_in in Hin; [|apply Permutation_sym, order_ok].
    apply in_app_or in Hin. destruct Hin as [Hin | [<- | []]]; [|now left].
    right. cbn. now apply Hpast.
Qed.

Lemma new_review_heads_listing_witness :
  let later := snd (post_reviews (fun q => q) (Bearer jane) 4 "Fine" seed_world) in
  map (fun item => (r_id (lr_review item), lr_likes item, lr_dislikes item))
      (firstn 1 (response_items (fst (get_reviews stable_order None (Some 3) None later))))
  = [(5, 0, 0)].
Proof.
  cbv zeta.
  destruct (new_review_heads_listing stable_order stable_order_ok (fun q => q) jane 4
              "Fine" (Some 3) seed_world ltac:(vm_compute; split; discriminate)
              eq_refl eq_refl eq_refl eq_refl)
    with (later := snd (post_reviews (fun q => q) (Bearer jane) 4 "Fine" seed_world))
    as (item & Hhd & Hid & _ & _ & _ & Hl & Hd).
  - intros r Hin. cbn in Hin.
    repeat (destruct Hin as [<- | Hin]; [cbn; lia|]). destruct Hin.
  - vm_compute. split; [discriminate | reflexivity].
  - reflexivity.
  - destruct (response_items _) as [|first rest]; [discriminate|].
    cbn in Hhd. inversion Hhd; subst. cbn. now rewrite Hid, Hl, Hd.
Defined.

(** X19: the public listing of one user's reviews.  With a [userId], every
    row of every page is a review of the table written by that user, and,
    for a page and a limit that JavaScript computes with exactly (both
    from 1 on after the defaults, the limit and the offset
    [(page - 1) * limit] below [2 ^ 53]), the answer is a listing whose
    [total] is the number of that user's reviews. *)
Theorem listing_by_user
    (order : Z -> Z -> list Review -> list Review)
    (order_ok : orders_by_created_at_desc order)
    (page limit : option Z) (userId : Z) (w : World) :
  let answer := fst (get_reviews order page limit (Some userId) w) in
  (forall r, In r (response_reviews answer) ->
             In r (reviews (w_db w)) /\ r_user_id r = userId)
  /\ (exact_paging (or_default page 1) (or_default limit 6) = true ->
      exists items pagination,
        body answer = Listing items pagination
        /\ pg_total pagination
           = Store.count (filter (fun r => r_user_id r =? userId) (reviews (w_db w)))).
Proof.
  cbv zeta. split.
  - intros r Hin.
    destruct (get_reviews_rows order order_ok page limit (Some userId) w r Hin) as [H1 H2].
    split; [exact H1|]. cbn in H2. now apply Z.eqb_eq in H2.
  - intros Hexact. rewrite get_reviews_page by assumption. cbv zeta.
    eexists. eexists. split; reflexivity.
Qed.

Lemma listing_by_user_witness :
  map r_id (response_reviews (fst (get_reviews stable_order None None (Some 2) seed_world)))
  = [1; 3]
  /\ exists items pagination,
       body (fst (get_reviews stable_order None None (Some 2) seed_world))
       = Listing items pagination
       /\ pg_total pagination = 2.
Proof.
  split; [reflexivity|].
  destruct (listing_by_user stable_order stable_order_ok None None 2 seed_world)
    as [_ Htotal].
  destruct (Htotal eq_refl) as (items & pagination & Hb & Ht).
  exists items, pagination. split; [exact Hb|]. rewrite Ht. reflexivity.
Defined.

(** ** Flagging, once more *)

Lemma find_flagged (isFlagged : bool) (id other : Z) (l : list Review) :
  find (fun r => r_id r =? other)
       (map (fun r =>
               if r_id r =? id
               then mkReview (r_id r) (r_user_id r) (r_rating r) (r_comment r)
                             (r_sentiment_score r) (r_sentiment_label r)
                             (r_likes r) (r_dislikes r) isFlagged (r_created_at r)
               else r) l)
  = option_map
      (fun r =>
         if r_id r =? id
         then mkReview (r_id r) (r_user_id r) (r_rating r) (r_comment r)
                       (r_sentiment_score r) (r_sentiment_label r)
                       (r_likes r) (r_dislikes r) isFlagged (r_created_at r)
         else r)
      (find (fun r => r_id r =? other) l).
Proof.
  induction l as [|r l IH]; [reflexivity|]. cbn [map find].
  destruct (r_id r =? id) eqn:E; cbn [r_id];
    destruct (r_id r =? other) eqn:F; cbn [option_map]; try rewrite E; auto.
Qed.

(** X20: what an admin's flag request writes.  The addressed review keeps
    every column but [is_flagged], which becomes the requested value;
    every other review, every user and every reaction is as before; and
    of two flag requests for one review the second decides: the tables
    are as if only the second had been sent. *)
Theorem flag_writes_one_column (user : Principal) (reviewId : Z)
    (isFlagged : bool) (w : World) :
  p_role user = RoleAdmin ->
  let d' := w_db (snd (put_admin_reviews_id_flag (Bearer user) reviewId isFlagged w)) in
  users d' = users (w_db w)
  /\ review_reactions d' = review_reactions (w_db w)
  /\ List.length (reviews d') = List.length (reviews (w_db w))
  /\ (forall other, other <> reviewId ->
                    review_by_id d' other = review_by_id (w_db w) other)
  /\ review_by_id d' reviewId
     = option_map
         (fun r => mkReview (r_id r) (r_user_id r) (r_rating r) (r_comment r)
                            (r_sentiment_score r) (r_sentiment_label r)
                            (r_likes r) (r_dislikes r) isFlagged (r_created_at r))
         (review_by_id (w_db w) reviewId)
  /\ forall again second,
       p_role again = RoleAdmin ->
       w_db (snd (put_admin_reviews_id_flag (Bearer again) reviewId second
                    (snd (put_admin_reviews_id_flag (Bearer user) reviewId isFlagged w))))
       = w_db (snd (put_admin_reviews_id_flag (Bearer again) reviewId second w)).
Proof.
  intros Hadmin. cbv zeta.
  destruct (flag_sets_requested_value user reviewId isFlagged w Hadmin) as (_ & Hdb & _).
  rewrite Hdb.
  split; [reflexivity|]. split; [reflexivity|].
  split; [cbn; apply length_map|].
  split; [|split].
  - intros other Hne. unfold review_by_id. cbn [reviews Store.update_flag].
    rewrite find_flagged.
    destruct (find (fun r => r_id r =? other) (reviews (w_db w))) as [r|] eqn:F;
      [|reflexivity].
    cbn. apply find_some in F. destruct F as [_ F]. apply Z.eqb_eq in F.
    replace (r_id r =? reviewId) with false; [reflexivity|].
    symmetry. apply Z.eqb_neq. congruence.
  - unfold review_by_id. cbn [reviews Store.update_flag].
    rewrite find_flagged.
    destruct (find (fun r => r_id r =? reviewId) (reviews (w_db w))) as [r|] eqn:F;
      [|reflexivity].
    cbn. apply find_some in F. destruct F as [_ F]. now rewrite F.
  - intros again second Hadmin2.
    destruct (flag_sets_requested_value again reviewId second w Hadmin2) as (_ & -> & _).
    destruct (flag_sets_requested_value again reviewId second
                (snd (put_admin_reviews_id_flag (Bearer user) reviewId isFlagged w))
                Hadmin2) as (_ & -> & _).
    rewrite Hdb. unfold Store.update_flag. cbn. f_equal.
    rewrite map_map. apply map_ext. intros r.
    destruct (r_id r =? reviewId) eqn:E; cbn; now rewrite E.
Qed.

Lemma flag_writes_one_column_witness :
  let d' := w_db (snd (put_admin_reviews_id_flag (Bearer the_admin) 2 true seed_world)) in
  option_map r_is_flagged (review_by_id d' 2) = Some true
  /\ review_by_id d' 1 = review_by_id seed_db 1.
Proof.
  cbv zeta.
  destruct (flag_writes_one_column the_admin 2 true seed_world eq_refl)
    as (_ & _ & _ & Hother & Hthis & _).
  cbv zeta in *. split.
  - rewrite Hthis. reflexivity.
  - apply Hother. discriminate.
Defined.

(** ** Search terms that are patterns *)

Lemma like_any_one (s : list ascii) :
  Sql.like_chars [Sql.percent; Sql.underscore; Sql.percent] s
  = match s with [] => false | _ :: _ => true end.
Proof.
  destruct s as [|c s]; [reflexivity|].
  rewrite like_percent.
  change (Sql.like_chars [Sql.underscore; Sql.percent] (c :: s))
    with (Sql.like_chars [Sql.percent] s).
  now rewrite like_trailing_percent.
Qed.

Lemma like_any (s : list ascii) :
  Sql.like_chars [Sql.percent; Sql.percent; Sql.percent] s = true.
Proof.
  induction s as [|c s IH].
  - reflexivity.
  - rewrite like_percent.
    rewrite (like_percent [Sql.percent] (c :: s)), like_trailing_percent. reflexivity.
Qed.

(** X21: two search terms that are read as patterns.  The admin search
    for the one character [_] keeps exactly the reviews whose comment is
    not empty, and the search for [%] keeps every review, whatever the
    comments say: for a page and a limit that JavaScript computes with
    exactly (both from 1 on after the defaults, the limit and the offset
    [(page - 1) * limit] below [2 ^ 53]), the answer is a listing whose
    [total] is the number of reviews with a non-empty comment,
    respectively the number of all reviews. *)
Theorem search_terms_read_as_patterns
    (order : Z -> Z -> list Review -> list Review)
    (order_ok : orders_by_created_at_desc order)
    (user : Principal) (page limit : option Z) (w : World) :
  p_role user = RoleAdmin ->
  exact_paging (or_default page 1) (or_default limit 10) = true ->
  (exists items pagination,
      body (fst (get_admin_reviews order (Bearer user) page limit (Some "_") w))
      = Listing items pagination
      /\ pg_total pagination
         = Store.count
             (filter (fun r => negb (String.eqb (r_comment r) EmptyString))
                     (reviews (w_db w))))
  /\ (exists items pagination,
         body (fst (get_admin_reviews order (Bearer user) page limit (Some "%") w))
         = Listing items pagination
         /\ pg_total pagination = Store.count (reviews (w_db w))).
Proof.
  intros Hadmin Hexact. split.
  - rewrite get_admin_reviews_page by assumption. cbv zeta.
    eexists. eexists. split; [reflexivity|]. cbn [pg_total]. f_equal.
    apply filter_ext. intros r. unfold Store.where_comment_like, Sql.like.
    cbn [append list_ascii_of_string].
    change (Sql.like_chars ["%"%char; "_"%char; "%"%char])
      with (Sql.like_chars [Sql.percent; Sql.underscore; Sql.percent]).
    rewrite like_any_one. now destruct (r_comment r).
  - rewrite get_admin_reviews_page by assumption. cbv zeta.
    eexists. eexists. split; [reflexivity|]. cbn [pg_total]. f_equal.
    apply filter_all. intros r. unfold Store.where_comment_like, Sql.like.
    cbn [append list_ascii_of_string]. apply like_any.
Qed.

Lemma search_terms_read_as_patterns_witness :
  exists items pagination,
    body (fst (get_admin_reviews stable_order (Bearer the_admin) None None (Some "_")
                 seed_world))
    = Listing items pagination
    /\ pg_total pagination = 4.
Proof.
  destruct (search_terms_read_as_patterns stable_order stable_order_ok the_admin None None
              seed_world eq_refl eq_refl) as [(items & pagination & Hb & Ht) _].
  exists items, pagination. split; [exact Hb|]. rewrite Ht. reflexivity.
Defined.

(** ** The classifier *)

Lemma gt_spec (a b : Q) : gt a b = true <-> (b < a)%Q.
Proof.
  unfold gt. rewrite negb_true_iff. split.
  - intros H. apply Qnot_le_lt. intros Hle. apply Qle_bool_iff in Hle. congruence.
  - intros H. destruct (Qle_bool a b) eqn:E; [|reflexivity].
    apply Qle_bool_iff in E. exfalso. now apply (Qlt_not_le b a).
Qed.

Lemma lt_spec (a b : Q) : lt a b = true <-> (a < b)%Q.
Proof. apply gt_spec. Qed.

(** X22: the mock classifier.  A call draws one number from the random
    source, returns it as the score, notes the text, and touches neither
    the tables nor the log of statements.  The label is 'positive' exactly
    for a score above 0.7 and 'negative' exactly for a score below 0.3, so
    that the scores 0.3 and 0.7 themselves are 'neutral'. *)
Theorem classifier_thresholds (text : string) (w : World) :
  let score := w_random w (w_drawn w) in
  analyzeSentiment text w
  = (Ok (score, label_of score),
     mkWorld (w_db w) (w_now w) (w_queries w) (w_random w) (S (w_drawn w))
             (w_classified w ++ [text]))
  /\ (label_of score = Positive <-> (7 # 10 < score)%Q)
  /\ (label_of score = Negative <-> (score < 3 # 10)%Q)
  /\ (label_of score = Neutral <-> (3 # 10 <= score)%Q /\ (score <= 7 # 10)%Q).
Proof.
  cbv zeta. split; [reflexivity|].
  generalize (w_random w (w_drawn w)) as s. intros s. unfold label_of.
  pose proof (gt_spec s (7 # 10)) as Hgt. pose proof (lt_spec s (3 # 10)) as Hlt.
  destruct (gt s (7 # 10)) eqn:G; [|destruct (lt s (3 # 10)) eqn:L].
  - assert (H7 : (7 # 10 < s)%Q) by now apply Hgt.
    split; [tauto|]. split.
    + split; [discriminate|]. intros H3. exfalso.
      apply (Qlt_irrefl s). eapply Qlt_trans; [exact H3|].
      eapply Qlt_trans; [|exact H7]. reflexivity.
    + split; [discriminate|]. intros [_ H]. exfalso. now apply (Qlt_not_le _ _ H7).
  - assert (H3 : (s < 3 # 10)%Q) by now apply Hlt.
    split; [|split].
    + split; [discriminate|]. intros H7. apply Hgt in H7. discriminate.
    + tauto.
    + split; [discriminate|]. intros [H _]. exfalso. now apply (Qlt_not_le _ _ H3).
  - split; [|split].
    + split; [discriminate|]. intros H7. apply Hgt in H7. discriminate.
    + split; [discriminate|]. intros H3. apply Hlt in H3. discriminate.
    + split; [|reflexivity]. intros _. split.
      * apply Qnot_lt_le. intros H. apply Hlt in H. discriminate.
      * apply Qnot_lt_le. intros H. apply Hgt in H. discriminate.
Qed.

Lemma classifier_thresholds_witness :
  fst (analyzeSentiment "Great!" seed_world) = Ok ((1 # 2)%Q, Neutral)
  /\ label_of (7 # 10) = Neutral
  /\ label_of (71 # 100) = Positive.
Proof.
  destruct (classifier_thresholds "Great!" seed_world) as (Hrun & _).
  cbv zeta in Hrun. rewrite Hrun.
  split; [reflexivity|].
  pose (edge := mkWorld seed_db 100 [] (fun _ => (7 # 10)%Q) 0 []).
  pose (above := mkWorld seed_db 100 [] (fun _ => (71 # 100)%Q) 0 []).
  destruct (classifier_thresholds "a" edge) as (_ & _ & _ & Hneutral).
  destruct (classifier_thresholds "a" above) as (_ & Hpositive & _).
  cbv zeta in *. split.
  - apply Hneutral. split; unfold Qle; cbn; lia.
  - apply Hpositive. unfold Qlt; cbn; lia.
Defined.
